(** * Lessons App Backend: the order and spaces endpoints of [server.js]

    A shallow embedding of the two request handlers that write to the
    store, [app.post('/api/order')] and [app.put('/api/lessons')], with
    the part of the JavaScript runtime they rely on (truthiness, the
    conversions behind [RegExp.prototype.test], [Number] and
    [String.prototype.trim]) and the two collection operations they call
    ([insertOne] and [updateOne] with the positional operator). *)

From Stdlib Require Import ZArith NArith List String Ascii Bool Lia.
From Stdlib Require Import DecimalString.
From Stdlib Require Import Floats.PrimFloat Floats.SpecFloat Floats.FloatOps.
Import ListNotations.

Local Open Scope string_scope.
Local Open Scope Z_scope.

(** ** JavaScript numbers

    A JavaScript number is an IEEE 754 binary64 value: the kernel's
    primitive [float], with one NaN, two zeros and two infinities. *)

Module JsNumber.

Definition number := float.

(** [Number.isFinite] on a value that is already a number. *)
Definition isFinite (x : number) : bool := PrimFloat.is_finite x.

(** Integral finite numbers, read off the mantissa and exponent. *)
Definition isInteger (x : number) : bool :=
  match Prim2SF x with
  | S754_zero _ => true
  | S754_finite _ m e =>
      if 0 <=? e then true
      else Z.eqb (Z.land (Zpos m) (Z.ones (- e))) 0
  | _ => false
  end.

(** The binary64 value nearest to [m * 10 ^ e] (ties to even), with the
    sign [neg]; [m = 0] gives the zero of that sign. *)
Definition of_decimal (neg : bool) (m : N) (e : Z) : number :=
  match m with
  | N0 => if neg then neg_zero else zero
  | Npos p =>
      if 0 <=? e
      then SF2Prim (binary_normalize prec emax
                      (cond_Zopp neg (Zpos p * 10 ^ e)) 0 neg)
      else SF2Prim (SFdiv prec emax
                      (S754_finite neg p 0)
                      (S754_finite false (Z.to_pos (10 ^ (- e))) 0))
  end.

(** The exact value of a positive finite number as a fraction
    [num / den]. *)
Definition fraction (m : positive) (e : Z) : Z * Z :=
  if 0 <=? e then (Zpos m * 2 ^ e, 1) else (Zpos m, 2 ^ (- e)).

(** The [n] with [10^(n-1) <= num/den < 10^n].  Below 1 it is found by
    scaling up by tens; the smallest positive number is above [10^(-324)],
    so 400 steps always reach it. *)
Fixpoint scale_up (fuel : nat) (num den : Z) (j : Z) : Z :=
  match fuel with
  | O => j
  | S fuel' => if den <=? num then j else scale_up fuel' (num * 10) den (j + 1)
  end.

Definition decimal_digits (z : Z) : Z :=
  Z.of_nat (String.length (NilEmpty.string_of_uint (N.to_uint (Z.to_N z)))).

Definition magnitude (num den : Z) : Z :=
  if den <=? num then decimal_digits (num / den)
  else - scale_up 400 (num * 10) den 0.

(** [num/den] scaled by [10^(-p)], as a fraction again. *)
Definition scaled (num den p : Z) : Z * Z :=
  if 0 <=? p then (num, den * 10 ^ p) else (num * 10 ^ (- p), den).

(** Which of the two decimals [s * 10^p] and [(s+1) * 10^p] around
    [num/den] reads back as [x]; of two that do, the nearer one, and the
    even one on a tie. *)
Definition pick (x : number) (num den s p : Z) : option Z :=
  let reads z := PrimFloat.Leibniz.eqb (of_decimal false (Z.to_N z) p) x in
  let '(a, b) := scaled num den p in
  (* distance of s and of s+1 to a/b, both times b *)
  let dlo := a - s * b in
  let dhi := (s + 1) * b - a in
  match reads s && (0 <? s), reads (s + 1) with
  | true, true =>
      if dlo <? dhi then Some s
      else if dhi <? dlo then Some (s + 1)
      else if Z.even s then Some s else Some (s + 1)
  | true, false => Some s
  | false, true => Some (s + 1)
  | false, false => None
  end.

(** The shortest digit string [s] (with [k] digits) and the exponent [n]
    of Number::toString: [s * 10^(n-k)] reads back as [x] and [k] is as
    small as possible.  Seventeen digits read back as any binary64
    value, so the search started at [k = 1] with fuel 17 finds one. *)
Fixpoint shortest (fuel : nat) (x : number) (num den n0 k : Z) : Z * Z :=
  match fuel with
  | O => (0, n0)
  | S fuel' =>
      let p := n0 - k in
      let '(a, b) := scaled num den p in
      match pick x num den (a / b) p with
      | Some s => if s =? 10 ^ k then (10 ^ (k - 1), n0 + 1) else (s, n0)
      | None => shortest fuel' x num den n0 (k + 1)
      end
  end.

Definition digits_of (z : Z) : string :=
  NilZero.string_of_uint (N.to_uint (Z.to_N z)).

Fixpoint zeros (n : nat) : string :=
  match n with O => "" | S n' => String "0" (zeros n') end.

Definition substring_from (n : nat) (s : string) : string :=
  String.substring n (String.length s - n) s.

(** Number::toString for a positive finite number. *)
Definition positive_toString (x : number) (m : positive) (e : Z) : string :=
  let '(num, den) := fraction m e in
  let '(s, n) := shortest 17 x num den (magnitude num den) 1 in
  let ds := digits_of s in
  let k := Z.of_nat (String.length ds) in
  if (k <=? n) && (n <=? 21) then
    ds ++ zeros (Z.to_nat (n - k))
  else if (0 <? n) && (n <=? 21) then
    String.substring 0 (Z.to_nat n) ds ++ "." ++ substring_from (Z.to_nat n) ds
  else if (-6 <? n) && (n <=? 0) then
    "0." ++ zeros (Z.to_nat (- n)) ++ ds
  else
    let ex := n - 1 in
    let tail := (if 0 <=? ex then "e+" else "e-") ++ digits_of (Z.abs ex) in
    if k =? 1 then ds ++ tail
    else String.substring 0 1 ds ++ "." ++ substring_from 1 ds ++ tail.

(** Number::toString (radix 10). *)
Definition toString (x : number) : string :=
  match Prim2SF x with
  | S754_nan => "NaN"
  | S754_zero _ => "0"
  | S754_infinity neg => if neg then "-Infinity" else "Infinity"
  | S754_finite neg m e =>
      (if neg then "-" else "") ++ positive_toString (PrimFloat.abs x) m e
  end.

End JsNumber.

Import JsNumber.

(** ** JavaScript strings

    A string is the sequence of the bytes of its UTF-8 text.  The two
    patterns of the handlers only accept ASCII characters, so they read
    the same over bytes as over UTF-16 code units. *)

Module JsString.

Definition code (c : ascii) : N := N_of_ascii c.

Definition is_digit (c : ascii) : bool :=
  ((48 <=? code c) && (code c <=? 57))%N.

Definition is_letter (c : ascii) : bool :=
  (((65 <=? code c) && (code c <=? 90)) || ((97 <=? code c) && (code c <=? 122)))%N.

(** The character class [[a-zA-Z ]]. *)
Definition letter_or_space (c : ascii) : bool :=
  is_letter c || (code c =? 32)%N.

(** [/^[...]+$/.test(s)] for a character class: one character or more,
    every one of them in the class (without the [m] flag [$] is the end
    of the input only). *)
Definition test_class_plus (cls : ascii -> bool) (s : string) : bool :=
  match list_ascii_of_string s with
  | [] => false
  | l => forallb cls l
  end.

(** [/^[a-zA-Z ]+$/] and [/^[0-9]+$/]. *)
Definition name_pattern : string -> bool := test_class_plus letter_or_space.
Definition phone_pattern : string -> bool := test_class_plus is_digit.

(** WhiteSpace and LineTerminator code points, in UTF-8: TAB, LF, VT, FF,
    CR and SP in one byte; U+00A0 in two; U+1680, U+2000 to U+200A,
    U+2028, U+2029, U+202F, U+205F, U+3000 and U+FEFF in three. *)
Definition ws1 (c : ascii) : bool :=
  (((9 <=? code c) && (code c <=? 13)) || (code c =? 32))%N.

Definition ws2 (c1 c2 : ascii) : bool :=
  ((code c1 =? 194) && (code c2 =? 160))%N.

Definition ws3 (c1 c2 c3 : ascii) : bool :=
  (((code c1 =? 225) && (code c2 =? 154) && (code c3 =? 128))
   || ((code c1 =? 226) && (code c2 =? 128)
       && ((128 <=? code c3) && (code c3 <=? 138)
           || (code c3 =? 168) || (code c3 =? 169) || (code c3 =? 175)))
   || ((code c1 =? 226) && (code c2 =? 129) && (code c3 =? 159))
   || ((code c1 =? 227) && (code c2 =? 128) && (code c3 =? 128))
   || ((code c1 =? 239) && (code c2 =? 187) && (code c3 =? 191)))%N.

(** Drop the white space a byte list starts with; [back] reads the
    multi-byte characters right to left, for a reversed list. *)
Fixpoint drop_space (back : bool) (l : list ascii) : list ascii :=
  match l with
  | [] => []
  | c1 :: r1 =>
      if ws1 c1 then drop_space back r1
      else match r1 with
           | [] => l
           | c2 :: r2 =>
               if (if back then ws2 c2 c1 else ws2 c1 c2) then drop_space back r2
               else match r2 with
                    | [] => l
                    | c3 :: r3 =>
                        if (if back then ws3 c3 c2 c1 else ws3 c1 c2 c3)
                        then drop_space back r3
                        else l
                    end
           end
  end.

(** [String.prototype.trim]. *)
Definition trim (s : string) : string :=
  string_of_list_ascii
    (rev (drop_space true (rev (drop_space false (list_ascii_of_string s))))).

(** The first run of characters of a class, and what follows it. *)
Fixpoint span (cls : ascii -> bool) (l : list ascii) : list ascii * list ascii :=
  match l with
  | c :: r => if cls c then let '(a, b) := span cls r in (c :: a, b) else ([], l)
  | [] => ([], [])
  end.

(** The value of a digit in bases up to sixteen. *)
Definition digit_value (c : ascii) : option N :=
  if is_digit c then Some (code c - 48)%N
  else if ((65 <=? code c) && (code c <=? 70))%N then Some (code c - 55)%N
  else if ((97 <=? code c) && (code c <=? 102))%N then Some (code c - 87)%N
  else None.

(** A non-empty run of digits of the base, read most significant first. *)
Fixpoint digits_value (base : N) (acc : N) (l : list ascii) : option N :=
  match l with
  | [] => Some acc
  | c :: r =>
      match digit_value c with
      | Some d => if (d <? base)%N then digits_value base (acc * base + d)%N r else None
      | None => None
      end
  end.

Definition numeral (base : N) (l : list ascii) : option N :=
  match l with [] => None | _ => digits_value base 0%N l end.

(** ExponentPart, or nothing: [e] or [E], a sign or none, digits. *)
Definition exponent_part (l : list ascii) : option Z :=
  match l with
  | [] => Some 0
  | c :: r =>
      if ((code c =? 101) || (code c =? 69))%N then
        match r with
        | s :: r' =>
            if (code s =? 45)%N then option_map (fun n => - Z.of_N n) (numeral 10 r')
            else if (code s =? 43)%N then option_map Z.of_N (numeral 10 r')
            else option_map Z.of_N (numeral 10 r)
        | [] => None
        end
      else None
  end.

(** StrUnsignedDecimalLiteral without [Infinity]: digits, a fraction or
    none, an exponent or none, with a digit before or after the point;
    the result is the mantissa and the power of ten. *)
Definition unsigned_decimal (l : list ascii) : option (N * Z) :=
  let '(int_part, r1) := span is_digit l in
  let '(frac_part, r2) :=
    match r1 with
    | c :: r => if (code c =? 46)%N then span is_digit r else ([], r1)
    | [] => ([], r1)
    end in
  match (int_part ++ frac_part)%list with
  | [] => None
  | ds =>
      match digits_value 10 0%N ds, exponent_part r2 with
      | Some m, Some e => Some (m, e - Z.of_nat (List.length frac_part))
      | _, _ => None
      end
  end.

(** StrDecimalLiteral: a sign or none, then [Infinity] or a decimal. *)
Definition signed_decimal (l : list ascii) : number :=
  let '(neg, body) :=
    match l with
    | c :: r => if (code c =? 45)%N then (true, r)
                else if (code c =? 43)%N then (false, r) else (false, l)
    | [] => (false, l)
    end in
  if String.eqb (string_of_list_ascii body) "Infinity"
  then (if neg then neg_infinity else infinity)
  else match unsigned_decimal body with
       | Some (m, e) => of_decimal neg m e
       | None => nan
       end.

(** NonDecimalIntegerLiteral: [0x], [0o] or [0b] in either case, then
    digits of that base; no sign. *)
Definition non_decimal (l : list ascii) : option number :=
  match l with
  | z :: p :: ds =>
      if (code z =? 48)%N then
        let base :=
          if ((code p =? 120) || (code p =? 88))%N then Some 16%N
          else if ((code p =? 111) || (code p =? 79))%N then Some 8%N
          else if ((code p =? 98) || (code p =? 66))%N then Some 2%N
          else None in
        match base with
        | Some b => Some match numeral b ds with
                         | Some n => of_decimal false n 0
                         | None => nan
                         end
        | None => None
        end
      else None
  | _ => None
  end.

(** StringToNumber: white space around the literal is dropped, the empty
    text is [+0], and text outside the grammar is [NaN]. *)
Definition StringToNumber (s : string) : number :=
  match list_ascii_of_string (trim s) with
  | [] => zero
  | l => match non_decimal l with
         | Some x => x
         | None => signed_decimal l
         end
  end.

End JsString.

Import JsString.

(** ** Values of a request body

    [express.json()] hands the handlers values parsed from JSON; a key
    that is missing from the body reads as [undefined], here [None]. *)

#[local] Set Warnings "-register-all".
Inductive json : Type :=
  | JNull
  | JBool (b : bool)
  | JNum (x : number)
  | JStr (s : string)
  | JArr (elements : list json)
  | JObj (members : list (string * json)).

Definition value := option json.

Definition undefined : value := None.

(** ** Exceptions

    A computation returns or throws; [try ... catch] is a match on the
    result. *)

Inductive outcome (A : Type) : Type :=
  | Return (a : A)
  | Throw (message : string).

Arguments Return {A} a.
Arguments Throw {A} message.

Definition bind {A B} (c : outcome A) (k : A -> outcome B) : outcome B :=
  match c with
  | Return a => k a
  | Throw e => Throw e
  end.

Declare Scope js_scope.
Delimit Scope js_scope with js.
Notation "x <- c ;; k" := (bind c (fun x => k))
  (at level 100, c at next level, right associativity) : js_scope.
Local Open Scope js_scope.

Module Js.

(** ToBoolean: [null], [false], the zeros, [NaN] and the empty string are
    falsy; every array and object is truthy. *)
Definition truthy (v : json) : bool :=
  match v with
  | JNull => false
  | JBool b => b
  | JNum x => negb (PrimFloat.is_zero x || PrimFloat.is_nan x)
  | JStr s => negb (String.eqb s "")
  | JArr _ | JObj _ => true
  end.

(** [!v] *)
Definition not (v : value) : bool :=
  match v with
  | None => true
  | Some x => negb (truthy x)
  end.

(** [v || ''] *)
Definition or_empty (v : value) : json :=
  match v with
  | Some x => if truthy x then x else JStr ""
  | None => JStr ""
  end.

(** Whether a parsed object has the key as an own property. *)
Definition has_own (key : string) (members : list (string * json)) : bool :=
  existsb (fun kv => String.eqb (fst kv) key) members.

(** ToString.  An array is joined with commas, [null] elements reading
    as the empty string.  A parsed object inherits [toString] and
    [valueOf] from [Object.prototype] and reads ["[object Object]"],
    unless it has an own [toString] member: that member is data, not a
    function, [valueOf] gives no primitive either, and the conversion
    throws a [TypeError]. *)
Fixpoint ToString (v : json) : outcome string :=
  match v with
  | JNull => Return "null"
  | JBool b => Return (if b then "true" else "false")
  | JNum x => Return (JsNumber.toString x)
  | JStr s => Return s
  | JArr elements =>
      (fix join (l : list json) : outcome string :=
         match l with
         | [] => Return ""
         | x :: r =>
             a <- match x with JNull => Return "" | _ => ToString x end ;;
             match r with
             | [] => Return a
             | _ => b <- join r ;; Return (a ++ "," ++ b)
             end
         end) elements
  | JObj members =>
      if has_own "toString" members
      then Throw "TypeError: Cannot convert object to primitive value"
      else Return "[object Object]"
  end.

(** [Number(v)]: ToNumber.  Arrays and objects go through their string
    form; [undefined] is [NaN]. *)
Definition Number (v : value) : outcome number :=
  match v with
  | None => Return nan
  | Some JNull => Return zero
  | Some (JBool b) => Return (if b then one else zero)
  | Some (JNum x) => Return x
  | Some (JStr s) => Return (StringToNumber s)
  | Some (JArr _ as o) | Some (JObj _ as o) =>
      s <- ToString o ;; Return (StringToNumber s)
  end.

(** [pattern.test(v)]: the argument is converted to a string first. *)
Definition test (pattern : string -> bool) (v : json) : outcome bool :=
  s <- ToString v ;; Return (pattern s).

(** [v.trim()]: defined on strings only; on any other value the call
    throws a [TypeError]. *)
Definition call_trim (v : value) : outcome string :=
  match v with
  | Some (JStr s) => Return (trim s)
  | _ => Throw "TypeError: trim is not a function"
  end.

(** [Array.isArray(v)] and [v.length === 0]. *)
Definition isArray (v : value) : bool :=
  match v with
  | Some (JArr _) => true
  | _ => false
  end.

Definition length_is_zero (v : value) : bool :=
  match v with
  | Some (JArr []) => true
  | _ => false
  end.

(** The elements of a value that is an array. *)
Definition elements (v : value) : list json :=
  match v with
  | Some (JArr l) => l
  | _ => []
  end.

(** [v === undefined] *)
Definition is_undefined (v : value) : bool :=
  match v with
  | None => true
  | Some _ => false
  end.

End Js.

(** ** Documents and the store *)

(** A location entry of a lesson, a lesson, and an order document.  The
    [_other] fields hold whatever else a seeded document carries. *)
Record Location : Type := mkLocation {
  city : string;
  spaces : number;
  location_other : list (string * json)
}.

Record Lesson : Type := mkLesson {
  subject : string;
  locations : list Location;
  lesson_other : list (string * json)
}.

Record Order : Type := mkOrder {
  _id : N;
  name : string;
  phone : string;
  items : list json;
  total : number;
  createdAt : Z
}.

(** The process-wide state a request sees: whether [connectDB] has set
    the collection handles [Lessons] and [Orders], the documents of the
    two collections in their natural order, and the counter of the
    driver's ObjectId generator. *)
Record Server : Type := mkServer {
  connected : bool;
  Lessons : list Lesson;
  Orders : list Order;
  next_id : N
}.

(** What a handler destructures from [req.body]. *)
Module Req.

Record Order : Type := mkOrder {
  name : value;
  phone : value;
  items : value;
  total : value
}.

Record Spaces : Type := mkSpaces {
  subject : value;
  city : value;
  spaces : value
}.

End Req.

(** The JSON bodies the two handlers answer with, and the response. *)
Inductive Body : Type :=
  | Message (message : string)
  | OrderSaved (message : string) (order : Order)
  | SpacesUpdated (subject city : value) (spaces : number).

Record Response : Type := mkResponse {
  status : Z;
  body : Body
}.

(** [res.status(code).json(b)] and [res.json(b)]. *)
Definition status_json (code : Z) (b : Body) : Response := mkResponse code b.
Definition res_json (b : Body) : Response := mkResponse 200 b.

Local Open Scope list_scope.

(** ** The database driver

    Each of the three handlers that use the store awaits one call of the
    MongoDB driver.  The driver and the database are not part of the
    repository: what they answer to a call is an input of the model.  A
    call resolves, or it rejects with an error (the connection was lost,
    the server refused the command); a call that rejects leaves the
    collection as it was. *)
Module Driver.

Inductive Answer (A : Type) : Type :=
  | Resolves (a : A)
  | Rejects (error : string).

Arguments Resolves {A} a.
Arguments Rejects {A} error.

(** What the database found for a filter that holds a query document:
    nothing, or a lesson together with the location that the positional
    operator [$] stands for, both counted from 0 in the order of the
    collection and of the array. *)
Inductive Match : Type :=
  | Nothing
  | Entry (lesson location : nat).

End Driver.

Module Collection.

(** The collection of orders with one more document at its end, the
    document having the [_id] the driver had next. *)
Definition with_order (srv : Server) (order : N -> Order) : Order * Server :=
  let doc := order (next_id srv) in
  (doc, mkServer (connected srv) (Lessons srv) (Orders srv ++ [doc])
                 (N.succ (next_id srv))).

(** [Orders.insertOne(order)]: when the call resolves the driver has
    given the document its [_id], writing it into the object it was
    passed, and the collection has gained the document; when it rejects
    the promise throws at the [await]. *)
Definition insertOne (db : Driver.Answer unit) (srv : Server)
  (order : N -> Order) : outcome (Order * Server) :=
  match db with
  | Driver.Resolves _ => Return (with_order srv order)
  | Driver.Rejects e => Throw e
  end.

(** [Lessons.find().toArray()]: all the documents, in their order. *)
Definition find (db : Driver.Answer unit) (docs : list Lesson)
  : outcome (list Lesson) :=
  match db with
  | Driver.Resolves _ => Return docs
  | Driver.Rejects e => Throw e
  end.

(** The filter [{ subject, 'locations.city': city }] on a lesson: its
    subject is the text and one of its locations has the city. *)
Definition has_city (c : string) (loc : Location) : bool :=
  String.eqb (city loc) c.

Definition selected (s c : string) (l : Lesson) : bool :=
  String.eqb (subject l) s && existsb (has_city c) (locations l).

(** [{ $set: { 'locations.$.spaces': n } }]: the positional operator
    stands for the first array element the filter matched. *)
Fixpoint set_spaces (c : string) (n : number) (locs : list Location)
  : list Location :=
  match locs with
  | [] => []
  | loc :: rest =>
      if has_city c loc
      then mkLocation (city loc) n (location_other loc) :: rest
      else loc :: set_spaces c n rest
  end.

Definition with_spaces (c : string) (n : number) (l : Lesson) : Lesson :=
  mkLesson (subject l) (set_spaces c n (locations l)) (lesson_other l).

(** [updateOne] changes the first document the filter selects; the
    result is [matchedCount] and the documents afterwards. *)
Fixpoint update_first (s c : string) (n : number) (docs : list Lesson)
  : Z * list Lesson :=
  match docs with
  | [] => (0, [])
  | l :: rest =>
      if selected s c l then (1, with_spaces c n l :: rest)
      else let '(count, rest') := update_first s c n rest in
           (count, l :: rest')
  end.

(** An array or an object in the filter is a query document: the
    database reads it as a literal or as query operators, such as
    [{"$gt": ""}]. *)
Definition is_query (v : value) : bool :=
  match v with
  | Some (JArr _ | JObj _) => true
  | _ => false
  end.

(** The update [{ $set: { 'locations.$.spaces': n } }] on the location
    at position [j] of the lesson at position [i]; [None] when there is
    no such location. *)
Fixpoint set_location (j : nat) (n : number) (locs : list Location)
  : option (list Location) :=
  match locs, j with
  | [], _ => None
  | loc :: rest, O => Some (mkLocation (city loc) n (location_other loc) :: rest)
  | loc :: rest, S j' =>
      match set_location j' n rest with
      | Some rest' => Some (loc :: rest')
      | None => None
      end
  end.

Fixpoint set_entry (i j : nat) (n : number) (docs : list Lesson)
  : option (list Lesson) :=
  match docs, i with
  | [], _ => None
  | l :: rest, O =>
      match set_location j n (locations l) with
      | Some locs => Some (mkLesson (subject l) locs (lesson_other l) :: rest)
      | None => None
      end
  | l :: rest, S i' =>
      match set_entry i' j n rest with
      | Some rest' => Some (l :: rest')
      | None => None
      end
  end.

Definition no_position : string :=
  "The positional operator did not find the match needed from the query".

(** [Lessons.updateOne(filter, update)] with the values of the request in
    the filter; the result is [matchedCount] and the documents
    afterwards.  Both filtered fields hold text in every lesson: a text
    value selects by equality and any other scalar selects nothing.
    With a query document in the filter the match is the one the
    database found, which the driver's answer tells; an answer that names
    a location the collection does not have is no answer of the
    database, and the call is taken to reject. *)
Definition updateOne (db : Driver.Answer Driver.Match) (subject city : value)
  (n : number) (docs : list Lesson) : outcome (Z * list Lesson) :=
  match db with
  | Driver.Rejects e => Throw e
  | Driver.Resolves found =>
      if is_query subject || is_query city then
        match found with
        | Driver.Nothing => Return (0, docs)
        | Driver.Entry i j =>
            match set_entry i j n docs with
            | Some docs' => Return (1, docs')
            | None => Throw no_position
            end
        end
      else
        match subject, city with
        | Some (JStr s), Some (JStr c) => Return (update_first s c n docs)
        | _, _ => Return (0, docs)
        end
  end.

End Collection.

(** ** The handlers

    Each handler is one pass from the state a request finds to the
    response and the state it leaves; what [console.error] prints is not
    part of either.  [req] is the body [express.json()] parsed. *)

(** [app.post('/api/order', ...)]; [now] is what [new Date()] reads and
    [db] what the driver answers to [insertOne]. *)
Definition post_order (db : Driver.Answer unit) (srv : Server)
  (req : Req.Order) (now : Z) : Response * Server :=
  let attempt : outcome (Response * Server) :=
    if negb (connected srv) then Throw "Database not ready" else
    let '(Req.mkOrder name phone items total) := req in
    name_ok <- Js.test name_pattern (Js.or_empty name) ;;
    if negb name_ok
    then Return (status_json 400 (Message "Invalid name format"), srv) else
    phone_ok <- Js.test phone_pattern (Js.or_empty phone) ;;
    if negb phone_ok
    then Return (status_json 400 (Message "Invalid phone format"), srv) else
    if negb (Js.isArray items) || Js.length_is_zero items
    then Return (status_json 400 (Message "Order must contain items"), srv) else
    checked <- Js.Number total ;;
    if negb (isFinite checked)
    then Return (status_json 400 (Message "Invalid total"), srv) else
    trimmed_name <- Js.call_trim name ;;
    trimmed_phone <- Js.call_trim phone ;;
    total_number <- Js.Number total ;;
    let order := fun id =>
      mkOrder id trimmed_name trimmed_phone (Js.elements items)
              total_number now in
    inserted <- Collection.insertOne db srv order ;;
    let '(order, srv') := inserted in
    Return (res_json (OrderSaved "Order saved successfully" order), srv')
  in
  match attempt with
  | Return r => r
  | Throw _ => (status_json 500 (Message "Failed to save order"), srv)
  end.

(** Lines 114 to 121 of the spaces handler, which the specification
    calls [updateSpaces]: the update and the answer that depends on
    [matchedCount].  The handler reaches them only past its connection
    check, with the collection at hand; a call that rejects throws. *)
Definition updateSpaces (db : Driver.Answer Driver.Match) (srv : Server)
  (subject city : value) (newSpaces : number) : outcome (Response * Server) :=
  result <- Collection.updateOne db subject city newSpaces (Lessons srv) ;;
  let '(matchedCount, docs) := result in
  let srv' := mkServer (connected srv) docs (Orders srv) (next_id srv) in
  if matchedCount =? 0
  then Return (status_json 404 (Message "Lesson or city not found"), srv')
  else Return (res_json (SpacesUpdated subject city newSpaces), srv').

(** [app.put('/api/lessons', ...)]; [db] is what the driver answers to
    [updateOne]. *)
Definition put_lessons (db : Driver.Answer Driver.Match) (srv : Server)
  (req : Req.Spaces) : Response * Server :=
  let attempt : outcome (Response * Server) :=
    if negb (connected srv) then Throw "Database not ready" else
    let '(Req.mkSpaces subject city spaces) := req in
    if Js.not subject || Js.not city || Js.is_undefined spaces
    then Return (status_json 400
           (Message "subject, city, and spaces are required"), srv) else
    newSpaces <- Js.Number spaces ;;
    if negb (isFinite newSpaces) || PrimFloat.ltb newSpaces zero
    then Return (status_json 400
           (Message "spaces must be a non-negative number"), srv) else
    updateSpaces db srv subject city newSpaces
  in
  match attempt with
  | Return r => r
  | Throw _ => (status_json 500 (Message "Failed to update spaces"), srv)
  end.

(** ** The validation rules on their own *)

(** The outcome of line 82's test of the name, and of line 83's test of
    the phone. *)
Definition name_matches (req : Req.Order) : outcome bool :=
  Js.test name_pattern (Js.or_empty (Req.name req)).

Definition phone_matches (req : Req.Order) : outcome bool :=
  Js.test phone_pattern (Js.or_empty (Req.phone req)).

(** The message of the first rule a body fails, in the order the handler
    applies them; [None] when it passes them all. *)
Definition order_rejection (req : Req.Order) : outcome (option string) :=
  name_ok <- name_matches req ;;
  if negb name_ok then Return (Some "Invalid name format") else
  phone_ok <- phone_matches req ;;
  if negb phone_ok then Return (Some "Invalid phone format") else
  if negb (Js.isArray (Req.items req)) || Js.length_is_zero (Req.items req)
  then Return (Some "Order must contain items") else
  checked <- Js.Number (Req.total req) ;;
  if negb (isFinite checked) then Return (Some "Invalid total") else
  Return None.

(** The document the handler builds for a body that passed validation,
    given the identifier the driver assigns. *)
Definition order_document (req : Req.Order) (now : Z) : outcome (N -> Order) :=
  trimmed_name <- Js.call_trim (Req.name req) ;;
  trimmed_phone <- Js.call_trim (Req.phone req) ;;
  total_number <- Js.Number (Req.total req) ;;
  Return (fun id => mkOrder id trimmed_name trimmed_phone
                      (Js.elements (Req.items req)) total_number now).

(** The presence check of line 104. *)
Definition missing_fields (req : Req.Spaces) : bool :=
  Js.not (Req.subject req) || Js.not (Req.city req)
  || Js.is_undefined (Req.spaces req).

Definition spaces_rejection (req : Req.Spaces) : outcome (option string) :=
  if missing_fields req
  then Return (Some "subject, city, and spaces are required") else
  newSpaces <- Js.Number (Req.spaces req) ;;
  if negb (isFinite newSpaces) || PrimFloat.ltb newSpaces zero
  then Return (Some "spaces must be a non-negative number") else
  Return None.

(** A request that passed both checks, with the number its spaces read
    as. *)
Definition validated (req : Req.Spaces) (n : number) : Prop :=
  missing_fields req = false /\
  Js.Number (Req.spaces req) = Return n /\
  negb (isFinite n) || PrimFloat.ltb n zero = false.

(** ** Notions the statements use *)

(** Some lesson has the subject together with a location in the city. *)
Definition offered (s c : string) (docs : list Lesson) : Prop :=
  exists l loc,
    In l docs /\ subject l = s /\ In loc (locations l) /\ city loc = c.

(** The request names, as text, a subject and a city that some lesson
    offers. *)
Definition request_offered (req : Req.Spaces) (docs : list Lesson) : Prop :=
  exists s c,
    Req.subject req = Some (JStr s) /\
    Req.city req = Some (JStr c) /\
    offered s c docs.

(** The documents [docs'] are the documents [docs] with the spaces of one
    location entry set to [n]: the first entry in city [c] of the first
    lesson that has subject [s] and an entry in that city. *)
Definition spaces_set_to (s c : string) (n : number)
  (docs docs' : list Lesson) : Prop :=
  exists before l after earlier loc later,
    docs = before ++ l :: after /\
    Forall (fun l' => Collection.selected s c l' = false) before /\
    subject l = s /\
    locations l = earlier ++ loc :: later /\
    Forall (fun loc' => city loc' <> c) earlier /\
    city loc = c /\
    docs'
    = before
      ++ mkLesson (subject l)
           (earlier ++ mkLocation (city loc) n (location_other loc) :: later)
           (lesson_other l)
      :: after.

(** The documents [docs'] are the documents [docs] with the spaces of one
    location entry of one lesson set to [n], whichever entry it is. *)
Definition one_spaces_set (n : number) (docs docs' : list Lesson) : Prop :=
  exists before l after earlier loc later,
    docs = before ++ l :: after /\
    locations l = earlier ++ loc :: later /\
    docs'
    = before
      ++ mkLesson (subject l)
           (earlier ++ mkLocation (city loc) n (location_other loc) :: later)
           (lesson_other l)
      :: after.

(** The subject or the city of the request is a query document. *)
Definition queries (req : Req.Spaces) : bool :=
  Collection.is_query (Req.subject req) || Collection.is_query (Req.city req).

(** What a successful update leaves: one spaces value set to the number
    the request's spaces reads as, the rest of the lessons and the orders
    as they were.  For a subject and a city given as text the entry is
    the one [spaces_set_to] tells; otherwise the request holds a query
    document and the entry is the one the database found. *)
Definition only_spaces_changed (srv srv' : Server) (req : Req.Spaces) : Prop :=
  exists n,
    Js.Number (Req.spaces req) = Return n /\
    one_spaces_set n (Lessons srv) (Lessons srv') /\
    ((exists s c,
         Req.subject req = Some (JStr s) /\
         Req.city req = Some (JStr c) /\
         spaces_set_to s c n (Lessons srv) (Lessons srv'))
     \/ queries req = true) /\
    Orders srv' = Orders srv /\
    connected srv' = connected srv /\
    next_id srv' = next_id srv.

(** The location at position [j] of the lesson at position [i]. *)
Definition entry (i j : nat) (docs : list Lesson) : option Location :=
  match nth_error docs i with
  | Some l => nth_error (locations l) j
  | None => None
  end.

(** What the update found for the request, [found] being the match the
    database tells for a query document: for text, a lesson that offers
    the subject and the city. *)
Definition request_matched (req : Req.Spaces) (found : Driver.Match)
  (docs : list Lesson) : Prop :=
  if queries req
  then exists i j loc, found = Driver.Entry i j /\ entry i j docs = Some loc
  else request_offered req docs.

Definition nothing_matched (req : Req.Spaces) (found : Driver.Match)
  (docs : list Lesson) : Prop :=
  if queries req
  then found = Driver.Nothing
  else ~ request_offered req docs.

(** Invariants on the stored spaces: a finite number that is not
    negative, and such a number that is an integer. *)
Definition non_negative (x : number) : bool :=
  isFinite x && negb (PrimFloat.ltb x zero).

Definition non_negative_integer (x : number) : bool :=
  non_negative x && isInteger x.

Definition every_spaces (P : number -> bool) (docs : list Lesson) : bool :=
  forallb (fun l => forallb (fun loc => P (spaces loc)) (locations l)) docs.

(** A value that fails the presence check of the spaces handler. *)
Definition absent_or_falsy (v : value) : Prop :=
  v = None \/ v = Some JNull \/ v = Some (JBool false) \/ v = Some (JStr "")
  \/ exists x, v = Some (JNum x)
               /\ PrimFloat.is_zero x || PrimFloat.is_nan x = true.

(** Every run of the spaces handler is one of these five. *)
Inductive put_case (srv : Server) (req : Req.Spaces) : Prop :=
  | put_not_connected (H : connected srv = false)
  | put_missing (H : connected srv = true) (M : missing_fields req = true)
  | put_throw (H : connected srv = true) (M : missing_fields req = false)
      (e : string) (T : Js.Number (Req.spaces req) = Throw e)
  | put_invalid (H : connected srv = true) (M : missing_fields req = false)
      (x : number) (T : Js.Number (Req.spaces req) = Return x)
      (V : negb (isFinite x) || PrimFloat.ltb x zero = true)
  | put_update (H : connected srv = true) (M : missing_fields req = false)
      (x : number) (T : Js.Number (Req.spaces req) = Return x)
      (V : negb (isFinite x) || PrimFloat.ltb x zero = false).

(** Whatever the body, the answer of the order handler is a 400 of a
    validation rule with the state untouched, a 500 with the state
    untouched, or, the insertion having resolved, a 200 with one document
    inserted. *)
Inductive post_result (db : Driver.Answer unit) (srv : Server)
  (req : Req.Order) (now : Z) : Response * Server -> Prop :=
  | post_400 (msg : string) :
      order_rejection req = Return (Some msg) ->
      post_result db srv req now (status_json 400 (Message msg), srv)
  | post_500 :
      post_result db srv req now
        (status_json 500 (Message "Failed to save order"), srv)
  | post_200 (order : N -> Order) :
      db = Driver.Resolves tt ->
      order_rejection req = Return None ->
      order_document req now = Return order ->
      post_result db srv req now
        (res_json (OrderSaved "Order saved successfully"
                     (order (next_id srv))),
         snd (Collection.with_order srv order)).

(** ** Sample data *)

Definition math : Lesson :=
  mkLesson "Math"
    [mkLocation "Berlin" 5%float []; mkLocation "Paris" 2%float []]
    [("price", JNum 100%float)].

Definition music : Lesson :=
  mkLesson "Music" [mkLocation "Berlin" 4%float []] [].

Definition untitled : Lesson :=
  mkLesson "" [mkLocation "Rome" 1%float []] [].

Definition online : Server := mkServer true [math; music] [] 0.
Definition offline : Server := mkServer false [math; music] [] 0.
Definition unnamed : Server := mkServer true [untitled] [] 0.

(** [online] after 3 spaces were set for Math in Paris, and after 2.5
    spaces were set for Math in Berlin. *)
Definition paris_booked : Server :=
  mkServer true
    [mkLesson "Math"
       [mkLocation "Berlin" 5%float []; mkLocation "Paris" 3%float []]
       [("price", JNum 100%float)];
     music] [] 0.

Definition berlin_halved : Server :=
  mkServer true
    [mkLesson "Math"
       [mkLocation "Berlin" 2.5%float []; mkLocation "Paris" 2%float []]
       [("price", JNum 100%float)];
     music] [] 0.

Definition spaces_request (s c : string) (sp : json) : Req.Spaces :=
  Req.mkSpaces (Some (JStr s)) (Some (JStr c)) (Some sp).

(** The driver resolving an update whose filter holds no query document:
    the match it would tell for one is not looked at.  And the driver
    rejecting a call, the connection having been lost. *)
Definition resolves : Driver.Answer Driver.Match :=
  Driver.Resolves Driver.Nothing.

Definition lost {A : Type} : Driver.Answer A :=
  Driver.Rejects "connection closed".

(** A request whose subject and city are the query document
    [{"$gt": ""}], which every text is greater than: over [math] and
    [music] the database finds the first lesson and its first
    location. *)
Definition any_text : json := JObj [("$gt", JStr "")].

Definition any_lesson (sp : json) : Req.Spaces :=
  Req.mkSpaces (Some any_text) (Some any_text) (Some sp).

Definition negative : Req.Spaces :=
  spaces_request "Math" "Berlin" (JNum (-1)%float).

Definition cityless : Req.Spaces :=
  Req.mkSpaces (Some (JStr "Math")) undefined (Some (JNum 3%float)).

Definition order_request (n p : value) : Req.Order :=
  Req.mkOrder n p (Some (JArr [JStr "book"])) (Some (JNum 9.5%float)).

Definition jane : Req.Order :=
  order_request (Some (JStr "Jane Doe")) (Some (JStr "5551234")).

Definition jane1 : Req.Order :=
  order_request (Some (JStr "Jane1")) (Some (JStr "5551234")).

Definition nameless : Req.Order :=
  order_request undefined (Some (JStr "5551234")).

Definition phoneless : Req.Order :=
  order_request (Some (JStr "Jane Doe")) undefined.

Definition jane1_phoneless : Req.Order :=
  order_request (Some (JStr "Jane1")) undefined.

(** ** Dates and upper case *)

Module JsDate.

(** Zero-padded decimal digits of a number that is not negative. *)
Definition pad (width : nat) (z : Z) : string :=
  let ds := JsNumber.digits_of z in
  (JsNumber.zeros (width - String.length ds) ++ ds)%string.

(** The civil date of a day number counted from 1970-01-01, in the
    proleptic Gregorian calendar: year, month and day of the month. *)
Definition civil (day : Z) : Z * Z * Z :=
  let z := day + 719468 in
  let era := z / 146097 in
  let doe := z - era * 146097 in
  let yoe := (doe - doe / 1460 + doe / 36524 - doe / 146096) / 365 in
  let doy := doe - (365 * yoe + yoe / 4 - yoe / 100) in
  let mp := (5 * doy + 2) / 153 in
  let d := doy - (153 * mp + 2) / 5 + 1 in
  let m := if (mp <? 10)%Z then mp + 3 else mp - 9 in
  let y := yoe + era * 400 + (if (m <=? 2)%Z then 1 else 0) in
  (y, m, d).

(** [Date.prototype.toISOString] on the time value [t], in milliseconds
    since the epoch: [YYYY-MM-DDTHH:mm:ss.sssZ], the year in four digits
    from 0 to 9999 and in six digits with its sign outside. *)
Definition toISOString (t : Z) : string :=
  let '(y, m, d) := civil (t / 86400000) in
  let ms := t mod 86400000 in
  let year :=
    if ((0 <=? y) && (y <=? 9999))%Z then pad 4 y
    else ((if (y <? 0)%Z then "-" else "+") ++ pad 6 (Z.abs y))%string in
  (year ++ "-" ++ pad 2 m ++ "-" ++ pad 2 d
   ++ "T" ++ pad 2 (ms / 3600000)
   ++ ":" ++ pad 2 (ms / 60000 mod 60)
   ++ ":" ++ pad 2 (ms / 1000 mod 60)
   ++ "." ++ pad 3 (ms mod 1000) ++ "Z")%string.

End JsDate.

Module JsCase.

(** [String.prototype.toUpperCase] on ASCII text, which is what the
    method names of a route are: the letters [a] to [z] go to [A] to
    [Z] and every other byte stays. *)
Definition upper (c : ascii) : ascii :=
  if ((97 <=? code c) && (code c <=? 122))%N
  then ascii_of_N (code c - 32)
  else c.

Fixpoint toUpperCase (s : string) : string :=
  match s with
  | EmptyString => EmptyString
  | String c r => String (upper c) (toUpperCase r)
  end.

End JsCase.

(** ** The other routes, the connection and the whole application *)

(** A layer of the router's stack: a route with its path and the names
    of its methods, in the order of [Object.keys], or a middleware, which
    has no route. *)
Module Router.

Record Route : Type := mkRoute {
  path : string;
  methods : list string
}.

Record Layer : Type := mkLayer {
  route : option Route
}.

End Router.

(** An entry of the route lister's answer. *)
Record Listed : Type := mkListed {
  method : string;
  path : string
}.

(** What the other routes answer with; [Json] holds a body of the two
    handlers above. *)
Inductive Page : Type :=
  | Text (text : string)
  | Health (ok : bool) (status : string) (time : string)
  | Routes (routes : list Listed)
  | LessonList (lessons : list Lesson)
  | Json (b : Body).

Record Reply : Type := mkReply {
  status_code : Z;
  page : Page
}.

Definition reply_of (r : Response) : Reply := mkReply (status r) (Json (body r)).

(** [app.get('/', ...)] *)
Definition get_root : Reply :=
  mkReply 200
    (Text "Lessons API is running. Try GET /health or /api/lessons").

(** [app.get('/health', ...)]; [now] is what [new Date()] reads. *)
Definition get_health (now : Z) : Reply :=
  mkReply 200 (Health true "healthy" (JsDate.toISOString now)).

(** [r.route && r.route.path] *)
Definition routed (l : Router.Layer) : bool :=
  match Router.route l with
  | Some r => negb (String.eqb (Router.path r) "")
  | None => false
  end.

(** [Object.keys(r.route.methods)[0]?.toUpperCase() || 'GET'] *)
Definition first_method (r : Router.Route) : string :=
  match Router.methods r with
  | m :: _ =>
      let u := JsCase.toUpperCase m in
      if String.eqb u "" then "GET" else u
  | [] => "GET"
  end.

Definition describe (l : Router.Layer) : Listed :=
  match Router.route l with
  | Some r => mkListed (first_method r) (Router.path r)
  | None => mkListed "GET" ""
  end.

(** [app.get('/__routes', ...)]; [router] is [app._router], whose stack
    is read only when it is there. *)
Definition get_routes (router : option (list Router.Layer)) : Reply :=
  let stack := match router with Some stack => stack | None => [] end in
  mkReply 200 (Routes (map describe (filter routed stack))).

(** [connectDB]: [client.connect()] resolves or rejects; when it resolves
    the handles are set. *)
Definition connectDB (srv : Server) (resolves : bool) : outcome Server :=
  if resolves
  then Return (mkServer true (Lessons srv) (Orders srv) (next_id srv))
  else Throw "connect failed".

(** The start of the process, lines 131 to 139: the listener is up, then
    the connection is attempted, and a failure is logged and leaves the
    server running without the store. *)
Definition start (srv : Server) (resolves : bool) : Server :=
  match connectDB srv resolves with
  | Return srv' => srv'
  | Throw _ => srv
  end.

(** [app.get('/api/lessons', ...)]; [db] is what the driver answers to
    [find().toArray()]. *)
Definition get_lessons (db : Driver.Answer unit) (srv : Server)
  : Reply * Server :=
  let attempt : outcome (Reply * Server) :=
    if negb (connected srv) then Throw "Database not ready" else
    lessons <- Collection.find db (Lessons srv) ;;
    Return (mkReply 200 (LessonList lessons), srv)
  in
  match attempt with
  | Return r => r
  | Throw _ =>
      (mkReply 500 (Json (Message "Failed to load lessons")), srv)
  end.

(** The layers the application registers, lines 16 to 126: three
    middlewares, then its six routes. *)
Definition middleware : Router.Layer := Router.mkLayer None.

Definition route_layer (m p : string) : Router.Layer :=
  Router.mkLayer (Some (Router.mkRoute p [m])).

Definition app_routes : list Router.Layer :=
  [route_layer "get" "/"; route_layer "get" "/health";
   route_layer "get" "/__routes"; route_layer "get" "/api/lessons";
   route_layer "post" "/api/order"; route_layer "put" "/api/lessons"].

Definition app_stack : list Router.Layer :=
  [middleware; middleware; middleware] ++ app_routes.

(** A request that one of the six routes takes, with what the driver
    answers to the call its handler makes, what happens on the process
    besides requests, and the step each makes.  Every handler awaits one
    operation of the store, so requests that overlap leave the store as
    some sequence of them does. *)
Inductive Event : Type :=
  | GetRoot
  | GetHealth (now : Z)
  | GetRoutes
  | GetLessons (db : Driver.Answer unit)
  | PostOrder (req : Req.Order) (now : Z) (db : Driver.Answer unit)
  | PutLessons (req : Req.Spaces) (db : Driver.Answer Driver.Match)
  | Connect (resolves : bool).

(** The reply, if the event is a request, and the state afterwards. *)
Definition handle (router : option (list Router.Layer)) (srv : Server)
  (e : Event) : option Reply * Server :=
  match e with
  | GetRoot => (Some get_root, srv)
  | GetHealth now => (Some (get_health now), srv)
  | GetRoutes => (Some (get_routes router), srv)
  | GetLessons db => let '(r, srv') := get_lessons db srv in (Some r, srv')
  | PostOrder req now db =>
      let '(r, srv') := post_order db srv req now in (Some (reply_of r), srv')
  | PutLessons req db =>
      let '(r, srv') := put_lessons db srv req in (Some (reply_of r), srv')
  | Connect resolves => (None, start srv resolves)
  end.

(** A sequence of events from a state: the replies, first to last, and
    the final state. *)
Fixpoint run (router : option (list Router.Layer)) (srv : Server)
  (events : list Event) : list (option Reply) * Server :=
  match events with
  | [] => ([], srv)
  | e :: rest =>
      let '(r, srv') := handle router srv e in
      let '(rs, final) := run router srv' rest in
      (r :: rs, final)
  end.

(** The state a process starts in, over a database with these documents. *)
Definition fresh (lessons : list Lesson) (orders : list Order) (id : N)
  : Server :=
  mkServer false lessons orders id.

(** ** Notions the further statements use *)

(** A run of [k] spaces. *)
Fixpoint blanks (k : nat) : string :=
  match k with
  | O => EmptyString
  | S k' => String " " (blanks k')
  end.

(** A list of characters without the spaces it starts with. *)
Fixpoint strip (l : list ascii) : list ascii :=
  match l with
  | c :: r => if (code c =? 32)%N then strip r else l
  | [] => []
  end.

(** A text that neither starts nor ends with a space. *)
Definition no_outer_space (t : string) : Prop :=
  (forall r, t <> String " " r) /\ (forall r, t <> (r ++ " ")%string).

(** A body with text for the name and the phone that match their
    patterns, a non-empty array of items and a total that reads as the
    finite number [x]. *)
Definition valid_order (req : Req.Order) (n p : string) (l : list json)
  (x : number) : Prop :=
  Req.name req = Some (JStr n) /\ name_pattern n = true /\
  Req.phone req = Some (JStr p) /\ phone_pattern p = true /\
  Req.items req = Some (JArr l) /\ l <> [] /\
  Js.Number (Req.total req) = Return x /\ isFinite x = true.

(** What the update never touches in the lessons: how many there are,
    their subjects and other fields, and the city and other fields of
    each of their locations. *)
Definition location_shape (loc : Location) : string * list (string * json) :=
  (city loc, location_other loc).

Definition lesson_shape (l : Lesson)
  : string * list (string * json) * list (string * list (string * json)) :=
  (subject l, lesson_other l, map location_shape (locations l)).

Definition shape (docs : list Lesson) := map lesson_shape docs.

(** Within each lesson the cities of its locations are distinct. *)
Definition cities_unique (docs : list Lesson) : Prop :=
  Forall (fun l => NoDup (map city (locations l))) docs.

(** The event is a request to one of the three routes that use the
    store. *)
Definition uses_store (e : Event) : bool :=
  match e with
  | GetLessons _ | PostOrder _ _ _ | PutLessons _ _ => true
  | _ => false
  end.

Definition is_request (e : Event) : bool :=
  match e with
  | Connect _ => false
  | _ => true
  end.

(** No connection succeeds among the events. *)
Definition never_connects (events : list Event) : Prop :=
  Forall (fun e => e <> Connect true) events.

(** The reply a request gets while the store is not connected: 200 from
    the three routes that do without it, 500 from the others. *)
Definition offline_code (e : Event) : Z :=
  if uses_store e then 500 else 200.

Definition order_posts (events : list Event) : nat :=
  List.length
    (filter (fun e => match e with PostOrder _ _ _ => true | _ => false end)
       events).

(** The six entries the route lister shows for the application. *)
Definition app_listing : list Listed :=
  [mkListed "GET" "/"; mkListed "GET" "/health"; mkListed "GET" "/__routes";
   mkListed "GET" "/api/lessons"; mkListed "POST" "/api/order";
   mkListed "PUT" "/api/lessons"].

(** Further sample data: a phone sent as a number, and some bodies
    around the total. *)
Definition numeric_phone : Req.Order :=
  order_request (Some (JStr "Jane Doe")) (Some (JNum 5551234%float)).

Definition order_with_total (t : value) : Req.Order :=
  Req.mkOrder (Some (JStr "Jane Doe")) (Some (JStr "5551234"))
              (Some (JArr [JStr "book"])) t.

Definition padded : Req.Order :=
  order_request (Some (JStr "  Jane Doe ")) (Some (JStr "5551234")).

(** ** Runs of the conversions *)

Example toString_runs :
  map JsNumber.toString
    [1; 2.5; 100; 0.5; 1e21; 1e22; 123456789012345683968; -42; 0x1p-1074;
     1152921504606846976; 0.0000152587890625; infinity]%float
  = ["1"; "2.5"; "100"; "0.5"; "1e+21"; "1e+22"; "123456789012345680000";
     "-42"; "5e-324"; "1152921504606847000"; "0.0000152587890625";
     "Infinity"].
Proof. vm_compute. reflexivity. Qed.

Example StringToNumber_runs :
  map StringToNumber
    [""; "   "; " 12.5 "; "-0"; "1e3"; "1e999"; "-Infinity"; "0x1F"; "5.";
     ".5"; "."; "1e"; "12abc"; "9007199254740993"]
  = [0; 0; 12.5; -0; 1000; infinity; neg_infinity; 31; 5; 0.5; nan; nan;
     nan; 9007199254740992]%float.
Proof. vm_compute. reflexivity. Qed.

Example ToString_runs :
  map Js.ToString
    [JArr [JNum 1%float; JNull; JStr "a"; JArr [JBool true; JArr []]];
     JObj []; JObj [("toString", JNum 1%float)]; JNum infinity]
  = [Return "1,,a,true,"; Return "[object Object]";
     Throw "TypeError: Cannot convert object to primitive value";
     Return "Infinity"].
Proof. vm_compute. reflexivity. Qed.

Example Number_runs :
  map Js.Number
    [None; Some JNull; Some (JStr ""); Some (JArr []);
     Some (JArr [JNum 5%float]); Some (JObj []); Some (JBool true)]
  = [Return nan; Return 0%float; Return 0%float; Return 0%float;
     Return 5%float; Return nan; Return 1%float].
Proof. vm_compute. reflexivity. Qed.

Example toISOString_runs :
  map JsDate.toISOString
    [0; 1700000000000; -1; 951782400000; 253402300800000; -62198755200000]
  = ["1970-01-01T00:00:00.000Z"; "2023-11-14T22:13:20.000Z";
     "1969-12-31T23:59:59.999Z"; "2000-02-29T00:00:00.000Z";
     "+010000-01-01T00:00:00.000Z"; "-000001-01-01T00:00:00.000Z"].
Proof. vm_compute. reflexivity. Qed.

Ltac branch :=
  match goal with
  | |- context [bind ?c _] => destruct c as [?|?] eqn:?; cbn [bind]
  | |- context [if negb ?b then _ else _] => destruct b eqn:?; cbn [negb]
  | |- context [if ?b then _ else _] => destruct b eqn:?
  end.

(** ** Facts about the positional update *)

Section PositionalUpdate.

Import Collection.

Variables (s c : string) (n : number).

(** The first location with the city, split off from the entries before
    and after it. *)
Lemma set_spaces_split (locs : list Location) :
  existsb (has_city c) locs = true ->
  exists before loc after,
    locs = before ++ loc :: after /\
    city loc = c /\
    Forall (fun l => city l <> c) before /\
    set_spaces c n locs
    = before ++ mkLocation (city loc) n (location_other loc) :: after.
Proof.
  induction locs as [|loc rest IH]; simpl; [discriminate|].
  unfold has_city at 1 3.
  destruct (String.eqb_spec (city loc) c) as [Heq|Hne]; simpl.
  - intros _. exists [], loc, rest. repeat split; auto.
  - intros H. destruct (IH H) as (before & loc' & after & -> & Hc & Hb & Hs).
    exists (loc :: before), loc', after. repeat split; auto.
    simpl. now rewrite Hs.
Qed.

(** Cities are not touched, so the filter reads a lesson the same way
    after the update. *)
Lemma existsb_set_spaces (locs : list Location) :
  existsb (has_city c) (set_spaces c n locs) = existsb (has_city c) locs.
Proof.
  induction locs as [|loc rest IH]; simpl; [reflexivity|].
  destruct (has_city c loc) eqn:E; simpl.
  - unfold has_city in *. simpl. now rewrite E.
  - now rewrite E, IH.
Qed.

Lemma selected_with_spaces (l : Lesson) :
  selected s c (with_spaces c n l) = selected s c l.
Proof.
  unfold selected, with_spaces; simpl. now rewrite existsb_set_spaces.
Qed.

Lemma set_spaces_twice (locs : list Location) :
  set_spaces c n (set_spaces c n locs) = set_spaces c n locs.
Proof.
  induction locs as [|loc rest IH]; simpl; [reflexivity|].
  destruct (has_city c loc) eqn:E; simpl.
  - unfold has_city in *. simpl. now rewrite E.
  - now rewrite E, IH.
Qed.

Lemma with_spaces_twice (l : Lesson) :
  with_spaces c n (with_spaces c n l) = with_spaces c n l.
Proof.
  unfold with_spaces; simpl. now rewrite set_spaces_twice.
Qed.

(** [matchedCount] is 0 or 1. *)
Lemma update_first_count (docs : list Lesson) :
  fst (update_first s c n docs) = 0 \/ fst (update_first s c n docs) = 1.
Proof.
  induction docs as [|l rest IH]; simpl; auto.
  destruct (selected s c l); simpl; auto.
  destruct (update_first s c n rest); simpl in *; auto.
Qed.

(** No match: nothing is selected and nothing changes. *)
Lemma update_first_none (docs : list Lesson) :
  fst (update_first s c n docs) = 0 <->
  Forall (fun l => selected s c l = false) docs.
Proof.
  induction docs as [|l rest IH]; simpl.
  - split; auto.
  - destruct (selected s c l) eqn:E; simpl.
    + split; [discriminate|]. intros H. inversion H; congruence.
    + destruct (update_first s c n rest) as [k rest']; simpl in *.
      rewrite IH. split; intros H.
      * constructor; auto.
      * now inversion H.
Qed.

Lemma update_first_unchanged (docs : list Lesson) :
  fst (update_first s c n docs) = 0 -> snd (update_first s c n docs) = docs.
Proof.
  induction docs as [|l rest IH]; simpl; auto.
  destruct (selected s c l) eqn:E; simpl; [discriminate|].
  destruct (update_first s c n rest) as [k rest']; simpl in *.
  intros H. now rewrite IH.
Qed.

(** A match: the first selected lesson is the one that changes. *)
Lemma update_first_split (docs : list Lesson) :
  fst (update_first s c n docs) <> 0 ->
  exists before l after,
    docs = before ++ l :: after /\
    Forall (fun l' => selected s c l' = false) before /\
    selected s c l = true /\
    snd (update_first s c n docs) = before ++ with_spaces c n l :: after.
Proof.
  induction docs as [|l rest IH]; simpl; [congruence|].
  destruct (selected s c l) eqn:E; simpl.
  - intros _. exists [], l, rest. repeat split; auto.
  - destruct (update_first s c n rest) as [k rest']; simpl in *.
    intros H. destruct (IH H) as (before & l' & after & -> & Hb & Hl & Hs).
    exists (l :: before), l', after. repeat split; auto.
    simpl. now rewrite Hs.
Qed.

(** Running the same update on its own result finds the same lesson and
    leaves the documents as they are. *)
Lemma update_first_twice (docs : list Lesson) :
  update_first s c n (snd (update_first s c n docs))
  = update_first s c n docs.
Proof.
  induction docs as [|l rest IH]; simpl; [reflexivity|].
  destruct (selected s c l) eqn:E; simpl.
  - now rewrite selected_with_spaces, E, with_spaces_twice.
  - destruct (update_first s c n rest) as [k rest'] eqn:U; simpl in *.
    now rewrite E, IH.
Qed.

End PositionalUpdate.

(** ** What the filter selects, in terms of the documents *)

Lemma selected_iff (s c : string) (l : Lesson) :
  Collection.selected s c l = true <->
  subject l = s /\ exists loc, In loc (locations l) /\ city loc = c.
Proof.
  unfold Collection.selected. rewrite andb_true_iff, existsb_exists.
  rewrite String.eqb_eq. unfold Collection.has_city.
  split; intros [Hs (loc & Hin & Hc)]; split; auto; exists loc; split; auto.
  - now apply String.eqb_eq.
  - now apply String.eqb_eq.
Qed.

Lemma matched_iff_offered (s c : string) (n : number) (docs : list Lesson) :
  fst (Collection.update_first s c n docs) <> 0 <-> offered s c docs.
Proof.
  rewrite update_first_none, Forall_forall. unfold offered. split.
  - intros H.
    destruct (existsb (Collection.selected s c) docs) eqn:E.
    + apply existsb_exists in E as (l & Hin & Hsel).
      apply selected_iff in Hsel as (Hs & loc & Hloc & Hc).
      now exists l, loc.
    + exfalso. apply H. intros l Hin.
      destruct (Collection.selected s c l) eqn:Hsel; auto.
      assert (existsb (Collection.selected s c) docs = true) by
        (apply existsb_exists; eauto).
      congruence.
  - intros (l & loc & Hin & Hs & Hloc & Hc) H.
    assert (Collection.selected s c l = true) by (apply selected_iff; eauto).
    specialize (H l Hin). congruence.
Qed.

Lemma update_first_sets (s c : string) (n : number) (docs : list Lesson) :
  fst (Collection.update_first s c n docs) <> 0 ->
  spaces_set_to s c n docs (snd (Collection.update_first s c n docs)).
Proof.
  intros Hk.
  destruct (update_first_split s c n _ Hk)
    as (before & l & after & Hdocs & Hbefore & Hsel & Hres).
  pose proof Hsel as Hsel'.
  unfold Collection.selected in Hsel'. apply andb_true_iff in Hsel' as [Hs Hc].
  apply String.eqb_eq in Hs.
  destruct (set_spaces_split c n _ Hc)
    as (earlier & loc & later & Hlocs & Hcity & Hearlier & Hset).
  exists before, l, after, earlier, loc, later.
  repeat split; auto.
  rewrite Hres. unfold Collection.with_spaces. now rewrite Hset.
Qed.

(** ** The update at a position *)

Lemma set_location_sets (j : nat) (n : number) (locs locs' : list Location) :
  Collection.set_location j n locs = Some locs' ->
  exists earlier loc later,
    locs = earlier ++ loc :: later /\
    nth_error locs j = Some loc /\
    locs' = earlier ++ mkLocation (city loc) n (location_other loc) :: later.
Proof.
  revert j locs'.
  induction locs as [|loc rest IH]; intros [|j] locs' H; simpl in H;
    try discriminate.
  - inversion H; subst. now exists [], loc, rest.
  - destruct (Collection.set_location j n rest) as [rest'|] eqn:E;
      [|discriminate].
    inversion H; subst.
    destruct (IH j rest' E) as (earlier & loc' & later & -> & Hnth & ->).
    now exists (loc :: earlier), loc', later.
Qed.

Lemma set_entry_sets (i j : nat) (n : number) (docs docs' : list Lesson) :
  Collection.set_entry i j n docs = Some docs' ->
  one_spaces_set n docs docs' /\ exists loc, entry i j docs = Some loc.
Proof.
  unfold entry. revert i docs'.
  induction docs as [|l rest IH]; intros [|i] docs' H; simpl in H;
    try discriminate.
  - destruct (Collection.set_location j n (locations l)) as [locs|] eqn:E;
      [|discriminate].
    inversion H; subst.
    destruct (set_location_sets j n _ _ E)
      as (earlier & loc & later & Hl & Hnth & ->).
    split; [|now exists loc].
    now exists [], l, rest, earlier, loc, later.
  - destruct (Collection.set_entry i j n rest) as [rest'|] eqn:E;
      [|discriminate].
    inversion H; subst.
    destruct (IH i rest' E)
      as [(before & l' & after & earlier & loc & later & -> & Hl & ->) Hloc].
    split; [|assumption].
    now exists (l :: before), l', after, earlier, loc, later.
Qed.

Lemma set_location_found (j : nat) (n : number) (locs : list Location)
  (loc : Location) :
  nth_error locs j = Some loc ->
  exists locs', Collection.set_location j n locs = Some locs'.
Proof.
  revert j. induction locs as [|l rest IH]; intros [|j] H; simpl in *;
    try discriminate.
  - eexists; reflexivity.
  - destruct (IH j H) as [rest' ->]. eexists; reflexivity.
Qed.

Lemma set_entry_found (i j : nat) (n : number) (docs : list Lesson)
  (loc : Location) :
  entry i j docs = Some loc ->
  exists docs', Collection.set_entry i j n docs = Some docs'.
Proof.
  unfold entry. revert i.
  induction docs as [|l rest IH]; intros [|i] H; simpl in *;
    try discriminate.
  - destruct (set_location_found j n _ _ H) as [locs ->].
    eexists; reflexivity.
  - destruct (IH i H) as [rest' ->]. eexists; reflexivity.
Qed.

(** Setting the same entry again leaves the documents as they are. *)
Lemma set_location_twice (j : nat) (n : number) (locs locs' : list Location) :
  Collection.set_location j n locs = Some locs' ->
  Collection.set_location j n locs' = Some locs'.
Proof.
  revert j locs'.
  induction locs as [|loc rest IH]; intros [|j] locs' H; simpl in H;
    try discriminate.
  - inversion H; subst. reflexivity.
  - destruct (Collection.set_location j n rest) as [rest'|] eqn:E;
      [|discriminate].
    inversion H; subst. simpl. now rewrite (IH j rest' E).
Qed.

Lemma set_entry_twice (i j : nat) (n : number) (docs docs' : list Lesson) :
  Collection.set_entry i j n docs = Some docs' ->
  Collection.set_entry i j n docs' = Some docs'.
Proof.
  revert i docs'.
  induction docs as [|l rest IH]; intros [|i] docs' H; simpl in H;
    try discriminate.
  - destruct (Collection.set_location j n (locations l)) as [locs|] eqn:E;
      [|discriminate].
    inversion H; subst. simpl. now rewrite (set_location_twice j n _ _ E).
  - destruct (Collection.set_entry i j n rest) as [rest'|] eqn:E;
      [|discriminate].
    inversion H; subst. simpl. now rewrite (IH i rest' E).
Qed.

Lemma spaces_set_to_one (s c : string) (n : number) (docs docs' : list Lesson) :
  spaces_set_to s c n docs docs' -> one_spaces_set n docs docs'.
Proof.
  intros (before & l & after & earlier & loc & later
          & Hd & _ & _ & Hl & _ & _ & Hd').
  now exists before, l, after, earlier, loc, later.
Qed.

(** ** The update step *)

Lemma server_eta (srv : Server) :
  mkServer (connected srv) (Lessons srv) (Orders srv) (next_id srv) = srv.
Proof. now destruct srv. Qed.

(** For text in the filter the step is [update_first] and the answer
    follows its count, whatever match the driver would tell. *)
Lemma updateSpaces_text (found : Driver.Match) (srv : Server) (s c : string)
  (n : number) :
  updateSpaces (Driver.Resolves found) srv (Some (JStr s)) (Some (JStr c)) n
  = let srv' := mkServer (connected srv)
                  (snd (Collection.update_first s c n (Lessons srv)))
                  (Orders srv) (next_id srv) in
    if fst (Collection.update_first s c n (Lessons srv)) =? 0
    then Return (status_json 404 (Message "Lesson or city not found"), srv')
    else Return (res_json (SpacesUpdated (Some (JStr s)) (Some (JStr c)) n),
                 srv').
Proof.
  unfold updateSpaces; simpl.
  now destruct (Collection.update_first s c n (Lessons srv)).
Qed.

(** With a query document in the filter the answer follows the match
    the database found. *)
Lemma updateSpaces_query (found : Driver.Match) (srv : Server)
  (subject city : value) (n : number) :
  Collection.is_query subject || Collection.is_query city = true ->
  updateSpaces (Driver.Resolves found) srv subject city n
  = match found with
    | Driver.Nothing =>
        Return (status_json 404 (Message "Lesson or city not found"), srv)
    | Driver.Entry i j =>
        match Collection.set_entry i j n (Lessons srv) with
        | Some docs' =>
            Return (res_json (SpacesUpdated subject city n),
                    mkServer (connected srv) docs' (Orders srv) (next_id srv))
        | None => Throw Collection.no_position
        end
    end.
Proof.
  intros Q. unfold updateSpaces, Collection.updateOne. rewrite Q.
  destruct found as [|i j]; simpl.
  - now rewrite server_eta.
  - now destruct (Collection.set_entry i j n (Lessons srv)).
Qed.

(** Any other scalar in the filter selects nothing. *)
Lemma updateSpaces_scalar (found : Driver.Match) (srv : Server)
  (subject city : value) (n : number) :
  Collection.is_query subject || Collection.is_query city = false ->
  (forall s c, subject = Some (JStr s) -> city = Some (JStr c) -> False) ->
  updateSpaces (Driver.Resolves found) srv subject city n
  = Return (status_json 404 (Message "Lesson or city not found"), srv).
Proof.
  intros Q Hnot. unfold updateSpaces, Collection.updateOne. rewrite Q.
  destruct subject as [[| | |s| |]|]; destruct city as [[| | |c| |]|];
    simpl; try (now rewrite server_eta); try discriminate.
  now contradiction (Hnot s c).
Qed.

(** The filter of a request is text, another scalar or absent, or holds
    a query document. *)
Lemma filter_cases (subject city : value) :
  (exists s c, subject = Some (JStr s) /\ city = Some (JStr c)) \/
  (Collection.is_query subject || Collection.is_query city = false /\
   forall s c, subject = Some (JStr s) -> city = Some (JStr c) -> False) \/
  Collection.is_query subject || Collection.is_query city = true.
Proof.
  destruct subject as [[| | |s| |]|]; destruct city as [[| | |c| |]|];
    simpl; auto;
    try (right; left; split; [reflexivity|intros; discriminate]).
  left. now exists s, c.
Qed.

(** A 200 comes from a call that resolved, with text that selected a
    lesson or with a query document for which the database found one. *)
Lemma updateSpaces_success
  (db : Driver.Answer Driver.Match) (srv srv' : Server) (subject city : value)
  (n : number) (r : Response) :
  updateSpaces db srv subject city n = Return (r, srv') ->
  status r = 200 ->
  exists found docs',
    db = Driver.Resolves found /\
    r = res_json (SpacesUpdated subject city n) /\
    srv' = mkServer (connected srv) docs' (Orders srv) (next_id srv) /\
    ((exists s c,
         subject = Some (JStr s) /\
         city = Some (JStr c) /\
         fst (Collection.update_first s c n (Lessons srv)) <> 0 /\
         docs' = snd (Collection.update_first s c n (Lessons srv)))
     \/
     (Collection.is_query subject || Collection.is_query city = true /\
      exists i j,
        found = Driver.Entry i j /\
        Collection.set_entry i j n (Lessons srv) = Some docs')).
Proof.
  intros Hrun Hstatus. destruct db as [found|e]; [|discriminate].
  destruct (filter_cases subject city) as [(s & c & -> & ->)|[[Q Hnot]|Q]].
  - rewrite updateSpaces_text in Hrun. simpl in Hrun.
    destruct (fst (Collection.update_first s c n (Lessons srv)) =? 0) eqn:K;
      inversion Hrun; subst; [discriminate|].
    apply Z.eqb_neq in K. exists found. eexists. repeat split.
    left. now exists s, c.
  - rewrite updateSpaces_scalar in Hrun by assumption.
    inversion Hrun; subst. discriminate.
  - rewrite updateSpaces_query in Hrun by assumption.
    destruct found as [|i j]; [inversion Hrun; subst; discriminate|].
    destruct (Collection.set_entry i j n (Lessons srv)) as [docs'|] eqn:E;
      inversion Hrun; subst.
    exists (Driver.Entry i j), docs'. repeat split.
    right. split; [assumption|]. now exists i, j.
Qed.

(** Any other answer of the step is the 404, and the state is the one it
    found. *)
Lemma updateSpaces_failure
  (db : Driver.Answer Driver.Match) (srv srv' : Server) (subject city : value)
  (n : number) (r : Response) :
  updateSpaces db srv subject city n = Return (r, srv') ->
  status r <> 200 ->
  r = status_json 404 (Message "Lesson or city not found") /\ srv' = srv.
Proof.
  intros Hrun Hstatus. destruct db as [found|e]; [|discriminate].
  destruct (filter_cases subject city) as [(s & c & -> & ->)|[[Q Hnot]|Q]].
  - rewrite updateSpaces_text in Hrun. simpl in Hrun.
    destruct (fst (Collection.update_first s c n (Lessons srv)) =? 0) eqn:K;
      inversion Hrun; subst.
    + apply Z.eqb_eq in K. rewrite (update_first_unchanged _ _ _ _ K).
      split; [reflexivity|apply server_eta].
    + now contradiction Hstatus.
  - rewrite updateSpaces_scalar in Hrun by assumption.
    inversion Hrun; subst. now split.
  - rewrite updateSpaces_query in Hrun by assumption.
    destruct found as [|i j]; [inversion Hrun; subst; now split|].
    destruct (Collection.set_entry i j n (Lessons srv)) as [docs'|];
      inversion Hrun; subst.
    now contradiction Hstatus.
Qed.

(** For text that some lesson offers the step answers 200. *)
Lemma updateSpaces_offered (found : Driver.Match) (srv : Server)
  (s c : string) (n : number) :
  offered s c (Lessons srv) ->
  updateSpaces (Driver.Resolves found) srv (Some (JStr s)) (Some (JStr c)) n
  = Return (res_json (SpacesUpdated (Some (JStr s)) (Some (JStr c)) n),
            mkServer (connected srv)
              (snd (Collection.update_first s c n (Lessons srv)))
              (Orders srv) (next_id srv)).
Proof.
  intros Hoff. rewrite updateSpaces_text. simpl.
  apply (matched_iff_offered s c n) in Hoff.
  destruct (fst (Collection.update_first s c n (Lessons srv)) =? 0) eqn:K;
    [|reflexivity].
  apply Z.eqb_eq in K. contradiction.
Qed.

(** For text that no lesson offers it answers 404. *)
Lemma updateSpaces_not_offered (found : Driver.Match) (srv : Server)
  (s c : string) (n : number) :
  ~ offered s c (Lessons srv) ->
  updateSpaces (Driver.Resolves found) srv (Some (JStr s)) (Some (JStr c)) n
  = Return (status_json 404 (Message "Lesson or city not found"), srv).
Proof.
  intros Hno. rewrite updateSpaces_text. simpl.
  destruct (fst (Collection.update_first s c n (Lessons srv)) =? 0) eqn:K.
  - apply Z.eqb_eq in K. rewrite (update_first_unchanged _ _ _ _ K).
    now rewrite server_eta.
  - apply Z.eqb_neq in K. exfalso. apply Hno.
    now apply (matched_iff_offered s c n).
Qed.

(** ** The spaces handler, branch by branch *)

Section PutLessons.

Variables (db : Driver.Answer Driver.Match) (srv : Server) (req : Req.Spaces).

Lemma put_lessons_not_connected :
  connected srv = false ->
  put_lessons db srv req
  = (status_json 500 (Message "Failed to update spaces"), srv).
Proof.
  intros H. unfold put_lessons. now rewrite H.
Qed.

Hypothesis Hconnected : connected srv = true.

Lemma put_lessons_missing :
  missing_fields req = true ->
  put_lessons db srv req
  = (status_json 400 (Message "subject, city, and spaces are required"), srv).
Proof.
  unfold put_lessons, missing_fields. rewrite Hconnected.
  destruct req as [subject city spaces]; simpl. now intros ->.
Qed.

Hypothesis Hpresent : missing_fields req = false.

Lemma put_lessons_throw (e : string) :
  Js.Number (Req.spaces req) = Throw e ->
  put_lessons db srv req
  = (status_json 500 (Message "Failed to update spaces"), srv).
Proof.
  revert Hpresent. unfold put_lessons, missing_fields. rewrite Hconnected.
  destruct req as [subject city spaces]; simpl. now intros -> ->.
Qed.

Variable newSpaces : number.
Hypothesis Hnumber : Js.Number (Req.spaces req) = Return newSpaces.

Lemma put_lessons_invalid :
  negb (isFinite newSpaces) || PrimFloat.ltb newSpaces zero = true ->
  put_lessons db srv req
  = (status_json 400 (Message "spaces must be a non-negative number"), srv).
Proof.
  revert Hpresent Hnumber. unfold put_lessons, missing_fields.
  rewrite Hconnected.
  destruct req as [subject city spaces];
    cbn [Req.subject Req.city Req.spaces negb bind].
  intros -> ->; cbn [bind]. now intros ->.
Qed.

Hypothesis Hvalid :
  negb (isFinite newSpaces) || PrimFloat.ltb newSpaces zero = false.

Lemma put_lessons_update :
  put_lessons db srv req
  = match updateSpaces db srv (Req.subject req) (Req.city req) newSpaces with
    | Return r => r
    | Throw _ => (status_json 500 (Message "Failed to update spaces"), srv)
    end.
Proof.
  revert Hpresent Hnumber Hvalid. unfold put_lessons, missing_fields.
  rewrite Hconnected.
  destruct req as [subject city spaces];
    cbn [Req.subject Req.city Req.spaces negb bind].
  intros -> ->; cbn [bind]. now intros ->.
Qed.

End PutLessons.

Lemma put_cases (srv : Server) (req : Req.Spaces) : put_case srv req.
Proof.
  destruct (connected srv) eqn:H; [|now apply put_not_connected].
  destruct (missing_fields req) eqn:M; [now apply put_missing|].
  destruct (Js.Number (Req.spaces req)) as [x|e] eqn:T;
    [|now apply put_throw with e].
  destruct (negb (isFinite x) || PrimFloat.ltb x zero) eqn:V.
  - now apply put_invalid with x.
  - now apply put_update with x.
Qed.

Lemma put_lessons_validated (db : Driver.Answer Driver.Match) (srv : Server)
  (req : Req.Spaces) (n : number) :
  connected srv = true ->
  validated req n ->
  put_lessons db srv req
  = match updateSpaces db srv (Req.subject req) (Req.city req) n with
    | Return r => r
    | Throw _ => (status_json 500 (Message "Failed to update spaces"), srv)
    end.
Proof.
  intros H (M & T & V). now apply put_lessons_update.
Qed.

(** A validated request whose call rejects is answered 500. *)
Lemma put_lessons_rejected (e : string) (srv : Server) (req : Req.Spaces)
  (n : number) :
  connected srv = true ->
  validated req n ->
  put_lessons (Driver.Rejects e) srv req
  = (status_json 500 (Message "Failed to update spaces"), srv).
Proof.
  intros H V. now rewrite put_lessons_validated with (n := n).
Qed.

Lemma validated_rejection (req : Req.Spaces) :
  spaces_rejection req = Return None <-> exists n, validated req n.
Proof.
  unfold spaces_rejection, validated. split.
  - destruct (missing_fields req); [discriminate|].
    destruct (Js.Number (Req.spaces req)) as [x|e]; simpl; [|discriminate].
    destruct (negb (isFinite x) || PrimFloat.ltb x zero) eqn:V;
      [discriminate|].
    intros _. now exists x.
  - intros (n & -> & -> & V). simpl. now rewrite V.
Qed.

Lemma spaces_rejection_cases (req : Req.Spaces) (msg : string) :
  spaces_rejection req = Return (Some msg) ->
  (missing_fields req = true /\
   msg = "subject, city, and spaces are required") \/
  (missing_fields req = false /\
   msg = "spaces must be a non-negative number" /\
   exists x, Js.Number (Req.spaces req) = Return x /\
             negb (isFinite x) || PrimFloat.ltb x zero = true).
Proof.
  unfold spaces_rejection.
  destruct (missing_fields req); [intros H; inversion H; auto|].
  destruct (Js.Number (Req.spaces req)) as [x|e]; simpl; [|discriminate].
  destruct (negb (isFinite x) || PrimFloat.ltb x zero) eqn:V;
    intros H; inversion H.
  right. repeat split; auto. now exists x.
Qed.

(** What a 200 tells about the request, the driver and the two states. *)
Lemma put_lessons_success (db : Driver.Answer Driver.Match)
  (srv srv' : Server) (req : Req.Spaces) (r : Response) :
  put_lessons db srv req = (r, srv') ->
  status r = 200 ->
  exists n found docs',
    connected srv = true /\
    validated req n /\
    db = Driver.Resolves found /\
    r = res_json (SpacesUpdated (Req.subject req) (Req.city req) n) /\
    srv' = mkServer (connected srv) docs' (Orders srv) (next_id srv) /\
    ((exists s c,
         Req.subject req = Some (JStr s) /\
         Req.city req = Some (JStr c) /\
         fst (Collection.update_first s c n (Lessons srv)) <> 0 /\
         docs' = snd (Collection.update_first s c n (Lessons srv)))
     \/
     (queries req = true /\
      exists i j,
        found = Driver.Entry i j /\
        Collection.set_entry i j n (Lessons srv) = Some docs')).
Proof.
  intros Hrun Hstatus.
  destruct (put_cases srv req) as [H|H M|H M e T|H M x T V|H M x T V].
  - rewrite put_lessons_not_connected in Hrun by assumption.
    inversion Hrun; subst; discriminate.
  - rewrite put_lessons_missing in Hrun by assumption.
    inversion Hrun; subst; discriminate.
  - rewrite put_lessons_throw with (e := e) in Hrun by assumption.
    inversion Hrun; subst; discriminate.
  - rewrite put_lessons_invalid with (newSpaces := x) in Hrun by assumption.
    inversion Hrun; subst; discriminate.
  - rewrite put_lessons_update with (newSpaces := x) in Hrun by assumption.
    destruct (updateSpaces db srv (Req.subject req) (Req.city req) x)
      as [[r0 s0]|e] eqn:U; [|inversion Hrun; subst; discriminate].
    inversion Hrun; subst.
    destruct (updateSpaces_success _ _ _ _ _ _ _ U Hstatus)
      as (found & docs' & Hdb & Hr & Hs & Hhow).
    exists x, found, docs'. unfold validated. repeat split; auto.
Qed.

(** Any other answer leaves the state as it was. *)
Lemma put_lessons_failure_keeps_state (db : Driver.Answer Driver.Match)
  (srv srv' : Server) (req : Req.Spaces) (r : Response) :
  put_lessons db srv req = (r, srv') ->
  status r <> 200 ->
  srv' = srv.
Proof.
  intros Hrun Hstatus.
  destruct (put_cases srv req) as [H|H M|H M e T|H M x T V|H M x T V].
  - rewrite put_lessons_not_connected in Hrun by assumption. congruence.
  - rewrite put_lessons_missing in Hrun by assumption. congruence.
  - rewrite put_lessons_throw with (e := e) in Hrun by assumption. congruence.
  - rewrite put_lessons_invalid with (newSpaces := x) in Hrun by assumption.
    congruence.
  - rewrite put_lessons_update with (newSpaces := x) in Hrun by assumption.
    destruct (updateSpaces db srv (Req.subject req) (Req.city req) x)
      as [[r0 s0]|e] eqn:U; [|congruence].
    inversion Hrun; subst.
    now apply (updateSpaces_failure _ _ _ _ _ _ _ U).
Qed.

(** The documents a 200 leaves, in terms of the documents it found. *)
Lemma put_lessons_sets (db : Driver.Answer Driver.Match)
  (srv srv' : Server) (req : Req.Spaces) (r : Response) :
  put_lessons db srv req = (r, srv') ->
  status r = 200 ->
  only_spaces_changed srv srv' req.
Proof.
  intros Hrun Hstatus.
  destruct (put_lessons_success _ _ _ _ _ Hrun Hstatus)
    as (n & found & docs' & H & (_ & T & _) & _ & _ & -> & Hhow).
  exists n; simpl.
  destruct Hhow as [(s & c & Es & Ec & Hk & ->)|(Q & i & j & _ & Hset)].
  - pose proof (update_first_sets s c n _ Hk) as Hsets.
    repeat split; auto.
    + now apply (spaces_set_to_one s c).
    + left. now exists s, c.
  - repeat split; auto. now apply (set_entry_sets i j).
Qed.

(** ** The spaces update is idempotent *)

(** C2.  [updateSpaces] is idempotent.  Whatever the lessons in the
    store, for a subject and a city that some lesson offers the update,
    its call resolving, answers 200 with [{ok, subject, city, spaces}],
    and applied again to the state it left it gives the same answer and
    leaves that state as it is.  So does the whole handler: the same
    request sent again to the state the first run left, the driver
    answering as it did, gets the same answer and leaves that state as
    it is, whatever the first answer was; on a connected store, for a
    request that passes validation and a subject and city on offer, that
    answer is the 200. *)
Theorem updateSpaces_idempotent :
  (forall found found' srv s c n,
      let ok := res_json (SpacesUpdated (Some (JStr s)) (Some (JStr c)) n) in
      offered s c (Lessons srv) ->
      exists srv',
        updateSpaces (Driver.Resolves found) srv
          (Some (JStr s)) (Some (JStr c)) n = Return (ok, srv') /\
        updateSpaces (Driver.Resolves found') srv'
          (Some (JStr s)) (Some (JStr c)) n = Return (ok, srv')) /\
  (forall db srv srv' req r,
      put_lessons db srv req = (r, srv') ->
      put_lessons db srv' req = (r, srv')) /\
  (forall found found' srv s c sp n,
      let req := Req.mkSpaces (Some (JStr s)) (Some (JStr c)) sp in
      let ok := res_json (SpacesUpdated (Some (JStr s)) (Some (JStr c)) n) in
      connected srv = true ->
      validated req n ->
      offered s c (Lessons srv) ->
      exists srv',
        put_lessons (Driver.Resolves found) srv req = (ok, srv') /\
        put_lessons (Driver.Resolves found') srv' req = (ok, srv')).
Proof.
  assert (Hstep : forall found found' srv s c n,
             offered s c (Lessons srv) ->
             let srv' := mkServer (connected srv)
                           (snd (Collection.update_first s c n (Lessons srv)))
                           (Orders srv) (next_id srv) in
             let ok := res_json
                         (SpacesUpdated (Some (JStr s)) (Some (JStr c)) n) in
             updateSpaces (Driver.Resolves found) srv
               (Some (JStr s)) (Some (JStr c)) n
             = Return (ok, srv') /\
             updateSpaces (Driver.Resolves found') srv'
               (Some (JStr s)) (Some (JStr c)) n
             = Return (ok, srv')).
  { intros found found' srv s c n Hoff srv' ok. split.
    - now apply updateSpaces_offered.
    - rewrite updateSpaces_text. unfold srv'; simpl.
      rewrite update_first_twice.
      apply (matched_iff_offered s c n) in Hoff.
      destruct (fst (Collection.update_first s c n (Lessons srv)) =? 0) eqn:K;
        [|reflexivity].
      apply Z.eqb_eq in K. contradiction. }
  split; [|split].
  - intros found found' srv s c n ok Hoff. eexists.
    exact (Hstep found found' srv s c n Hoff).
  - intros db srv srv' req r Hrun.
    destruct (Z.eq_dec (status r) 200) as [E|E].
    + destruct (put_lessons_success _ _ _ _ _ Hrun E)
        as (n & found & docs' & H & V & -> & -> & -> & Hhow).
      rewrite put_lessons_validated with (n := n) by assumption.
      destruct Hhow as [(s & c & Es & Ec & Hk & ->)|(Q & i & j & -> & Hset)].
      * rewrite Es, Ec.
        apply (matched_iff_offered s c n) in Hk.
        destruct (Hstep found found _ s c n Hk) as [_ Hagain].
        simpl in Hagain. cbn [Lessons connected Orders next_id].
        now rewrite Hagain.
      * unfold queries in Q. rewrite updateSpaces_query by assumption.
        cbn [Lessons connected Orders next_id].
        now rewrite (set_entry_twice i j n _ _ Hset).
    + pose proof (put_lessons_failure_keeps_state _ _ _ _ _ Hrun E) as Hsame.
      subst srv'. exact Hrun.
  - intros found found' srv s c sp n req ok H V Hoff.
    destruct (Hstep found found' srv s c n Hoff) as [Hfirst Hsecond].
    eexists. split.
    + rewrite put_lessons_validated with (n := n) by assumption.
      unfold req; cbn [Req.subject Req.city]. now rewrite Hfirst.
    + rewrite put_lessons_validated with (n := n) by assumption.
      unfold req; cbn [Req.subject Req.city]. now rewrite Hsecond.
Qed.

Lemma updateSpaces_idempotent_witness :
  (exists srv',
      updateSpaces resolves online (Some (JStr "Math")) (Some (JStr "Paris"))
        3%float
      = Return (res_json (SpacesUpdated (Some (JStr "Math"))
                            (Some (JStr "Paris")) 3%float), srv') /\
      updateSpaces resolves srv' (Some (JStr "Math")) (Some (JStr "Paris"))
        3%float
      = Return (res_json (SpacesUpdated (Some (JStr "Math"))
                            (Some (JStr "Paris")) 3%float), srv')) /\
  put_lessons resolves paris_booked
    (spaces_request "Math" "Paris" (JNum 3%float))
  = (res_json (SpacesUpdated (Some (JStr "Math")) (Some (JStr "Paris"))
                 3%float), paris_booked) /\
  exists srv',
    put_lessons resolves online (spaces_request "Math" "Paris" (JNum 3%float))
    = (res_json (SpacesUpdated (Some (JStr "Math")) (Some (JStr "Paris"))
                   3%float), srv') /\
    put_lessons resolves srv' (spaces_request "Math" "Paris" (JNum 3%float))
    = (res_json (SpacesUpdated (Some (JStr "Math")) (Some (JStr "Paris"))
                   3%float), srv').
Proof.
  assert (Hoff : offered "Math" "Paris" (Lessons online)).
  { exists math, (mkLocation "Paris" 2%float []).
    repeat split; simpl; auto. }
  destruct updateSpaces_idempotent as (Hstep & Hagain & Hok).
  split; [|split].
  - exact (Hstep Driver.Nothing Driver.Nothing online "Math" "Paris" 3%float
             Hoff).
  - apply (Hagain resolves online paris_booked). reflexivity.
  - apply (Hok Driver.Nothing Driver.Nothing online "Math" "Paris"
             (Some (JNum 3%float)) 3%float).
    + reflexivity.
    + repeat split; reflexivity.
    + exact Hoff.
Defined.

(** ** What a successful update changes *)

(** C3.  A successful update changes the spaces of one location entry
    and nothing else: the lessons before and after the one that is
    updated, that lesson's subject and other fields, its entries before
    and after the one that is updated, and that entry's city and other
    fields are as they were; so are the orders.  The value set is the
    number the request's spaces reads as.  For a subject and a city given
    as text the entry is the first one in the city of the first lesson
    that has the subject and the city; otherwise the request holds a
    query document and the entry is the one the database found for it. *)
Theorem put_lessons_frame (db : Driver.Answer Driver.Match)
  (srv srv' : Server) (req : Req.Spaces) (r : Response) :
  put_lessons db srv req = (r, srv') ->
  status r = 200 ->
  only_spaces_changed srv srv' req.
Proof.
  intros Hrun Hstatus. now apply (put_lessons_sets db srv srv' req r).
Qed.

Lemma put_lessons_frame_witness :
  only_spaces_changed online paris_booked
    (spaces_request "Math" "Paris" (JNum 3%float)) /\
  only_spaces_changed online berlin_halved (any_lesson (JNum 2.5%float)).
Proof.
  split.
  - apply (put_lessons_frame resolves online paris_booked
             (spaces_request "Math" "Paris" (JNum 3%float))
             (res_json (SpacesUpdated (Some (JStr "Math"))
                          (Some (JStr "Paris")) 3%float)));
      reflexivity.
  - apply (put_lessons_frame (Driver.Resolves (Driver.Entry 0 0)) online
             berlin_halved (any_lesson (JNum 2.5%float))
             (res_json (SpacesUpdated (Some any_text) (Some any_text)
                          2.5%float)));
      reflexivity.
Defined.

(** ** Failures of the spaces update *)

Lemma not_offered_math_rome : ~ offered "Math" "Rome" (Lessons online).
Proof.
  intros (l & loc & Hin & Hs & Hloc & Hc).
  simpl in Hin. destruct Hin as [<-|[<-|[]]]; simpl in Hs, Hloc.
  - destruct Hloc as [<-|[<-|[]]]; discriminate.
  - discriminate.
Defined.

(** C4, as the claim states it, fails: a request that passes validation
    for a subject and a city no lesson offers is answered 500, not 404,
    with the store not yet connected, and on a connected store when the
    update rejects.  And a request that passes validation with the query
    document [{"$gt": ""}] for its subject and its city, which no lesson
    has for a subject or for a city, is answered 200, not 404, when the
    database, reading the query, finds the first lesson and its first
    location. *)
Lemma put_lessons_500_not_404 :
  validated (spaces_request "Math" "Rome" (JNum 3%float)) 3%float /\
  ~ request_offered (spaces_request "Math" "Rome" (JNum 3%float))
      (Lessons offline) /\
  connected offline = false /\
  put_lessons resolves offline (spaces_request "Math" "Rome" (JNum 3%float))
  = (status_json 500 (Message "Failed to update spaces"), offline) /\
  Lessons online = Lessons offline /\
  connected online = true /\
  put_lessons lost online (spaces_request "Math" "Rome" (JNum 3%float))
  = (status_json 500 (Message "Failed to update spaces"), online) /\
  validated (any_lesson (JNum 2.5%float)) 2.5%float /\
  ~ request_offered (any_lesson (JNum 2.5%float)) (Lessons online) /\
  put_lessons (Driver.Resolves (Driver.Entry 0 0)) online
    (any_lesson (JNum 2.5%float))
  = (res_json (SpacesUpdated (Some any_text) (Some any_text) 2.5%float),
     berlin_halved).
Proof.
  split; [repeat split; reflexivity|split].
  - intros (s & c & Es & Ec & Hoff). inversion Es; inversion Ec; subst.
    now apply not_offered_math_rome.
  - repeat split; try reflexivity.
    intros (s & c & Es & _). discriminate.
Qed.

Lemma not_offered_not_text (req : Req.Spaces) (docs : list Lesson) :
  (forall s c, Req.subject req = Some (JStr s) ->
               Req.city req = Some (JStr c) -> False) ->
  ~ request_offered req docs.
Proof.
  intros Hnot (s & c & Es & Ec & _). now apply (Hnot s c).
Qed.

Lemma put_lessons_404_iff (db : Driver.Answer Driver.Match)
  (srv srv' : Server) (req : Req.Spaces) (r : Response) (n : number) :
  connected srv = true ->
  validated req n ->
  put_lessons db srv req = (r, srv') ->
  (status r = 404 <->
   exists found,
     db = Driver.Resolves found /\ nothing_matched req found (Lessons srv)).
Proof.
  intros H V Hrun.
  rewrite put_lessons_validated with (n := n) in Hrun by assumption.
  destruct db as [found|e].
  2:{ simpl in Hrun. inversion Hrun; subst. split; [discriminate|].
      intros (found & Hdb & _). discriminate. }
  unfold nothing_matched, queries.
  destruct (filter_cases (Req.subject req) (Req.city req))
    as [(s & c & Es & Ec)|[[Q Hnot]|Q]].
  - assert (Q : Collection.is_query (Req.subject req)
                || Collection.is_query (Req.city req) = false)
      by now rewrite Es, Ec.
    rewrite Q. rewrite Es, Ec in Hrun.
    destruct (Z.eq_dec (fst (Collection.update_first s c n (Lessons srv))) 0)
      as [K|K].
    2:{ assert (Hoff : offered s c (Lessons srv))
          by now apply (matched_iff_offered s c n).
        rewrite (updateSpaces_offered found srv s c n Hoff) in Hrun.
        inversion Hrun; subst. split; [discriminate|].
        intros (found' & _ & Hnone). exfalso. apply Hnone.
        now exists s, c. }
    assert (Hno : ~ offered s c (Lessons srv)).
    { intros Hoff. now apply (matched_iff_offered s c n) in Hoff. }
    rewrite (updateSpaces_not_offered found srv s c n Hno) in Hrun.
    inversion Hrun; subst. split; [|reflexivity].
    intros _. exists found. split; [reflexivity|].
    intros (s' & c' & Es' & Ec' & Hoff). apply Hno. congruence.
  - rewrite Q. rewrite updateSpaces_scalar in Hrun by assumption.
    inversion Hrun; subst. split; [|reflexivity].
    intros _. exists found. split; [reflexivity|].
    now apply not_offered_not_text.
  - rewrite Q. rewrite updateSpaces_query in Hrun by assumption.
    destruct found as [|i j].
    + inversion Hrun; subst. split; [|reflexivity].
      intros _. now exists Driver.Nothing.
    + split.
      * destruct (Collection.set_entry i j n (Lessons srv));
          inversion Hrun; subst; discriminate.
      * intros (found & Hdb & Hnone). inversion Hdb; subst. discriminate.
Qed.

(** C4, amended.  The spaces update fails atomically.  A request answered
    400 or 404 leaves the state, all lesson documents with it, as it
    found it.  On a connected store a request that passes validation is
    answered 404 exactly when the update resolves and has matched no
    lesson; for a subject and a city given as text that is when no lesson
    has the subject together with a location in the city, and the 404 is
    then returned; a query document in the filter has matched what the
    database found for it.  With the store not yet connected, and on a
    connected store when the update of a validated request rejects, the
    answer is 500 and the state is left as it was. *)
Theorem put_lessons_fails_atomically :
  (forall db srv srv' req r,
      put_lessons db srv req = (r, srv') ->
      status r = 400 \/ status r = 404 ->
      srv' = srv /\ Lessons srv' = Lessons srv) /\
  (forall db srv srv' req r n,
      connected srv = true ->
      validated req n ->
      put_lessons db srv req = (r, srv') ->
      (status r = 404 <->
       exists found,
         db = Driver.Resolves found /\
         nothing_matched req found (Lessons srv))) /\
  (forall found srv s c sp n,
      let req := Req.mkSpaces (Some (JStr s)) (Some (JStr c)) sp in
      connected srv = true ->
      validated req n ->
      (nothing_matched req found (Lessons srv) <-> ~ offered s c (Lessons srv))
      /\
      (~ offered s c (Lessons srv) ->
       put_lessons (Driver.Resolves found) srv req
       = (status_json 404 (Message "Lesson or city not found"), srv))) /\
  (forall db srv req,
      connected srv = false ->
      put_lessons db srv req
      = (status_json 500 (Message "Failed to update spaces"), srv)) /\
  (forall e srv req n,
      connected srv = true ->
      validated req n ->
      put_lessons (Driver.Rejects e) srv req
      = (status_json 500 (Message "Failed to update spaces"), srv)).
Proof.
  split; [|split; [|split; [|split]]].
  - intros db srv srv' req r Hrun Hstatus.
    assert (srv' = srv) as ->; [|now split].
    apply (put_lessons_failure_keeps_state _ _ _ _ _ Hrun).
    destruct Hstatus as [E|E]; rewrite E; discriminate.
  - intros db srv srv' req r n. apply put_lessons_404_iff.
  - intros found srv s c sp n req H V. split.
    + unfold nothing_matched, queries, req; simpl. split.
      * intros Hno Hoff. apply Hno. now exists s, c.
      * intros Hno (s' & c' & Es & Ec & Hoff). simpl in Es, Ec.
        inversion Es; inversion Ec; subst. contradiction.
    + intros Hno.
      rewrite put_lessons_validated with (n := n) by assumption.
      unfold req; cbn [Req.subject Req.city].
      now rewrite updateSpaces_not_offered.
  - intros db srv req. apply put_lessons_not_connected.
  - intros e srv req n. apply put_lessons_rejected.
Qed.

Lemma put_lessons_fails_atomically_witness :
  (online = online /\ Lessons online = Lessons online) /\
  (status (status_json 404 (Message "Lesson or city not found")) = 404 <->
   exists found,
     resolves = Driver.Resolves found /\
     nothing_matched (spaces_request "Math" "Rome" (JNum 3%float)) found
       (Lessons online)) /\
  put_lessons resolves online (spaces_request "Math" "Rome" (JNum 3%float))
  = (status_json 404 (Message "Lesson or city not found"), online) /\
  put_lessons resolves offline (spaces_request "Math" "Rome" (JNum 3%float))
  = (status_json 500 (Message "Failed to update spaces"), offline) /\
  put_lessons lost online (spaces_request "Math" "Rome" (JNum 3%float))
  = (status_json 500 (Message "Failed to update spaces"), online).
Proof.
  destruct put_lessons_fails_atomically
    as (Hfail & Hiff & Hnone & Hoff & Hlost).
  split; [|split; [|split; [|split]]].
  - apply (Hfail resolves online online negative
             (status_json 400 (Message "spaces must be a non-negative number"))).
    + reflexivity.
    + left; reflexivity.
  - apply (Hiff resolves online online
             (spaces_request "Math" "Rome" (JNum 3%float))
             (status_json 404 (Message "Lesson or city not found")) 3%float).
    + reflexivity.
    + repeat split; reflexivity.
    + reflexivity.
  - apply (Hnone Driver.Nothing online "Math" "Rome" (Some (JNum 3%float))
             3%float).
    + reflexivity.
    + repeat split; reflexivity.
    + exact not_offered_math_rome.
  - now apply Hoff.
  - apply (Hlost "connection closed" online
             (spaces_request "Math" "Rome" (JNum 3%float)) 3%float).
    + reflexivity.
    + repeat split; reflexivity.
Defined.

(** ** The spaces invariant *)

Lemma non_negative_integer_non_negative (x : number) :
  non_negative_integer x = true -> non_negative x = true.
Proof.
  unfold non_negative_integer. intros H. now apply andb_true_iff in H.
Qed.

Lemma checked_non_negative (x : number) :
  negb (isFinite x) || PrimFloat.ltb x zero = false -> non_negative x = true.
Proof.
  unfold non_negative. intros H. apply orb_false_iff in H as [F L].
  apply negb_false_iff in F. now rewrite F, L.
Qed.

Section EverySpaces.

Variable P : number -> bool.

(** Where all spaces values had a property and one of them was set, they
    all have it afterwards exactly when the value that was set has it. *)
Lemma one_spaces_set_every (n : number) (docs docs' : list Lesson) :
  one_spaces_set n docs docs' ->
  every_spaces P docs = true ->
  every_spaces P docs' = P n.
Proof.
  intros (before & l & after & earlier & loc & later & -> & Hl & ->).
  unfold every_spaces. rewrite !forallb_app. simpl.
  rewrite Hl, !forallb_app. simpl. intros H.
  apply andb_true_iff in H as [Hb H]. apply andb_true_iff in H as [H Ha].
  apply andb_true_iff in H as [He H]. apply andb_true_iff in H as [_ Hlater].
  rewrite Hb, Ha, He, Hlater. simpl.
  now rewrite !andb_true_r.
Qed.

Variable Q : number -> bool.
Hypothesis P_Q : forall x, P x = true -> Q x = true.

Lemma every_spaces_weaken (docs : list Lesson) :
  every_spaces P docs = true -> every_spaces Q docs = true.
Proof.
  unfold every_spaces. rewrite !forallb_forall. intros H l Hl.
  specialize (H l Hl). rewrite forallb_forall in *.
  intros loc Hloc. apply P_Q. now apply H.
Qed.

End EverySpaces.

(** What a 200 has written: one spaces value, set to the number the
    spaces of the request reads as, which passed the check of line
    109. *)
Lemma put_lessons_written (db : Driver.Answer Driver.Match)
  (srv srv' : Server) (req : Req.Spaces) (r : Response) :
  put_lessons db srv req = (r, srv') ->
  status r = 200 ->
  exists n,
    validated req n /\
    one_spaces_set n (Lessons srv) (Lessons srv') /\
    (forall s c,
        Req.subject req = Some (JStr s) ->
        Req.city req = Some (JStr c) ->
        spaces_set_to s c n (Lessons srv) (Lessons srv')).
Proof.
  intros Hrun Hstatus.
  destruct (put_lessons_success _ _ _ _ _ Hrun Hstatus)
    as (n & found & docs' & H & V & _ & _ & -> & Hhow).
  exists n; simpl. split; [assumption|].
  destruct Hhow as [(s & c & Es & Ec & Hk & ->)|(Q & i & j & _ & Hset)].
  - pose proof (update_first_sets s c n _ Hk) as Hsets. split.
    + now apply (spaces_set_to_one s c).
    + intros s' c' Es' Ec'. congruence.
  - split; [now apply (set_entry_sets i j)|].
    intros s c Es Ec. unfold queries in Q. rewrite Es, Ec in Q.
    discriminate.
Qed.

(** C6, as the claim states it, fails: every spaces value of [online] is
    a non-negative integer, the request for 2.5 spaces is answered 200,
    and the state it leaves holds the fraction. *)
Lemma put_lessons_stores_fraction :
  every_spaces non_negative_integer (Lessons online) = true /\
  put_lessons resolves online (spaces_request "Math" "Berlin" (JNum 2.5%float))
  = (res_json (SpacesUpdated (Some (JStr "Math")) (Some (JStr "Berlin"))
                 2.5%float), berlin_halved) /\
  every_spaces non_negative_integer (Lessons berlin_halved) = false.
Proof. repeat split; reflexivity. Qed.

(** C6, amended.  If every spaces value is a non-negative integer before a
    successful update, then afterwards every spaces value is a finite
    number that is not negative.  The update has set one value and left
    the others as they were: the value set is the number the request's
    spaces reads as, which is finite and not negative and need not be an
    integer, and for a subject and a city given as text it is the value
    of the first entry in the city of the first lesson that has both.
    The values are all non-negative integers again exactly when that
    number is an integer. *)
Theorem put_lessons_keeps_spaces_non_negative
  (db : Driver.Answer Driver.Match) (srv srv' : Server) (req : Req.Spaces)
  (r : Response) :
  put_lessons db srv req = (r, srv') ->
  status r = 200 ->
  every_spaces non_negative_integer (Lessons srv) = true ->
  exists n,
    Js.Number (Req.spaces req) = Return n /\
    non_negative n = true /\
    one_spaces_set n (Lessons srv) (Lessons srv') /\
    (forall s c,
        Req.subject req = Some (JStr s) ->
        Req.city req = Some (JStr c) ->
        spaces_set_to s c n (Lessons srv) (Lessons srv')) /\
    every_spaces non_negative (Lessons srv') = true /\
    every_spaces non_negative_integer (Lessons srv') = isInteger n.
Proof.
  intros Hrun Hstatus Hinv.
  destruct (put_lessons_written _ _ _ _ _ Hrun Hstatus)
    as (n & (_ & T & V) & Hone & Htext).
  apply checked_non_negative in V.
  exists n. repeat split; auto.
  - rewrite (one_spaces_set_every non_negative n _ _ Hone); [assumption|].
    now apply (every_spaces_weaken non_negative_integer non_negative
                 non_negative_integer_non_negative).
  - rewrite (one_spaces_set_every non_negative_integer n _ _ Hone Hinv).
    unfold non_negative_integer. now rewrite V.
Qed.

Lemma put_lessons_keeps_spaces_non_negative_witness :
  exists n,
    Js.Number (Req.spaces (spaces_request "Math" "Berlin" (JNum 2.5%float)))
    = Return n /\
    non_negative n = true /\
    one_spaces_set n (Lessons online) (Lessons berlin_halved) /\
    (forall s c,
        Req.subject (spaces_request "Math" "Berlin" (JNum 2.5%float))
        = Some (JStr s) ->
        Req.city (spaces_request "Math" "Berlin" (JNum 2.5%float))
        = Some (JStr c) ->
        spaces_set_to s c n (Lessons online) (Lessons berlin_halved)) /\
    every_spaces non_negative (Lessons berlin_halved) = true /\
    every_spaces non_negative_integer (Lessons berlin_halved) = isInteger n.
Proof.
  apply (put_lessons_keeps_spaces_non_negative resolves online berlin_halved
           (spaces_request "Math" "Berlin" (JNum 2.5%float))
           (res_json (SpacesUpdated (Some (JStr "Math")) (Some (JStr "Berlin"))
                        2.5%float)));
    reflexivity.
Defined.

(** ** The presence check *)

Lemma not_iff_absent_or_falsy (v : value) :
  Js.not v = true <-> absent_or_falsy v.
Proof.
  unfold absent_or_falsy. split.
  - destruct v as [[|[|]|x|s| |]|]; simpl; try discriminate; auto.
    + intros H. apply negb_true_iff, negb_false_iff in H.
      right; right; right; right. now exists x.
    + destruct (String.eqb_spec s ""); [subst; auto 6|discriminate].
  - intros [->|[->|[->|[->|(x & -> & H)]]]]; simpl; auto.
    now rewrite H.
Qed.

Lemma missing_fields_iff (req : Req.Spaces) :
  missing_fields req = true <->
  absent_or_falsy (Req.subject req) \/ absent_or_falsy (Req.city req)
  \/ Req.spaces req = None.
Proof.
  unfold missing_fields. rewrite !orb_true_iff, !not_iff_absent_or_falsy.
  assert (Js.is_undefined (Req.spaces req) = true <-> Req.spaces req = None)
    as -> by (destruct (Req.spaces req); simpl; split; congruence).
  tauto.
Qed.

(** C7, as the claim states it, fails: on a connected store a request
    with all three fields present, the subject being the empty text, is
    answered with the missing-fields message; and with the store not yet
    connected a request without a city is answered 500, not that 400. *)
Lemma put_lessons_required_not_absent :
  Req.subject (spaces_request "" "Berlin" (JNum 3%float)) <> None /\
  Req.city (spaces_request "" "Berlin" (JNum 3%float)) <> None /\
  Req.spaces (spaces_request "" "Berlin" (JNum 3%float)) <> None /\
  put_lessons resolves online (spaces_request "" "Berlin" (JNum 3%float))
  = (status_json 400 (Message "subject, city, and spaces are required"),
     online) /\
  Req.city cityless = None /\
  put_lessons resolves offline cityless
  = (status_json 500 (Message "Failed to update spaces"), offline).
Proof.
  split; [discriminate|split; [discriminate|split; [discriminate|]]].
  repeat split; reflexivity.
Qed.

(** C7, amended.  On a connected store the handler answers 400
    "subject, city, and spaces are required" exactly when the subject is
    absent or falsy ([null], [false], a zero, [NaN] or the empty text),
    or the city is, or the spaces field is absent; a spaces field that is
    present passes the check whatever its value.  With the store not yet
    connected the answer is 500 whatever the body.  Neither depends on
    what the driver would answer: the check comes before the call. *)
Theorem put_lessons_missing_fields_exactly
  (db : Driver.Answer Driver.Match) (srv : Server) (req : Req.Spaces) :
  (connected srv = true ->
   (put_lessons db srv req
    = (status_json 400 (Message "subject, city, and spaces are required"),
       srv)
    <->
    absent_or_falsy (Req.subject req) \/ absent_or_falsy (Req.city req)
    \/ Req.spaces req = None)) /\
  (connected srv = false ->
   put_lessons db srv req
   = (status_json 500 (Message "Failed to update spaces"), srv)).
Proof.
  split; [|apply put_lessons_not_connected].
  intros H. rewrite <- missing_fields_iff. split.
  - intros Hrun.
    destruct (put_cases srv req) as [H'|_ M|_ M e T|_ M x T V|_ M x T V];
      [congruence|assumption| | |].
    + rewrite put_lessons_throw with (e := e) in Hrun by assumption.
      discriminate.
    + rewrite put_lessons_invalid with (newSpaces := x) in Hrun by assumption.
      discriminate.
    + rewrite put_lessons_update with (newSpaces := x) in Hrun by assumption.
      destruct (updateSpaces db srv (Req.subject req) (Req.city req) x)
        as [[r0 s0]|e] eqn:U; [|discriminate].
      inversion Hrun; subst.
      destruct (updateSpaces_failure _ _ _ _ _ _ _ U) as [E _];
        [discriminate|discriminate].
  - now apply put_lessons_missing.
Qed.

Lemma put_lessons_missing_fields_exactly_witness :
  (put_lessons resolves online (spaces_request "Math" "Berlin" JNull)
   = (status_json 400 (Message "subject, city, and spaces are required"),
      online)
   <->
   absent_or_falsy (Some (JStr "Math"))
   \/ absent_or_falsy (Some (JStr "Berlin"))
   \/ Some JNull = None) /\
  put_lessons lost offline cityless
  = (status_json 500 (Message "Failed to update spaces"), offline).
Proof.
  split.
  - apply (put_lessons_missing_fields_exactly resolves online
             (spaces_request "Math" "Berlin" JNull)).
    reflexivity.
  - apply (put_lessons_missing_fields_exactly lost offline cityless).
    reflexivity.
Defined.

(** ** Spaces given as [null] or as the empty text *)

(** C9, as the claim states it, fails: the subject is present and is the
    subject of a lesson that has the city, the spaces field is [null],
    and the request is rejected by the presence check, the subject being
    the empty text; and a request for Math in Berlin with [null] spaces
    is answered 500, not 200, with the store not yet connected, and on a
    connected store when the update rejects. *)
Lemma put_lessons_null_spaces_rejected :
  offered "" "Rome" (Lessons unnamed) /\
  Req.subject (spaces_request "" "Rome" JNull) = Some (JStr "") /\
  put_lessons resolves unnamed (spaces_request "" "Rome" JNull)
  = (status_json 400 (Message "subject, city, and spaces are required"),
     unnamed) /\
  offered "Math" "Berlin" (Lessons offline) /\
  put_lessons resolves offline (spaces_request "Math" "Berlin" JNull)
  = (status_json 500 (Message "Failed to update spaces"), offline) /\
  Lessons online = Lessons offline /\
  connected online = true /\
  put_lessons lost online (spaces_request "Math" "Berlin" JNull)
  = (status_json 500 (Message "Failed to update spaces"), online).
Proof.
  split; [|split; [reflexivity|split; [reflexivity|split]]];
    [| |repeat split; reflexivity].
  - exists untitled, (mkLocation "Rome" 1%float []). simpl; auto.
  - exists math, (mkLocation "Berlin" 5%float []). simpl; auto.
Qed.

(** C9, amended.  On a connected store, a request whose spaces field is
    [null] or the empty text, and whose subject and city are non-empty
    text that some lesson offers, passes validation: the spaces read as
    the number 0, and when the update resolves the entry it reaches has
    its spaces set to 0 and the answer is 200 with [spaces: 0]; when the
    update rejects the answer is 500 and the state is left as it was. *)
Theorem put_lessons_null_spaces_zero
  (found : Driver.Match) (srv : Server) (s c : string) (sp : json) :
  connected srv = true ->
  sp = JNull \/ sp = JStr "" ->
  s <> "" ->
  c <> "" ->
  offered s c (Lessons srv) ->
  Js.Number (Some sp) = Return zero /\
  spaces_rejection (spaces_request s c sp) = Return None /\
  (exists srv',
     put_lessons (Driver.Resolves found) srv (spaces_request s c sp)
     = (res_json (SpacesUpdated (Some (JStr s)) (Some (JStr c)) zero), srv') /\
     spaces_set_to s c zero (Lessons srv) (Lessons srv')) /\
  (forall e,
      put_lessons (Driver.Rejects e) srv (spaces_request s c sp)
      = (status_json 500 (Message "Failed to update spaces"), srv)).
Proof.
  intros H Hsp Hs Hc Hoff.
  assert (T : Js.Number (Some sp) = Return zero)
    by (destruct Hsp as [->| ->]; reflexivity).
  assert (V : validated (spaces_request s c sp) zero).
  { unfold validated, missing_fields; simpl.
    apply String.eqb_neq in Hs, Hc. rewrite Hs, Hc. auto. }
  split; [assumption|split; [|split]].
  - apply validated_rejection. now exists zero.
  - eexists. split.
    + rewrite put_lessons_validated with (n := zero) by assumption.
      cbn [spaces_request Req.subject Req.city].
      now rewrite updateSpaces_offered.
    + simpl. apply update_first_sets. now apply matched_iff_offered.
  - intros e. now apply put_lessons_rejected with zero.
Qed.

Lemma put_lessons_null_spaces_zero_witness :
  Js.Number (Some JNull) = Return zero /\
  spaces_rejection (spaces_request "Math" "Berlin" JNull) = Return None /\
  (exists srv',
     put_lessons resolves online (spaces_request "Math" "Berlin" JNull)
     = (res_json (SpacesUpdated (Some (JStr "Math")) (Some (JStr "Berlin"))
                    zero), srv') /\
     spaces_set_to "Math" "Berlin" zero (Lessons online) (Lessons srv')) /\
  (forall e,
      put_lessons (Driver.Rejects e) online
        (spaces_request "Math" "Berlin" JNull)
      = (status_json 500 (Message "Failed to update spaces"), online)).
Proof.
  apply (put_lessons_null_spaces_zero Driver.Nothing online "Math" "Berlin"
           JNull).
  - reflexivity.
  - left; reflexivity.
  - discriminate.
  - discriminate.
  - exists math, (mkLocation "Berlin" 5%float []).
    repeat split; simpl; auto.
Defined.

(** ** The order handler, branch by branch *)

Section PostOrder.

Variables (db : Driver.Answer unit) (srv : Server) (req : Req.Order) (now : Z).

Lemma post_order_not_connected :
  connected srv = false ->
  post_order db srv req now
  = (status_json 500 (Message "Failed to save order"), srv).
Proof.
  intros H. unfold post_order. now rewrite H.
Qed.

Hypothesis Hconnected : connected srv = true.

Lemma post_order_rejected (msg : string) :
  order_rejection req = Return (Some msg) ->
  post_order db srv req now = (status_json 400 (Message msg), srv).
Proof.
  unfold post_order, order_rejection, name_matches, phone_matches.
  rewrite Hconnected.
  destruct req as [name phone items total];
    cbn [Req.name Req.phone Req.items Req.total negb].
  repeat branch; intros Hrej; inversion Hrej; reflexivity.
Qed.

Lemma post_order_validation_throws (e : string) :
  order_rejection req = Throw e ->
  post_order db srv req now
  = (status_json 500 (Message "Failed to save order"), srv).
Proof.
  unfold post_order, order_rejection, name_matches, phone_matches.
  rewrite Hconnected.
  destruct req as [name phone items total];
    cbn [Req.name Req.phone Req.items Req.total negb].
  repeat branch; intros Hrej; inversion Hrej; reflexivity.
Qed.

Lemma post_order_accepted :
  order_rejection req = Return None ->
  post_order db srv req now
  = match order_document req now with
    | Return order =>
        match Collection.insertOne db srv order with
        | Return (doc, srv') =>
            (res_json (OrderSaved "Order saved successfully" doc), srv')
        | Throw _ => (status_json 500 (Message "Failed to save order"), srv)
        end
    | Throw _ => (status_json 500 (Message "Failed to save order"), srv)
    end.
Proof.
  unfold post_order, order_rejection, order_document, name_matches,
    phone_matches.
  rewrite Hconnected.
  destruct req as [name phone items total];
    cbn [Req.name Req.phone Req.items Req.total negb].
  destruct db as [u|e]; unfold Collection.insertOne, Collection.with_order;
    repeat branch; intros Hrej; inversion Hrej; reflexivity.
Qed.

End PostOrder.

(** A body that passed the four rules, on a connected store: the
    document is inserted when the call resolves, and the answer is 500
    when it rejects. *)
Lemma post_order_saved (srv : Server) (req : Req.Order) (now : Z)
  (order : N -> Order) :
  connected srv = true ->
  order_rejection req = Return None ->
  order_document req now = Return order ->
  post_order (Driver.Resolves tt) srv req now
  = (res_json (OrderSaved "Order saved successfully" (order (next_id srv))),
     snd (Collection.with_order srv order)).
Proof.
  intros H R D. rewrite post_order_accepted by assumption. now rewrite D.
Qed.

Lemma post_order_insert_rejects (e : string) (srv : Server)
  (req : Req.Order) (now : Z) :
  connected srv = true ->
  order_rejection req = Return None ->
  post_order (Driver.Rejects e) srv req now
  = (status_json 500 (Message "Failed to save order"), srv).
Proof.
  intros H R. rewrite post_order_accepted by assumption.
  now destruct (order_document req now).
Qed.

Lemma post_order_result (db : Driver.Answer unit) (srv : Server)
  (req : Req.Order) (now : Z) :
  post_result db srv req now (post_order db srv req now).
Proof.
  destruct (connected srv) eqn:H.
  - destruct (order_rejection req) as [[msg|]|e] eqn:R.
    + rewrite post_order_rejected with (msg := msg) by assumption.
      now constructor.
    + rewrite post_order_accepted by assumption.
      destruct (order_document req now) as [order|e] eqn:D; [|constructor].
      destruct db as [[]|e]; simpl; [|constructor].
      now apply post_200.
    + rewrite post_order_validation_throws with (e := e) by assumption.
      constructor.
  - rewrite post_order_not_connected by assumption. constructor.
Qed.

Lemma name_matches_text (req : Req.Order) (s : string) :
  Req.name req = Some (JStr s) -> name_matches req = Return (name_pattern s).
Proof.
  unfold name_matches. intros ->. simpl.
  destruct (String.eqb_spec s ""); subst; reflexivity.
Qed.

Lemma phone_matches_text (req : Req.Order) (s : string) :
  Req.phone req = Some (JStr s) -> phone_matches req = Return (phone_pattern s).
Proof.
  unfold phone_matches. intros ->. simpl.
  destruct (String.eqb_spec s ""); subst; reflexivity.
Qed.

Lemma name_mismatch_rejection (req : Req.Order) :
  name_matches req = Return false ->
  order_rejection req = Return (Some "Invalid name format").
Proof.
  unfold order_rejection. now intros ->.
Qed.

Lemma name_match_rejection (req : Req.Order) (msg : string) :
  name_matches req = Return true ->
  order_rejection req = Return (Some msg) ->
  msg <> "Invalid name format".
Proof.
  unfold order_rejection. intros ->. cbn [bind negb].
  repeat branch; intros H; inversion H; discriminate.
Qed.

(** ** Validation and the connection check *)

(** C1, as the claim states it, fails: with the store not yet connected,
    a body without a name and a request for -1 spaces, each failing a
    validation rule, are answered 500, not the 400 of the rule. *)
Lemma validation_after_connection_check :
  connected offline = false /\
  order_rejection nameless = Return (Some "Invalid name format") /\
  post_order (Driver.Resolves tt) offline nameless 0
  = (status_json 500 (Message "Failed to save order"), offline) /\
  spaces_rejection negative
  = Return (Some "spaces must be a non-negative number") /\
  put_lessons resolves offline negative
  = (status_json 500 (Message "Failed to update spaces"), offline).
Proof. repeat split; reflexivity. Qed.

(** C1, amended.  On a connected store a body that fails a validation
    rule of either handler is answered with the 400 of the first rule it
    fails, and the state is left as it was.  With the store not yet
    connected the connection check comes first: the answer is 500, and
    the state is left as it was too.  Either way the store is not
    called: the answer is the same whatever the driver would answer. *)
Theorem validation_answers_400_once_connected :
  (forall db srv req now msg,
      order_rejection req = Return (Some msg) ->
      (connected srv = true ->
       post_order db srv req now = (status_json 400 (Message msg), srv)) /\
      (connected srv = false ->
       post_order db srv req now
       = (status_json 500 (Message "Failed to save order"), srv))) /\
  (forall db srv req msg,
      spaces_rejection req = Return (Some msg) ->
      (connected srv = true ->
       put_lessons db srv req = (status_json 400 (Message msg), srv)) /\
      (connected srv = false ->
       put_lessons db srv req
       = (status_json 500 (Message "Failed to update spaces"), srv))).
Proof.
  split.
  - intros db srv req now msg Hrej. split; intros H.
    + now apply post_order_rejected.
    + now apply post_order_not_connected.
  - intros db srv req msg Hrej. split; intros H.
    + destruct (spaces_rejection_cases _ _ Hrej)
        as [[M ->]|(M & -> & x & T & V)].
      * now apply put_lessons_missing.
      * now apply put_lessons_invalid with x.
    + now apply put_lessons_not_connected.
Qed.

Lemma validation_answers_400_once_connected_witness :
  post_order (Driver.Resolves tt) online nameless 0
  = (status_json 400 (Message "Invalid name format"), online) /\
  put_lessons resolves online negative
  = (status_json 400 (Message "spaces must be a non-negative number"),
     online).
Proof.
  destruct validation_answers_400_once_connected as [Horder Hspaces].
  split.
  - apply (Horder (Driver.Resolves tt) online nameless 0
             "Invalid name format"); reflexivity.
  - apply (Hspaces resolves online negative
             "spaces must be a non-negative number");
      reflexivity.
Defined.

(** ** The name of an order *)

(** C5, as the claim states it, fails: with the store not yet connected
    a body whose name does not match the pattern is answered 500, not
    400 "Invalid name format". *)
Lemma post_order_invalid_name_before_connection :
  connected offline = false /\
  name_matches jane1 = Return false /\
  post_order (Driver.Resolves tt) offline jane1 0
  = (status_json 500 (Message "Failed to save order"), offline).
Proof. repeat split; reflexivity. Qed.

(** C5, amended.  On a connected store a body whose name does not match
    [^[A-Za-z ]+$], a body without a name among them, is answered 400
    "Invalid name format"; with the store not yet connected it is
    answered 500.  Either way the state, its orders with it, is left as
    it was.  A body whose name matches is never answered with that
    message.  None of this depends on what the driver would answer. *)
Theorem post_order_invalid_name
  (db : Driver.Answer unit) (srv : Server) (req : Req.Order) (now : Z) :
  (Req.name req = None \/ name_matches req = Return false ->
   (connected srv = true ->
    post_order db srv req now
    = (status_json 400 (Message "Invalid name format"), srv)) /\
   (connected srv = false ->
    post_order db srv req now
    = (status_json 500 (Message "Failed to save order"), srv))) /\
  (forall s, Req.name req = Some (JStr s) -> name_pattern s = false ->
   name_matches req = Return false) /\
  (name_matches req = Return true ->
   body (fst (post_order db srv req now)) <> Message "Invalid name format").
Proof.
  split; [|split].
  - intros Hname. split; intros H; [|now apply post_order_not_connected].
    apply post_order_rejected; [assumption|].
    apply name_mismatch_rejection.
    destruct Hname as [Habsent|Hm]; [|assumption].
    unfold name_matches. now rewrite Habsent.
  - intros s Hs Hp. rewrite (name_matches_text _ _ Hs). now rewrite Hp.
  - intros Hm.
    destruct (post_order_result db srv req now) as [msg Hrej| |order _ _ _];
      simpl; try discriminate.
    intros E. inversion E.
    now apply (name_match_rejection req msg Hm Hrej).
Qed.

Lemma post_order_invalid_name_witness :
  post_order (Driver.Resolves tt) online nameless 0
  = (status_json 400 (Message "Invalid name format"), online) /\
  post_order (Driver.Resolves tt) offline jane1 0
  = (status_json 500 (Message "Failed to save order"), offline) /\
  name_matches jane1 = Return false /\
  body (fst (post_order (Driver.Resolves tt) online jane 0))
  <> Message "Invalid name format".
Proof.
  split; [|split; [|split]].
  - apply (post_order_invalid_name (Driver.Resolves tt) online nameless 0).
    + left; reflexivity.
    + reflexivity.
  - apply (post_order_invalid_name (Driver.Resolves tt) offline jane1 0).
    + right; reflexivity.
    + reflexivity.
  - apply (post_order_invalid_name (Driver.Resolves tt) online jane1 0)
      with (s := "Jane1");
      reflexivity.
  - apply (post_order_invalid_name (Driver.Resolves tt) online jane 0);
      reflexivity.
Defined.

(** ** A missing name or phone *)

(** C10, as the claim states it, fails: with the store not yet connected
    a body without a name is answered 500, not 400; and on a connected
    store a body without a phone whose name does not match is answered
    with the name's message, not the phone's. *)
Lemma post_order_missing_field_other_answers :
  Req.name nameless = None /\
  post_order (Driver.Resolves tt) offline nameless 0
  = (status_json 500 (Message "Failed to save order"), offline) /\
  Req.phone jane1_phoneless = None /\
  post_order (Driver.Resolves tt) online jane1_phoneless 0
  = (status_json 400 (Message "Invalid name format"), online).
Proof. repeat split; reflexivity. Qed.

Lemma missing_as_empty (db : Driver.Answer unit) (srv : Server)
  (absent empty : Req.Order) (now : Z) :
  order_rejection empty = order_rejection absent ->
  order_rejection absent <> Return None ->
  post_order db srv absent now = post_order db srv empty now.
Proof.
  intros E Hrej.
  destruct (connected srv) eqn:H;
    [|now rewrite !post_order_not_connected].
  destruct (order_rejection absent) as [[msg|]|e] eqn:R.
  - now rewrite !post_order_rejected with (msg := msg).
  - contradiction.
  - now rewrite !post_order_validation_throws with (e := e).
Qed.

(** C10, amended.  On a connected store a body without a name is
    answered 400 "Invalid name format", and a body without a phone whose
    name passes is answered 400 "Invalid phone format"; with the store
    not yet connected both are answered 500.  The handler reads a missing
    name or phone as the empty text, so the run is the one for the empty
    text and there is no other message for a missing field; the answer
    is never a 200 and the state, its orders with it, is left as it
    was.  None of this depends on what the driver would answer. *)
Theorem post_order_missing_field
  (db : Driver.Answer unit) (srv : Server) (req : Req.Order) (now : Z) :
  (Req.name req = None -> connected srv = true ->
   post_order db srv req now
   = (status_json 400 (Message "Invalid name format"), srv)) /\
  (Req.phone req = None -> name_matches req = Return true ->
   connected srv = true ->
   post_order db srv req now
   = (status_json 400 (Message "Invalid phone format"), srv)) /\
  (connected srv = false ->
   post_order db srv req now
   = (status_json 500 (Message "Failed to save order"), srv)) /\
  (Req.name req = None \/ Req.phone req = None ->
   status (fst (post_order db srv req now)) <> 200 /\
   snd (post_order db srv req now) = srv) /\
  post_order db srv
    (Req.mkOrder None (Req.phone req) (Req.items req) (Req.total req)) now
  = post_order db srv
      (Req.mkOrder (Some (JStr "")) (Req.phone req) (Req.items req)
                   (Req.total req)) now /\
  post_order db srv
    (Req.mkOrder (Req.name req) None (Req.items req) (Req.total req)) now
  = post_order db srv
      (Req.mkOrder (Req.name req) (Some (JStr "")) (Req.items req)
                   (Req.total req)) now.
Proof.
  assert (Hname : Req.name req = None ->
                  order_rejection req = Return (Some "Invalid name format")).
  { intros Hn. unfold order_rejection, name_matches. now rewrite Hn. }
  assert (Hphone : Req.phone req = None -> name_matches req = Return true ->
                   order_rejection req = Return (Some "Invalid phone format")).
  { intros Hp Hm. unfold order_rejection, phone_matches. now rewrite Hm, Hp. }
  split; [|split; [|split; [|split; [|split]]]].
  - intros Hn H. apply post_order_rejected; auto.
  - intros Hp Hm H. apply post_order_rejected; auto.
  - apply post_order_not_connected.
  - intros Hmissing.
    destruct (post_order_result db srv req now)
      as [msg Hrej| |order _ Hrej _];
      simpl; try (split; [discriminate|reflexivity]).
    exfalso. destruct Hmissing as [Hn|Hp].
    + rewrite (Hname Hn) in Hrej. discriminate.
    + destruct (name_matches req) as [[|]|e] eqn:Hm.
      * rewrite (Hphone Hp eq_refl) in Hrej. discriminate.
      * rewrite (name_mismatch_rejection req Hm) in Hrej. discriminate.
      * unfold order_rejection in Hrej. rewrite Hm in Hrej. discriminate.
  - apply missing_as_empty; [reflexivity|discriminate].
  - apply missing_as_empty; [reflexivity|].
    unfold order_rejection, name_matches, phone_matches.
    cbn [Req.name Req.phone Req.items Req.total].
    destruct (Js.test name_pattern (Js.or_empty (Req.name req)))
      as [[|]|]; discriminate.
Qed.

Lemma post_order_missing_field_witness :
  post_order (Driver.Resolves tt) online nameless 0
  = (status_json 400 (Message "Invalid name format"), online) /\
  post_order (Driver.Resolves tt) online phoneless 0
  = (status_json 400 (Message "Invalid phone format"), online) /\
  post_order (Driver.Resolves tt) offline phoneless 0
  = (status_json 500 (Message "Failed to save order"), offline) /\
  (status (fst (post_order (Driver.Resolves tt) online phoneless 0)) <> 200 /\
   snd (post_order (Driver.Resolves tt) online phoneless 0) = online).
Proof.
  split; [|split; [|split]].
  - apply (post_order_missing_field (Driver.Resolves tt) online nameless 0);
      reflexivity.
  - apply (post_order_missing_field (Driver.Resolves tt) online phoneless 0);
      reflexivity.
  - apply (post_order_missing_field (Driver.Resolves tt) offline phoneless 0);
      reflexivity.
  - apply (post_order_missing_field (Driver.Resolves tt) online phoneless 0).
    right; reflexivity.
Defined.

(** ** Trimming what passed a pattern *)

Lemma ascii_not_space_kept (back : bool) (c : ascii) (r : list ascii) :
  (code c < 128)%N ->
  ws1 c = false ->
  drop_space back (c :: r) = c :: r.
Proof.
  intros Hlow Hws.
  assert (E : forall k, (128 <= k)%N -> (code c =? k)%N = false)
    by (intros k Hk; apply N.eqb_neq; lia).
  assert (L : (128 <=? code c)%N = false) by (apply N.leb_gt; lia).
  simpl. rewrite Hws.
  destruct r as [|c2 r2]; [reflexivity|].
  assert (W2 : (if back then ws2 c2 c else ws2 c c2) = false).
  { unfold ws2. destruct back; rewrite E by lia;
      now rewrite ?andb_false_r, ?andb_false_l. }
  rewrite W2. destruct r2 as [|c3 r3]; [reflexivity|].
  assert (W3 : (if back then ws3 c3 c2 c else ws3 c c2 c3) = false).
  { unfold ws3. destruct back.
    - rewrite !E by lia. rewrite L.
      now rewrite ?andb_false_r, ?andb_false_l, ?orb_false_r.
    - rewrite !E by lia. now rewrite ?andb_false_l. }
  now rewrite W3.
Qed.

Lemma digit_low (c : ascii) :
  is_digit c = true -> (code c < 128)%N /\ ws1 c = false.
Proof.
  unfold is_digit, ws1. intros H.
  apply andb_true_iff in H as [H1 H2].
  apply N.leb_le in H1, H2. split; [lia|].
  apply orb_false_iff. split.
  - apply andb_false_iff. right. apply N.leb_gt. lia.
  - apply N.eqb_neq. lia.
Qed.

Lemma letter_low (c : ascii) :
  letter_or_space c = true ->
  (code c =? 32)%N = false ->
  (code c < 128)%N /\ ws1 c = false.
Proof.
  unfold letter_or_space, is_letter, ws1. intros H Hs.
  rewrite Hs, orb_false_r in H. rewrite Hs, orb_false_r.
  apply N.eqb_neq in Hs.
  apply orb_true_iff in H as [H|H];
    apply andb_true_iff in H as [H1 H2]; apply N.leb_le in H1, H2;
    (split; [lia|]); apply andb_false_iff; right; apply N.leb_gt; lia.
Qed.

Lemma string_of_list_ascii_app (a b : list ascii) :
  string_of_list_ascii (a ++ b)
  = (string_of_list_ascii a ++ string_of_list_ascii b)%string.
Proof.
  induction a as [|c a IH]; simpl; [reflexivity|]. now rewrite IH.
Qed.

(** Digits are not white space: trimming a text of digits changes
    nothing. *)
Lemma trim_digits (p : string) : phone_pattern p = true -> trim p = p.
Proof.
  unfold phone_pattern, test_class_plus, trim.
  destruct (list_ascii_of_string p) as [|c r] eqn:E; [discriminate|].
  intros H. pose proof H as Hall. simpl in H.
  apply andb_true_iff in H as [Hc Hr].
  destruct (digit_low c Hc) as [Hlow Hws].
  rewrite (ascii_not_space_kept false c r Hlow Hws).
  assert (Hrev : forallb is_digit (rev (c :: r)) = true).
  { apply forallb_forall. intros x Hx. apply in_rev in Hx.
    now apply (proj1 (forallb_forall _ _) Hall). }
  destruct (rev (c :: r)) as [|d t] eqn:R.
  - apply (f_equal (@rev ascii)) in R. rewrite rev_involutive in R.
    discriminate.
  - simpl in Hrev. apply andb_true_iff in Hrev as [Hd _].
    destruct (digit_low d Hd) as [Hlow' Hws'].
    rewrite (ascii_not_space_kept true d t Hlow' Hws').
    rewrite <- R, rev_involutive, <- E.
    apply string_of_list_ascii_of_string.
Qed.

(** On letters and spaces, dropping white space drops the spaces at
    the front. *)
Lemma drop_space_strip (back : bool) (l : list ascii) :
  forallb letter_or_space l = true -> drop_space back l = strip l.
Proof.
  induction l as [|c r IH]; [reflexivity|].
  intros H. pose proof H as Hall. simpl in H.
  apply andb_true_iff in H as [Hc Hr].
  destruct ((code c =? 32)%N) eqn:Hs.
  - assert (Hws : ws1 c = true) by (unfold ws1; now rewrite Hs, orb_true_r).
    cbn [strip]. rewrite Hs. rewrite <- (IH Hr).
    simpl. now rewrite Hws.
  - destruct (letter_low c Hc Hs) as [Hlow Hws].
    rewrite (ascii_not_space_kept back c r Hlow Hws).
    cbn [strip]. now rewrite Hs.
Qed.

Lemma strip_split (l : list ascii) :
  exists k,
    l = list_ascii_of_string (blanks k) ++ strip l /\
    forall r, strip l <> " "%char :: r.
Proof.
  induction l as [|c r IH].
  - exists O. split; [reflexivity|]. intros r. discriminate.
  - cbn [strip]. destruct ((code c =? 32)%N) eqn:Hs.
    + destruct IH as (k & Hk & Hno). exists (S k). split; [|assumption].
      apply N.eqb_eq in Hs.
      assert (c = " "%char).
      { rewrite <- (ascii_N_embedding c). unfold code in Hs. now rewrite Hs. }
      subst c. simpl. now rewrite <- Hk.
    + exists O. split; [reflexivity|].
      intros r' E. inversion E; subst. discriminate.
Qed.

Lemma strip_forallb (P : ascii -> bool) (l : list ascii) :
  forallb P l = true -> forallb P (strip l) = true.
Proof.
  induction l as [|c r IH]; [reflexivity|].
  intros H. cbn [strip]. destruct ((code c =? 32)%N); [|assumption].
  simpl in H. apply andb_true_iff in H as [_ Hr]. now apply IH.
Qed.

Lemma rev_blanks (k : nat) :
  rev (list_ascii_of_string (blanks k)) = list_ascii_of_string (blanks k).
Proof.
  induction k as [|k IH]; [reflexivity|].
  simpl. rewrite IH. clear IH.
  induction k as [|k IH]; [reflexivity|]. simpl. now rewrite IH.
Qed.

(** A name of letters and spaces is its trimmed form between two runs
    of spaces, and the trimmed form has no space at either end. *)
Lemma trim_name (n : string) :
  name_pattern n = true ->
  exists a b,
    n = (blanks a ++ trim n ++ blanks b)%string /\ no_outer_space (trim n).
Proof.
  unfold name_pattern, test_class_plus, trim.
  destruct (list_ascii_of_string n) as [|c r] eqn:E; [discriminate|].
  intros Hall. rewrite <- E in *. clear c r E.
  set (l := list_ascii_of_string n) in *.
  rewrite (drop_space_strip false l Hall).
  assert (Hmid : forallb letter_or_space (rev (strip l)) = true).
  { apply forallb_forall. intros x Hx. apply in_rev in Hx.
    now apply (proj1 (forallb_forall _ _) (strip_forallb _ _ Hall)). }
  rewrite (drop_space_strip true _ Hmid).
  destruct (strip_split l) as (a & Ha & Hfront).
  destruct (strip_split (rev (strip l))) as (b & Hb & Hback).
  set (t := rev (strip (rev (strip l)))) in *.
  assert (Hs : strip l = t ++ list_ascii_of_string (blanks b)).
  { apply (f_equal (@rev ascii)) in Hb.
    rewrite rev_involutive, rev_app_distr, rev_blanks in Hb. exact Hb. }
  exists a, b. split; [|split].
  - rewrite <- (string_of_list_ascii_of_string n). fold l.
    rewrite Ha at 1. rewrite Hs.
    rewrite !string_of_list_ascii_app, !string_of_list_ascii_of_string.
    reflexivity.
  - intros r E. apply (f_equal list_ascii_of_string) in E.
    rewrite list_ascii_of_string_of_list_ascii in E. simpl in E.
    apply (Hfront (list_ascii_of_string r ++ list_ascii_of_string (blanks b))).
    rewrite Hs, E. reflexivity.
  - intros r E. apply (f_equal list_ascii_of_string) in E.
    rewrite list_ascii_of_string_of_list_ascii in E.
    apply (Hback (rev (list_ascii_of_string r))).
    unfold t in E. apply (f_equal (@rev ascii)) in E.
    rewrite rev_involutive in E. rewrite E.
    rewrite <- (string_of_list_ascii_of_string r) at 1.
    rewrite <- (string_of_list_ascii_of_string " ").
    rewrite <- string_of_list_ascii_app, list_ascii_of_string_of_list_ascii.
    rewrite rev_app_distr. reflexivity.
Qed.

(** ** More on the order handler *)

Lemma valid_order_passes (req : Req.Order) (n p : string) (l : list json)
  (x : number) (now : Z) :
  valid_order req n p l x ->
  order_rejection req = Return None /\
  order_document req now
  = Return (fun id => mkOrder id (trim n) (trim p) l x now).
Proof.
  intros (En & Hn & Ep & Hp & Ei & Hl & T & F). split.
  - unfold order_rejection.
    rewrite (name_matches_text req n En), Hn.
    rewrite (phone_matches_text req p Ep), Hp.
    cbn [bind negb]. rewrite Ei. destruct l; [contradiction|].
    cbn [Js.isArray Js.length_is_zero negb orb]. rewrite T. cbn [bind].
    now rewrite F.
  - unfold order_document. rewrite En, Ep, Ei, T. reflexivity.
Qed.

Lemma valid_order_saved (srv : Server) (req : Req.Order) (n p : string)
  (l : list json) (x : number) (now : Z) :
  connected srv = true ->
  valid_order req n p l x ->
  post_order (Driver.Resolves tt) srv req now
  = (res_json (OrderSaved "Order saved successfully"
                 (mkOrder (next_id srv) (trim n) (trim p) l x now)),
     mkServer true (Lessons srv)
       (Orders srv ++ [mkOrder (next_id srv) (trim n) (trim p) l x now])
       (N.succ (next_id srv))).
Proof.
  intros H V. destruct (valid_order_passes req n p l x now V) as [R D].
  rewrite (post_order_saved srv req now _ H R D).
  unfold Collection.with_order; simpl. now rewrite H.
Qed.

Lemma valid_order_not_saved (e : string) (srv : Server) (req : Req.Order)
  (n p : string) (l : list json) (x : number) (now : Z) :
  connected srv = true ->
  valid_order req n p l x ->
  post_order (Driver.Rejects e) srv req now
  = (status_json 500 (Message "Failed to save order"), srv).
Proof.
  intros H V. destruct (valid_order_passes req n p l x now V) as [R _].
  now apply post_order_insert_rejects.
Qed.

Lemma call_trim_text (v : value) (t : string) :
  Js.call_trim v = Return t -> exists s, v = Some (JStr s).
Proof.
  destruct v as [[| | |s| |]|]; try discriminate. intros _. now exists s.
Qed.

(** What passing the four rules and building the document tell about
    the body. *)
Lemma accepted_is_valid (req : Req.Order) (now : Z) (order : N -> Order) :
  order_rejection req = Return None ->
  order_document req now = Return order ->
  exists n p l x, valid_order req n p l x.
Proof.
  intros R D. unfold order_document in D.
  destruct (Js.call_trim (Req.name req)) as [tn|] eqn:Tn; [|discriminate].
  destruct (Js.call_trim (Req.phone req)) as [tp|] eqn:Tp; [|discriminate].
  destruct (call_trim_text _ _ Tn) as [n En].
  destruct (call_trim_text _ _ Tp) as [p Ep].
  revert R. unfold order_rejection.
  rewrite (name_matches_text req n En), (phone_matches_text req p Ep).
  cbn [bind].
  destruct (name_pattern n) eqn:Hn; cbn [negb]; [|discriminate].
  destruct (phone_pattern p) eqn:Hp; cbn [negb]; [|discriminate].
  destruct (Req.items req) as [[| | | |l|]|] eqn:Ei; try discriminate.
  destruct l as [|i l]; [discriminate|].
  cbn [Js.isArray Js.length_is_zero negb orb].
  destruct (Js.Number (Req.total req)) as [x|] eqn:T; [|discriminate].
  cbn [bind]. destruct (isFinite x) eqn:F; [|discriminate].
  intros _. exists n, p, (i :: l), x.
  unfold valid_order. repeat split; auto. discriminate.
Qed.

(** ** Placing an order *)

(** C8, as the claim states it, fails.  A body whose phone is the number
    5551234 passes the four validation rules, and on a connected store
    whose insertion would resolve it is answered 500 and no document is
    inserted: [trim] is called on the number.  And a body whose name and
    phone are text, on a connected store, is answered 500 with no
    document inserted when the insertion rejects. *)
Lemma post_order_valid_not_inserted :
  connected online = true /\
  order_rejection numeric_phone = Return None /\
  post_order (Driver.Resolves tt) online numeric_phone 0
  = (status_json 500 (Message "Failed to save order"), online) /\
  order_rejection jane = Return None /\
  post_order lost online jane 0
  = (status_json 500 (Message "Failed to save order"), online).
Proof. repeat split; reflexivity. Qed.

(** C8, amended.  On a connected store, a body whose name and phone are
    text that match their patterns, whose items are a non-empty array and
    whose total reads as a finite number gets, when the insertion
    resolves, one document inserted at the end of the orders: its name
    and phone are the trimmed texts, its total the number the total read
    as, its [createdAt] the time of the request; the answer is 200 with
    that document.  The same body sent again inserts a second document,
    with another [_id].  The trimmed name is the name without the spaces
    at its two ends, and the trimmed phone is the phone as it was sent;
    a total sent as a number is stored as that number, and one sent as
    text as the number the text reads as.  When the insertion rejects
    the answer is 500 and no document is inserted. *)
Theorem post_order_inserts
  (srv : Server) (n p : string) (l : list json) (t : value) (x : number)
  (now later : Z) :
  let req := Req.mkOrder (Some (JStr n)) (Some (JStr p)) (Some (JArr l)) t in
  let doc := mkOrder (next_id srv) (trim n) (trim p) l x now in
  let doc' := mkOrder (N.succ (next_id srv)) (trim n) (trim p) l x later in
  let srv' := mkServer true (Lessons srv) (Orders srv ++ [doc])
                (N.succ (next_id srv)) in
  let srv'' := mkServer true (Lessons srv) (Orders srv ++ [doc; doc'])
                 (N.succ (N.succ (next_id srv))) in
  connected srv = true ->
  name_pattern n = true ->
  phone_pattern p = true ->
  l <> [] ->
  Js.Number t = Return x ->
  isFinite x = true ->
  post_order (Driver.Resolves tt) srv req now
  = (res_json (OrderSaved "Order saved successfully" doc), srv') /\
  post_order (Driver.Resolves tt) srv' req later
  = (res_json (OrderSaved "Order saved successfully" doc'), srv'') /\
  doc <> doc' /\
  (exists a b,
      n = (blanks a ++ trim n ++ blanks b)%string /\
      no_outer_space (trim n)) /\
  trim p = p /\
  (forall y, t = Some (JNum y) -> x = y) /\
  (forall s, t = Some (JStr s) -> x = StringToNumber s) /\
  (forall e,
      post_order (Driver.Rejects e) srv req now
      = (status_json 500 (Message "Failed to save order"), srv)).
Proof.
  intros req doc doc' srv' srv'' H Hn Hp Hl T F.
  assert (V : valid_order req n p l x) by (repeat split; auto).
  split; [|split; [|split; [|split; [|split; [|split; [|split]]]]]].
  - unfold doc, srv'. now apply valid_order_saved.
  - unfold doc', srv''.
    rewrite (valid_order_saved srv' req n p l x later eq_refl V).
    unfold srv'; simpl. now rewrite <- app_assoc.
  - unfold doc, doc'. intros E. inversion E as [[Hid Htime]].
    now apply N.neq_succ_diag_r in Hid.
  - apply trim_name. assumption.
  - apply trim_digits. assumption.
  - intros y ->. simpl in T. congruence.
  - intros s ->. simpl in T. congruence.
  - intros e. now apply (valid_order_not_saved e srv req n p l x).
Qed.

Lemma post_order_inserts_witness :
  post_order (Driver.Resolves tt) online padded 1000
  = (res_json (OrderSaved "Order saved successfully"
                 (mkOrder 0 "Jane Doe" "5551234" [JStr "book"] 9.5%float 1000)),
     mkServer true [math; music]
       [mkOrder 0 "Jane Doe" "5551234" [JStr "book"] 9.5%float 1000] 1) /\
  post_order (Driver.Resolves tt)
    (mkServer true [math; music]
       [mkOrder 0 "Jane Doe" "5551234" [JStr "book"] 9.5%float 1000] 1)
    padded 1000
  = (res_json (OrderSaved "Order saved successfully"
                 (mkOrder 1 "Jane Doe" "5551234" [JStr "book"] 9.5%float 1000)),
     mkServer true [math; music]
       [mkOrder 0 "Jane Doe" "5551234" [JStr "book"] 9.5%float 1000;
        mkOrder 1 "Jane Doe" "5551234" [JStr "book"] 9.5%float 1000] 2) /\
  mkOrder 0 "Jane Doe" "5551234" [JStr "book"] 9.5%float 1000
  <> mkOrder 1 "Jane Doe" "5551234" [JStr "book"] 9.5%float 1000 /\
  (exists a b,
      "  Jane Doe " = (blanks a ++ "Jane Doe" ++ blanks b)%string /\
      no_outer_space "Jane Doe") /\
  "5551234" = "5551234" /\
  (forall y, Some (JNum 9.5%float) = Some (JNum y) -> 9.5%float = y) /\
  (forall s, Some (JNum 9.5%float) = Some (JStr s) ->
             9.5%float = StringToNumber s) /\
  (forall e,
      post_order (Driver.Rejects e) online padded 1000
      = (status_json 500 (Message "Failed to save order"), online)).
Proof.
  apply (post_order_inserts online "  Jane Doe " "5551234" [JStr "book"]
           (Some (JNum 9.5%float)) 9.5%float 1000 1000);
    try reflexivity.
  discriminate.
Defined.

(** X1.  The order handler answers 200 exactly when the store is
    connected, the body is a valid order (name and phone are text that
    match their patterns, items is a non-empty array and the total reads
    as a finite number) and the insertion resolves.  Its answer is
    always a 200, a 400 or a 500. *)
Theorem post_order_200_iff (db : Driver.Answer unit) (srv : Server)
  (req : Req.Order) (now : Z) :
  (status (fst (post_order db srv req now)) = 200 <->
   connected srv = true /\
   (exists n p l x, valid_order req n p l x) /\
   db = Driver.Resolves tt) /\
  (status (fst (post_order db srv req now)) = 200
   \/ status (fst (post_order db srv req now)) = 400
   \/ status (fst (post_order db srv req now)) = 500).
Proof.
  split.
  - split.
    + intros Hstatus. destruct (connected srv) eqn:H.
      * split; [reflexivity|].
        destruct (post_order_result db srv req now) as [msg _| |order Hdb R D];
          try discriminate.
        split; [|assumption]. now apply (accepted_is_valid req now order).
      * rewrite post_order_not_connected in Hstatus by assumption.
        discriminate.
    + intros (H & (n & p & l & x & V) & ->).
      now rewrite (valid_order_saved srv req n p l x now H V).
  - destruct (post_order_result db srv req now) as [msg _| |order _ _ _];
      simpl; auto.
Qed.

Lemma post_order_200_iff_witness :
  status (fst (post_order (Driver.Resolves tt) online jane 0)) = 200.
Proof.
  apply (post_order_200_iff (Driver.Resolves tt) online jane 0).
  split; [reflexivity|split; [|reflexivity]].
  exists "Jane Doe", "5551234", [JStr "book"], 9.5%float.
  unfold valid_order. repeat split; try reflexivity. discriminate.
Defined.

(** X2.  On a connected store a body that passes the four rules with a
    name or a phone that is not text (a number made of digits, say, whose
    string form the pattern accepts) is answered 500 "Failed to save
    order" and nothing is stored: the patterns test the string form, and
    [trim] is then called on the value itself.  The insertion is not
    reached, whatever the driver would answer. *)
Theorem post_order_not_text (db : Driver.Answer unit) (srv : Server)
  (req : Req.Order) (now : Z) :
  connected srv = true ->
  order_rejection req = Return None ->
  (forall n, Req.name req <> Some (JStr n))
  \/ (forall p, Req.phone req <> Some (JStr p)) ->
  post_order db srv req now
  = (status_json 500 (Message "Failed to save order"), srv).
Proof.
  intros H R Hnot. rewrite post_order_accepted by assumption.
  destruct (order_document req now) as [order|e] eqn:D; [|reflexivity].
  exfalso.
  destruct (accepted_is_valid req now order R D)
    as (n & p & l & x & En & _ & Ep & _).
  destruct Hnot as [Hn|Hp]; [now apply (Hn n)|now apply (Hp p)].
Qed.

Lemma post_order_not_text_witness :
  post_order (Driver.Resolves tt) online numeric_phone 0
  = (status_json 500 (Message "Failed to save order"), online).
Proof.
  apply (post_order_not_text (Driver.Resolves tt) online numeric_phone 0).
  - reflexivity.
  - reflexivity.
  - right. intros p. discriminate.
Defined.

(** X3.  The second and third rules on a connected store: with a name
    that passes, a phone that is missing or a text that does not match
    [^[0-9]+$] is answered 400 "Invalid phone format"; with a name and a
    phone that pass, items that are missing, not an array or an empty
    array are answered 400 "Order must contain items".  The state is left
    as it was, whatever the driver would answer. *)
Theorem post_order_phone_and_items
  (db : Driver.Answer unit) (srv : Server) (req : Req.Order) (now : Z) :
  connected srv = true ->
  name_matches req = Return true ->
  (Req.phone req = None
   \/ (exists p, Req.phone req = Some (JStr p) /\ phone_pattern p = false) ->
   post_order db srv req now
   = (status_json 400 (Message "Invalid phone format"), srv)) /\
  (phone_matches req = Return true ->
   (forall i l, Req.items req <> Some (JArr (i :: l))) ->
   post_order db srv req now
   = (status_json 400 (Message "Order must contain items"), srv)).
Proof.
  intros H Hn. split.
  - intros Hp. apply post_order_rejected; [assumption|].
    unfold order_rejection. rewrite Hn. cbn [bind negb].
    assert (phone_matches req = Return false) as ->; [|reflexivity].
    destruct Hp as [Hp|(p & Ep & Hp)].
    + unfold phone_matches. now rewrite Hp.
    + now rewrite (phone_matches_text req p Ep), Hp.
  - intros Hp Hitems. apply post_order_rejected; [assumption|].
    unfold order_rejection. rewrite Hn, Hp. cbn [bind negb].
    destruct (Req.items req) as [[| | | |[|i l]|]|] eqn:Ei;
      try reflexivity.
    now contradiction (Hitems i l).
Qed.

Lemma post_order_phone_and_items_witness :
  post_order (Driver.Resolves tt) online phoneless 0
  = (status_json 400 (Message "Invalid phone format"), online) /\
  post_order (Driver.Resolves tt) online
    (Req.mkOrder (Some (JStr "Jane Doe")) (Some (JStr "5551234"))
                 (Some (JArr [])) (Some (JNum 9.5%float))) 0
  = (status_json 400 (Message "Order must contain items"), online).
Proof.
  split.
  - apply (post_order_phone_and_items (Driver.Resolves tt) online phoneless 0);
      [reflexivity|reflexivity|left; reflexivity].
  - apply (post_order_phone_and_items (Driver.Resolves tt) online
             (Req.mkOrder (Some (JStr "Jane Doe")) (Some (JStr "5551234"))
                          (Some (JArr [])) (Some (JNum 9.5%float))) 0);
      [reflexivity|reflexivity|reflexivity|].
    intros i l. discriminate.
Defined.

(** X4.  The total, for a body that is valid otherwise, on a connected
    store: a total that is missing, or that reads as [NaN] or as an
    infinity, is answered 400 "Invalid total" and nothing is stored,
    whatever the driver would answer; a total that is [null] or the
    empty text reads as 0 and, the insertion resolving, the order is
    saved with total 0. *)
Theorem post_order_total
  (db : Driver.Answer unit) (srv : Server) (n p : string) (l : list json)
  (t : value) (now : Z) :
  let req := Req.mkOrder (Some (JStr n)) (Some (JStr p)) (Some (JArr l)) t in
  connected srv = true ->
  name_pattern n = true ->
  phone_pattern p = true ->
  l <> [] ->
  (t = None \/ (exists x, Js.Number t = Return x /\ isFinite x = false) ->
   post_order db srv req now
   = (status_json 400 (Message "Invalid total"), srv)) /\
  (t = Some JNull \/ t = Some (JStr "") ->
   post_order (Driver.Resolves tt) srv req now
   = (res_json (OrderSaved "Order saved successfully"
                  (mkOrder (next_id srv) (trim n) (trim p) l zero now)),
      mkServer true (Lessons srv)
        (Orders srv ++ [mkOrder (next_id srv) (trim n) (trim p) l zero now])
        (N.succ (next_id srv)))).
Proof.
  intros req H Hn Hp Hl. split.
  - intros Ht.
    assert (exists x, Js.Number t = Return x /\ isFinite x = false)
      as (x & T & F).
    { destruct Ht as [->|Ht]; [|assumption]. now exists nan. }
    apply post_order_rejected; [assumption|].
    unfold order_rejection.
    rewrite (name_matches_text req n eq_refl), Hn.
    rewrite (phone_matches_text req p eq_refl), Hp.
    unfold req; cbn [bind negb Req.items Req.total].
    destruct l; [contradiction|].
    cbn [Js.isArray Js.length_is_zero negb orb]. rewrite T. cbn [bind].
    now rewrite F.
  - intros Ht. apply valid_order_saved; [assumption|].
    unfold valid_order, req; simpl. repeat split; auto.
    destruct Ht as [->| ->]; reflexivity.
Qed.

Lemma post_order_total_witness :
  post_order lost online (order_with_total undefined) 7
  = (status_json 400 (Message "Invalid total"), online) /\
  post_order (Driver.Resolves tt) online
    (order_with_total (Some (JStr "1e999"))) 7
  = (status_json 400 (Message "Invalid total"), online) /\
  post_order (Driver.Resolves tt) online (order_with_total (Some JNull)) 7
  = (res_json (OrderSaved "Order saved successfully"
                 (mkOrder 0 "Jane Doe" "5551234" [JStr "book"] zero 7)),
     mkServer true [math; music]
       [mkOrder 0 "Jane Doe" "5551234" [JStr "book"] zero 7] 1).
Proof.
  split; [|split].
  - apply (post_order_total lost online "Jane Doe" "5551234" [JStr "book"]
             undefined 7); try reflexivity; [discriminate|left; reflexivity].
  - apply (post_order_total (Driver.Resolves tt) online "Jane Doe" "5551234"
             [JStr "book"] (Some (JStr "1e999")) 7);
      try reflexivity; [discriminate|].
    right. exists infinity. split; reflexivity.
  - apply (post_order_total (Driver.Resolves tt) online "Jane Doe" "5551234"
             [JStr "book"] (Some JNull) 7);
      try reflexivity; [discriminate|left; reflexivity].
Defined.

(** X5.  What is stored of the name and the phone of a valid order, the
    insertion resolving: the phone is the text that was sent, unchanged,
    since digits are not white space; the name is the text that was sent
    without the spaces around it, and has no space at either end. *)
Theorem post_order_stored_texts
  (srv : Server) (req : Req.Order) (n p : string) (l : list json)
  (x : number) (now : Z) :
  connected srv = true ->
  valid_order req n p l x ->
  exists stored a b,
    post_order (Driver.Resolves tt) srv req now
    = (res_json (OrderSaved "Order saved successfully"
                   (mkOrder (next_id srv) stored p l x now)),
       mkServer true (Lessons srv)
         (Orders srv ++ [mkOrder (next_id srv) stored p l x now])
         (N.succ (next_id srv))) /\
    n = (blanks a ++ stored ++ blanks b)%string /\
    no_outer_space stored.
Proof.
  intros H V. pose proof V as (_ & Hn & _ & Hp & _).
  destruct (trim_name n Hn) as (a & b & Hsplit & Hends).
  exists (trim n), a, b. split; [|split; assumption].
  rewrite (valid_order_saved srv req n p l x now H V).
  now rewrite (trim_digits p Hp).
Qed.

Lemma post_order_stored_texts_witness :
  exists stored a b,
    post_order (Driver.Resolves tt) online padded 7
    = (res_json (OrderSaved "Order saved successfully"
                   (mkOrder 0 stored "5551234" [JStr "book"] 9.5%float 7)),
       mkServer true [math; music]
         [mkOrder 0 stored "5551234" [JStr "book"] 9.5%float 7] 1) /\
    "  Jane Doe " = (blanks a ++ stored ++ blanks b)%string /\
    no_outer_space stored.
Proof.
  apply (post_order_stored_texts online padded "  Jane Doe " "5551234"
           [JStr "book"] 9.5%float 7).
  - reflexivity.
  - unfold valid_order. repeat split; try reflexivity. discriminate.
Defined.

Lemma post_order_effect (db : Driver.Answer unit) (srv srv' : Server)
  (req : Req.Order) (now : Z) (r : Response) :
  post_order db srv req now = (r, srv') ->
  Lessons srv' = Lessons srv /\
  connected srv' = connected srv /\
  ((status r <> 200 /\ srv' = srv) \/
   (status r = 200 /\
    exists doc,
      Orders srv' = Orders srv ++ [doc] /\
      _id doc = next_id srv /\
      next_id srv' = N.succ (next_id srv))).
Proof.
  destruct (post_order_result db srv req now) as [msg _| |order _ _ D];
    intros E; inversion E; subst; simpl.
  - repeat split. left. split; [discriminate|reflexivity].
  - repeat split. left. split; [discriminate|reflexivity].
  - repeat split. right. split; [reflexivity|].
    exists (order (next_id srv)). repeat split.
    unfold order_document in D.
    destruct (Js.call_trim (Req.name req)); [|discriminate].
    destruct (Js.call_trim (Req.phone req)); [|discriminate].
    destruct (Js.Number (Req.total req)); [|discriminate].
    cbn [bind] in D. inversion D. reflexivity.
Qed.

(** X6.  Whatever the body, the state and the answer of the driver, the
    order handler leaves the lessons and the connection as they are, and
    the orders either as they are or with one document more at the end,
    whose [_id] is the one the driver had next; it never removes or
    rewrites a stored order. *)
Theorem post_order_frame (db : Driver.Answer unit) (srv : Server)
  (req : Req.Order) (now : Z) :
  let '(r, srv') := post_order db srv req now in
  Lessons srv' = Lessons srv /\
  connected srv' = connected srv /\
  ((status r <> 200 /\ srv' = srv) \/
   (status r = 200 /\
    exists doc,
      Orders srv' = Orders srv ++ [doc] /\
      _id doc = next_id srv /\
      next_id srv' = N.succ (next_id srv))).
Proof.
  destruct (post_order db srv req now) as [r srv'] eqn:E.
  now apply (post_order_effect db srv srv' req now r).
Qed.

(** ** How updates of the spaces compose *)

Section TwoUpdates.

Import Collection.

Lemma existsb_set_spaces_any (c c' : string) (n : number)
  (locs : list Location) :
  existsb (has_city c) (set_spaces c' n locs) = existsb (has_city c) locs.
Proof.
  induction locs as [|loc rest IH]; simpl; [reflexivity|].
  destruct (has_city c' loc); simpl; [reflexivity|]. now rewrite IH.
Qed.

Lemma selected_with_spaces_any (s c c' : string) (n : number) (l : Lesson) :
  selected s c (with_spaces c' n l) = selected s c l.
Proof.
  unfold selected, with_spaces; simpl. now rewrite existsb_set_spaces_any.
Qed.

Lemma set_spaces_overwrite (c : string) (n1 n2 : number)
  (locs : list Location) :
  set_spaces c n2 (set_spaces c n1 locs) = set_spaces c n2 locs.
Proof.
  induction locs as [|loc rest IH]; simpl; [reflexivity|].
  destruct (has_city c loc) eqn:E; simpl.
  - unfold has_city in *. simpl. now rewrite E.
  - now rewrite E, IH.
Qed.

(** The later of two updates of the same entry is the one that stays. *)
Lemma update_first_overwrite (s c : string) (n1 n2 : number)
  (docs : list Lesson) :
  update_first s c n2 (snd (update_first s c n1 docs))
  = update_first s c n2 docs.
Proof.
  induction docs as [|l rest IH]; simpl; [reflexivity|].
  destruct (selected s c l) eqn:E; simpl.
  - rewrite selected_with_spaces_any, E.
    unfold with_spaces; simpl. now rewrite set_spaces_overwrite.
  - destruct (update_first s c n1 rest) as [k rest'] eqn:U; simpl in *.
    now rewrite E, IH.
Qed.

Lemma set_spaces_swap (c1 c2 : string) (n1 n2 : number)
  (locs : list Location) :
  c1 <> c2 ->
  set_spaces c2 n2 (set_spaces c1 n1 locs)
  = set_spaces c1 n1 (set_spaces c2 n2 locs).
Proof.
  intros Hne. induction locs as [|loc rest IH]; simpl; [reflexivity|].
  destruct (has_city c1 loc) eqn:E1; destruct (has_city c2 loc) eqn:E2;
    simpl.
  - unfold has_city in E1, E2. apply String.eqb_eq in E1, E2. congruence.
  - unfold has_city in *. simpl. now rewrite E1, E2.
  - unfold has_city in *. simpl. now rewrite E1, E2.
  - now rewrite E1, E2, IH.
Qed.

(** Updates of two different entries can be made in either order: the
    second finds what it would have found first, and the documents end
    up the same. *)
Lemma update_first_swap (s1 c1 s2 c2 : string) (n1 n2 : number)
  (docs : list Lesson) :
  (s1, c1) <> (s2, c2) ->
  update_first s2 c2 n2 (snd (update_first s1 c1 n1 docs))
  = (fst (update_first s2 c2 n2 docs),
     snd (update_first s1 c1 n1 (snd (update_first s2 c2 n2 docs)))).
Proof.
  intros Hne. induction docs as [|l rest IH]; simpl; [reflexivity|].
  destruct (selected s1 c1 l) eqn:E1; destruct (selected s2 c2 l) eqn:E2;
    simpl.
  - rewrite !selected_with_spaces_any, E1, E2. simpl.
    assert (c1 <> c2).
    { apply selected_iff in E1 as [H1 _]. apply selected_iff in E2 as [H2 _].
      intros ->. apply Hne. congruence. }
    unfold with_spaces; simpl. now rewrite set_spaces_swap.
  - rewrite selected_with_spaces_any, E2.
    destruct (update_first s2 c2 n2 rest) as [k rest']; simpl.
    now rewrite E1.
  - destruct (update_first s1 c1 n1 rest) as [k rest'] eqn:U1; simpl.
    rewrite E2. simpl. now rewrite selected_with_spaces_any, E1.
  - destruct (update_first s1 c1 n1 rest) as [k1 rest1] eqn:U1; simpl in *.
    rewrite E2, IH.
    destruct (update_first s2 c2 n2 rest) as [k2 rest2] eqn:U2; simpl.
    rewrite E1.
    now destruct (update_first s1 c1 n1 rest2).
Qed.

End TwoUpdates.

(** X7.  The update is a blind overwrite and the last write wins: on a
    connected store, two validated requests for the same subject and
    city, which some lesson offers, sent one after the other, their
    updates resolving, leave the state that the second alone would have
    left, and both are answered 200. *)
Theorem put_lessons_last_write_wins
  (found1 found2 : Driver.Match) (srv : Server) (s c : string)
  (sp1 sp2 : value) (n1 n2 : number) :
  let req1 := Req.mkSpaces (Some (JStr s)) (Some (JStr c)) sp1 in
  let req2 := Req.mkSpaces (Some (JStr s)) (Some (JStr c)) sp2 in
  let ok n := res_json (SpacesUpdated (Some (JStr s)) (Some (JStr c)) n) in
  connected srv = true ->
  validated req1 n1 ->
  validated req2 n2 ->
  offered s c (Lessons srv) ->
  exists mid final,
    put_lessons (Driver.Resolves found1) srv req1 = (ok n1, mid) /\
    put_lessons (Driver.Resolves found2) mid req2 = (ok n2, final) /\
    put_lessons (Driver.Resolves found2) srv req2 = (ok n2, final).
Proof.
  intros req1 req2 ok H V1 V2 Hoff.
  exists (mkServer (connected srv)
            (snd (Collection.update_first s c n1 (Lessons srv)))
            (Orders srv) (next_id srv)),
         (mkServer (connected srv)
            (snd (Collection.update_first s c n2 (Lessons srv)))
            (Orders srv) (next_id srv)).
  pose proof (proj2 (matched_iff_offered s c n2 (Lessons srv)) Hoff) as K2.
  apply Z.eqb_neq in K2.
  split; [|split].
  - rewrite put_lessons_validated with (n := n1) by assumption.
    unfold req1; cbn [Req.subject Req.city].
    now rewrite updateSpaces_offered.
  - rewrite put_lessons_validated with (n := n2) by assumption.
    unfold req2; cbn [Req.subject Req.city].
    rewrite updateSpaces_text. simpl.
    rewrite update_first_overwrite. now rewrite K2.
  - rewrite put_lessons_validated with (n := n2) by assumption.
    unfold req2; cbn [Req.subject Req.city].
    now rewrite updateSpaces_offered.
Qed.

Lemma put_lessons_last_write_wins_witness :
  exists mid final,
    put_lessons resolves online (spaces_request "Math" "Paris" (JNum 7%float))
    = (res_json (SpacesUpdated (Some (JStr "Math")) (Some (JStr "Paris"))
                   7%float), mid) /\
    put_lessons resolves mid (spaces_request "Math" "Paris" (JNum 3%float))
    = (res_json (SpacesUpdated (Some (JStr "Math")) (Some (JStr "Paris"))
                   3%float), final) /\
    put_lessons resolves online (spaces_request "Math" "Paris" (JNum 3%float))
    = (res_json (SpacesUpdated (Some (JStr "Math")) (Some (JStr "Paris"))
                   3%float), final).
Proof.
  apply (put_lessons_last_write_wins Driver.Nothing Driver.Nothing online
           "Math" "Paris"
           (Some (JNum 7%float)) (Some (JNum 3%float)) 7%float 3%float).
  - reflexivity.
  - repeat split; reflexivity.
  - repeat split; reflexivity.
  - exists math, (mkLocation "Paris" 2%float []).
    repeat split; simpl; auto.
Defined.

(** What the handler does with a validated request for a subject and a
    city given as text. *)
Lemma put_lessons_text (db : Driver.Answer Driver.Match) (srv : Server)
  (s c : string) (sp : value) (n : number) :
  connected srv = true ->
  validated (Req.mkSpaces (Some (JStr s)) (Some (JStr c)) sp) n ->
  put_lessons db srv (Req.mkSpaces (Some (JStr s)) (Some (JStr c)) sp)
  = match db with
    | Driver.Resolves _ =>
        (if fst (Collection.update_first s c n (Lessons srv)) =? 0
         then status_json 404 (Message "Lesson or city not found")
         else res_json (SpacesUpdated (Some (JStr s)) (Some (JStr c)) n),
         mkServer (connected srv)
           (snd (Collection.update_first s c n (Lessons srv)))
           (Orders srv) (next_id srv))
    | Driver.Rejects _ =>
        (status_json 500 (Message "Failed to update spaces"), srv)
    end.
Proof.
  intros H V. rewrite put_lessons_validated with (n := n) by assumption.
  destruct db as [found|e]; [|reflexivity].
  cbn [Req.subject Req.city]. rewrite updateSpaces_text. simpl.
  now destruct (fst (Collection.update_first s c n (Lessons srv)) =? 0).
Qed.

(** X8.  Updates of different entries commute: on a connected store, two
    validated requests whose subject and city are text and differ in the
    subject or in the city get the same two answers and leave the same
    state in either order, the driver answering each of them the same
    way in both orders, whether its update resolves or rejects. *)
Theorem put_lessons_commute
  (db1 db2 : Driver.Answer Driver.Match) (srv : Server)
  (s1 c1 s2 c2 : string) (sp1 sp2 : value) (n1 n2 : number) :
  let req1 := Req.mkSpaces (Some (JStr s1)) (Some (JStr c1)) sp1 in
  let req2 := Req.mkSpaces (Some (JStr s2)) (Some (JStr c2)) sp2 in
  (s1, c1) <> (s2, c2) ->
  connected srv = true ->
  validated req1 n1 ->
  validated req2 n2 ->
  exists a1 a2 first second final,
    put_lessons db1 srv req1 = (a1, first) /\
    put_lessons db2 first req2 = (a2, final) /\
    put_lessons db2 srv req2 = (a2, second) /\
    put_lessons db1 second req1 = (a1, final).
Proof.
  intros req1 req2 Hne H V1 V2.
  assert (Hne' : (s2, c2) <> (s1, c1)) by congruence.
  pose proof (update_first_swap s1 c1 s2 c2 n1 n2 (Lessons srv) Hne) as S12.
  pose proof (update_first_swap s2 c2 s1 c1 n2 n1 (Lessons srv) Hne') as S21.
  exists (fst (put_lessons db1 srv req1)), (fst (put_lessons db2 srv req2)),
         (snd (put_lessons db1 srv req1)), (snd (put_lessons db2 srv req2)),
         (snd (put_lessons db2 (snd (put_lessons db1 srv req1)) req2)).
  unfold req1, req2.
  rewrite (put_lessons_text db1 srv s1 c1 sp1 n1 H V1).
  rewrite (put_lessons_text db2 srv s2 c2 sp2 n2 H V2).
  set (first := mkServer (connected srv)
                  (snd (Collection.update_first s1 c1 n1 (Lessons srv)))
                  (Orders srv) (next_id srv)).
  set (second := mkServer (connected srv)
                   (snd (Collection.update_first s2 c2 n2 (Lessons srv)))
                   (Orders srv) (next_id srv)).
  assert (H1 : connected first = true) by exact H.
  assert (H2 : connected second = true) by exact H.
  destruct db1 as [found1|e1]; destruct db2 as [found2|e2];
    cbn [fst snd].
  - rewrite (put_lessons_text (Driver.Resolves found2) first s2 c2 sp2 n2 H1 V2).
    rewrite (put_lessons_text (Driver.Resolves found1) second s1 c1 sp1 n1 H2
               V1).
    unfold first, second.
    cbn [fst snd Lessons connected Orders next_id].
    rewrite S12, S21. cbn [fst snd].
    repeat split.
  - rewrite (put_lessons_text (Driver.Rejects e2) first s2 c2 sp2 n2 H1 V2).
    cbn [fst snd]. repeat split.
    apply (put_lessons_text (Driver.Resolves found1) srv s1 c1 sp1 n1 H V1).
  - rewrite (put_lessons_text (Driver.Resolves found2) srv s2 c2 sp2 n2 H V2).
    cbn [fst snd]. repeat split.
    apply (put_lessons_text (Driver.Rejects e1) second s1 c1 sp1 n1 H2 V1).
  - rewrite (put_lessons_text (Driver.Rejects e2) srv s2 c2 sp2 n2 H V2).
    cbn [fst snd]. repeat split.
    apply (put_lessons_text (Driver.Rejects e1) srv s1 c1 sp1 n1 H V1).
Qed.

Lemma put_lessons_commute_witness :
  exists a1 a2 first second final,
    put_lessons resolves online (spaces_request "Math" "Paris" (JNum 7%float))
    = (a1, first) /\
    put_lessons resolves first
      (spaces_request "Music" "Berlin" (JNum 0%float))
    = (a2, final) /\
    put_lessons resolves online
      (spaces_request "Music" "Berlin" (JNum 0%float))
    = (a2, second) /\
    put_lessons resolves second
      (spaces_request "Math" "Paris" (JNum 7%float))
    = (a1, final).
Proof.
  apply (put_lessons_commute resolves resolves online "Math" "Paris" "Music"
           "Berlin"
           (Some (JNum 7%float)) (Some (JNum 0%float)) 7%float 0%float).
  - discriminate.
  - reflexivity.
  - repeat split; reflexivity.
  - repeat split; reflexivity.
Defined.

(** ** What every event keeps *)

Lemma one_spaces_set_shape (n : number) (docs docs' : list Lesson) :
  one_spaces_set n docs docs' -> shape docs' = shape docs.
Proof.
  intros (before & l & after & earlier & loc & later & -> & Hl & ->).
  unfold shape. rewrite !map_app. simpl. f_equal. f_equal.
  unfold lesson_shape; simpl. rewrite Hl, !map_app. reflexivity.
Qed.

Lemma cities_of_shape (l : Lesson) :
  map city (locations l) = map fst (map location_shape (locations l)).
Proof.
  rewrite map_map. reflexivity.
Qed.

Lemma cities_unique_shape (docs docs' : list Lesson) :
  shape docs' = shape docs -> cities_unique docs -> cities_unique docs'.
Proof.
  unfold shape, cities_unique. revert docs'.
  induction docs as [|l rest IH]; intros [|l' rest'] E H;
    try discriminate; constructor.
  - simpl in E. unfold lesson_shape in E at 1 2.
    injection E as _ _ El _. inversion H; subst.
    rewrite cities_of_shape, El, <- cities_of_shape. assumption.
  - simpl in E. injection E as _ Erest. inversion H; subst. now apply IH.
Qed.

(** The spaces handler, whatever it answers, changes nothing but spaces
    values. *)
Lemma put_lessons_effect (db : Driver.Answer Driver.Match)
  (srv srv' : Server) (req : Req.Spaces) (r : Response) :
  put_lessons db srv req = (r, srv') ->
  shape (Lessons srv') = shape (Lessons srv) /\
  Orders srv' = Orders srv /\
  next_id srv' = next_id srv /\
  connected srv' = connected srv /\
  (every_spaces non_negative (Lessons srv) = true ->
   every_spaces non_negative (Lessons srv') = true) /\
  (status r <> 200 -> srv' = srv).
Proof.
  intros Hrun.
  destruct (Z.eq_dec (status r) 200) as [E|E].
  - destruct (put_lessons_written _ _ _ _ _ Hrun E)
      as (n & (_ & _ & V) & Hone & _).
    destruct (put_lessons_success _ _ _ _ _ Hrun E)
      as (n' & found & docs' & _ & _ & _ & _ & -> & _).
    simpl in *. repeat split; auto.
    + now apply (one_spaces_set_shape n).
    + intros Hinv. rewrite (one_spaces_set_every non_negative n _ _ Hone Hinv).
      now apply checked_non_negative.
    + contradiction.
  - rewrite (put_lessons_failure_keeps_state _ _ _ _ _ Hrun E).
    repeat split; auto.
Qed.

Lemma get_lessons_effect (db : Driver.Answer unit) (srv : Server) :
  snd (get_lessons db srv) = srv /\
  fst (get_lessons db srv)
  = match connected srv, db with
    | true, Driver.Resolves _ => mkReply 200 (LessonList (Lessons srv))
    | _, _ => mkReply 500 (Json (Message "Failed to load lessons"))
    end.
Proof.
  unfold get_lessons. destruct (connected srv); destruct db; simpl;
    split; reflexivity.
Qed.

Lemma start_effect (srv : Server) (resolves : bool) :
  Lessons (start srv resolves) = Lessons srv /\
  Orders (start srv resolves) = Orders srv /\
  next_id (start srv resolves) = next_id srv /\
  connected (start srv resolves) = connected srv || resolves /\
  (resolves = false -> start srv resolves = srv).
Proof.
  unfold start, connectDB.
  destruct resolves; destruct srv as [[|] ls os id]; simpl;
    repeat split; auto; discriminate.
Qed.

(** A run is its first event, then the run of the rest. *)
Lemma run_cons (router : option (list Router.Layer)) (srv : Server)
  (e : Event) (rest : list Event) :
  run router srv (e :: rest)
  = (fst (handle router srv e)
       :: fst (run router (snd (handle router srv e)) rest),
     snd (run router (snd (handle router srv e)) rest)).
Proof.
  cbn [run]. destruct (handle router srv e) as [r srv']. cbn [fst snd].
  now destruct (run router srv' rest).
Qed.

(** A property that every event keeps holds at the end of every
    sequence of events. *)
Lemma run_invariant (router : option (list Router.Layer))
  (P : Server -> Prop) :
  (forall srv e r srv', handle router srv e = (r, srv') -> P srv -> P srv') ->
  forall events srv rs final,
    run router srv events = (rs, final) -> P srv -> P final.
Proof.
  intros Hstep. induction events as [|e rest IH]; intros srv rs final Hrun HP.
  - simpl in Hrun. inversion Hrun; subst. assumption.
  - rewrite run_cons in Hrun. inversion Hrun; subst.
    apply (IH (snd (handle router srv e)) _ _ (surjective_pairing _)).
    apply (Hstep srv e (fst (handle router srv e))); [|assumption].
    apply surjective_pairing.
Qed.

(** What any single event leaves of the state. *)
Lemma handle_effect (router : option (list Router.Layer))
  (srv srv' : Server) (e : Event) (r : option Reply) :
  handle router srv e = (r, srv') ->
  shape (Lessons srv') = shape (Lessons srv) /\
  (connected srv = true -> connected srv' = true) /\
  (every_spaces non_negative (Lessons srv) = true ->
   every_spaces non_negative (Lessons srv') = true) /\
  ((Orders srv' = Orders srv /\ next_id srv' = next_id srv) \/
   (exists req now db doc,
      e = PostOrder req now db /\
      Orders srv' = Orders srv ++ [doc] /\
      _id doc = next_id srv /\
      next_id srv' = N.succ (next_id srv))).
Proof.
  destruct e as [|now| |db|req now db|req db|resolves]; simpl; intros He.
  - inversion He; subst. repeat split; auto.
  - inversion He; subst. repeat split; auto.
  - inversion He; subst. repeat split; auto.
  - destruct (get_lessons db srv) as [r0 s0] eqn:G. inversion He; subst.
    pose proof (get_lessons_effect db srv) as [Hs _]. rewrite G in Hs.
    simpl in Hs. subst. repeat split; auto.
  - destruct (post_order db srv req now) as [r0 s0] eqn:Hp.
    inversion He; subst.
    destruct (post_order_effect _ _ _ _ _ _ Hp) as (Hl & Hc & Ho).
    rewrite Hl. repeat split; auto; try congruence.
    destruct Ho as [[_ ->]|(_ & doc & Ha & Hi & Hn)]; [now left|].
    right. now exists req, now, db, doc.
  - destruct (put_lessons db srv req) as [r0 s0] eqn:Hp.
    inversion He; subst.
    destruct (put_lessons_effect _ _ _ _ _ Hp) as (Hs & Ho & Hn & Hc & Hi & _).
    repeat split; auto; try congruence.
  - inversion He; subst.
    destruct (start_effect srv resolves) as (Hl & Ho & Hn & Hc & _).
    rewrite Hl. repeat split; auto.
    intros H. now rewrite Hc, H.
Qed.

(** ** Sequences of requests *)

(** X9.  No sequence of requests and connection attempts, whatever the
    driver answers to each call, creates, removes or reorders a lesson
    or a location, or changes a subject, a city or another field: only
    spaces values change.  So if the cities of each lesson are distinct
    at the start, they still are at the end. *)
Theorem run_keeps_lessons_shape
  (router : option (list Router.Layer)) (srv final : Server)
  (events : list Event) (rs : list (option Reply)) :
  run router srv events = (rs, final) ->
  shape (Lessons final) = shape (Lessons srv) /\
  (cities_unique (Lessons srv) -> cities_unique (Lessons final)).
Proof.
  intros Hrun.
  assert (Hs : shape (Lessons final) = shape (Lessons srv)).
  { apply (run_invariant router
             (fun s => shape (Lessons s) = shape (Lessons srv))
             ) with (events := events) (srv := srv) (rs := rs);
      [|assumption|reflexivity].
    intros s e r s' He HP.
    destruct (handle_effect router s s' e r He) as (Hshape & _).
    now rewrite Hshape. }
  split; [assumption|]. now apply cities_unique_shape.
Qed.

Lemma run_keeps_lessons_shape_witness :
  shape (Lessons berlin_halved) = shape (Lessons offline) /\
  (cities_unique (Lessons offline) -> cities_unique (Lessons berlin_halved)).
Proof.
  apply (run_keeps_lessons_shape None offline berlin_halved
           [GetLessons (Driver.Resolves tt); Connect true;
            PutLessons (spaces_request "Math" "Paris" (JNum 7%float)) lost;
            PutLessons (any_lesson (JNum 2.5%float))
              (Driver.Resolves (Driver.Entry 0 0));
            GetHealth 0]
           [Some (mkReply 500 (Json (Message "Failed to load lessons")));
            None;
            Some (mkReply 500 (Json (Message "Failed to update spaces")));
            Some (mkReply 200
                    (Json (SpacesUpdated (Some any_text) (Some any_text)
                             2.5%float)));
            Some (get_health 0)]).
  reflexivity.
Defined.

(** X10.  If every stored spaces value is a finite number that is not
    negative, it is so after any sequence of requests and connection
    attempts, whatever the driver answers to each call: no request can
    store a negative number, [NaN] or an infinity. *)
Theorem run_keeps_spaces_non_negative
  (router : option (list Router.Layer)) (srv final : Server)
  (events : list Event) (rs : list (option Reply)) :
  run router srv events = (rs, final) ->
  every_spaces non_negative (Lessons srv) = true ->
  every_spaces non_negative (Lessons final) = true.
Proof.
  apply (run_invariant router
           (fun s => every_spaces non_negative (Lessons s) = true)).
  intros s e r s' He.
  now destruct (handle_effect router s s' e r He) as (_ & _ & Hinv & _).
Qed.

Lemma run_keeps_spaces_non_negative_witness :
  every_spaces non_negative (Lessons berlin_halved) = true.
Proof.
  apply (run_keeps_spaces_non_negative None online berlin_halved
           [PutLessons negative resolves;
            PutLessons (spaces_request "Math" "Berlin" (JNum 2.5%float))
              resolves]
           [Some (mkReply 400
                    (Json (Message "spaces must be a non-negative number")));
            Some (mkReply 200
                    (Json (SpacesUpdated (Some (JStr "Math"))
                             (Some (JStr "Berlin")) 2.5%float)))]);
    reflexivity.
Defined.

Lemma order_posts_cons (e : Event) (events : list Event) :
  (order_posts events <= order_posts (e :: events))%nat.
Proof.
  unfold order_posts; simpl. destruct e; simpl; auto.
Qed.

(** X11.  Orders are only ever added: after any sequence of requests and
    connection attempts, whatever the driver answers to each call, the
    orders are the ones there were, unchanged and in their order,
    followed by those that were added, at most one for each
    POST /api/order. *)
Theorem run_appends_orders
  (router : option (list Router.Layer)) (events : list Event) :
  forall (srv final : Server) (rs : list (option Reply)),
  run router srv events = (rs, final) ->
  exists added,
    Orders final = Orders srv ++ added /\
    (List.length added <= order_posts events)%nat.
Proof.
  induction events as [|e rest IH]; intros srv final rs Hrun.
  - simpl in Hrun. inversion Hrun; subst. exists []. split.
    + now rewrite app_nil_r.
    + auto.
  - rewrite run_cons in Hrun. inversion Hrun; subst.
    destruct (IH _ _ _ (surjective_pairing
                          (run router (snd (handle router srv e)) rest)))
      as (added & Ha & Hlen).
    destruct (handle_effect router srv _ e _
                (surjective_pairing (handle router srv e)))
      as (_ & _ & _ & [[Ho _]|(req & now & db & doc & -> & Ho & _)]).
    + exists added. split; [now rewrite Ha, Ho|].
      pose proof (order_posts_cons e rest). lia.
    + exists (doc :: added). split.
      * rewrite Ha, Ho, <- app_assoc. reflexivity.
      * unfold order_posts in *; simpl. lia.
Qed.

Lemma run_appends_orders_witness :
  exists added,
    Orders (snd (post_order (Driver.Resolves tt) online jane 5))
    = Orders online ++ added /\
    (List.length added
     <= order_posts [PostOrder jane1 4 (Driver.Resolves tt);
                     PostOrder jane 3 lost;
                     PostOrder jane 5 (Driver.Resolves tt)])%nat.
Proof.
  apply (run_appends_orders None
           [PostOrder jane1 4 (Driver.Resolves tt); PostOrder jane 3 lost;
            PostOrder jane 5 (Driver.Resolves tt)]
           online (snd (post_order (Driver.Resolves tt) online jane 5))
           [Some (mkReply 400 (Json (Message "Invalid name format")));
            Some (mkReply 500 (Json (Message "Failed to save order")));
            Some (reply_of
                    (fst (post_order (Driver.Resolves tt) online jane 5)))]).
  reflexivity.
Defined.

(** X12.  While no connection has succeeded the store is out of reach:
    from a state that is not connected, whatever the sequence of
    requests and failed connection attempts, every request to [/], to
    [/health] or to [/__routes] is answered 200, every request to
    [/api/lessons] or [/api/order] is answered 500, and the state at the
    end is the state at the start. *)
Theorem run_without_connection
  (router : option (list Router.Layer)) (srv : Server) (events : list Event) :
  connected srv = false ->
  never_connects events ->
  exists rs,
    run router srv events = (rs, srv) /\
    Forall2 (fun e r =>
               match r with
               | Some reply =>
                   is_request e = true /\ status_code reply = offline_code e
               | None => is_request e = false
               end) events rs.
Proof.
  intros H. induction events as [|e rest IH]; intros Hnever.
  - exists []. split; [reflexivity|constructor].
  - inversion Hnever as [|e' rest' He Hrest]; subst.
    destruct (IH Hrest) as (rs & Hrun & Hall).
    assert (exists r,
               handle router srv e = (r, srv) /\
               match r with
               | Some reply =>
                   is_request e = true /\ status_code reply = offline_code e
               | None => is_request e = false
               end) as (r & Hh & Hr).
    { destruct e as [|now| |db|req now db|req db|[|]]; simpl.
      - eexists; split; [reflexivity|]. now split.
      - eexists; split; [reflexivity|]. now split.
      - eexists; split; [reflexivity|]. now split.
      - unfold get_lessons. rewrite H. simpl.
        eexists; split; [reflexivity|]. now split.
      - rewrite post_order_not_connected by assumption.
        eexists; split; [reflexivity|]. now split.
      - rewrite put_lessons_not_connected by assumption.
        eexists; split; [reflexivity|]. now split.
      - now contradiction He.
      - eexists; split; [reflexivity|]. reflexivity. }
    exists (r :: rs). split.
    + simpl. now rewrite Hh, Hrun.
    + now constructor.
Qed.

Lemma run_without_connection_witness :
  exists rs,
    run None offline
      [GetHealth 0; PostOrder jane 1 (Driver.Resolves tt); Connect false;
       PutLessons negative resolves; GetLessons (Driver.Resolves tt)]
    = (rs, offline) /\
    Forall2 (fun e r =>
               match r with
               | Some reply =>
                   is_request e = true /\ status_code reply = offline_code e
               | None => is_request e = false
               end)
      [GetHealth 0; PostOrder jane 1 (Driver.Resolves tt); Connect false;
       PutLessons negative resolves; GetLessons (Driver.Resolves tt)] rs.
Proof.
  apply (run_without_connection None offline
           [GetHealth 0; PostOrder jane 1 (Driver.Resolves tt); Connect false;
            PutLessons negative resolves; GetLessons (Driver.Resolves tt)]).
  - reflexivity.
  - repeat constructor; discriminate.
Defined.

Lemma run_stays_connected (router : option (list Router.Layer))
  (srv final : Server) (events : list Event) (rs : list (option Reply)) :
  run router srv events = (rs, final) ->
  connected srv = true ->
  connected final = true.
Proof.
  apply (run_invariant router (fun s => connected s = true)).
  intros s e r s' He.
  now destruct (handle_effect router s s' e r He) as (_ & Hc & _).
Qed.

(** X13.  The collection handles, once set, stay set: [connectDB] alone
    assigns them, and nothing unsets them.  After any sequence of events
    from a connected state, or one in which a connection attempt
    succeeds, whatever requests and failed attempts come with it and
    whatever the driver answers, the state is connected; a request to
    GET /api/lessons then gets past the check of line 65 and is answered
    from the database: 200 with all the lessons, in their order, when
    [find] resolves, and 500 when it rejects, the state being left as it
    is either way. *)
Theorem handles_stay_set
  (router : option (list Router.Layer)) (events : list Event) :
  forall (srv final : Server) (rs : list (option Reply)),
  run router srv events = (rs, final) ->
  connected srv = true \/ In (Connect true) events ->
  connected final = true /\
  get_lessons (Driver.Resolves tt) final
  = (mkReply 200 (LessonList (Lessons final)), final) /\
  forall e,
    get_lessons (Driver.Rejects e) final
    = (mkReply 500 (Json (Message "Failed to load lessons")), final).
Proof.
  assert (Hget : forall s, connected s = true ->
                 connected s = true /\
                 get_lessons (Driver.Resolves tt) s
                 = (mkReply 200 (LessonList (Lessons s)), s) /\
                 forall e,
                   get_lessons (Driver.Rejects e) s
                   = (mkReply 500 (Json (Message "Failed to load lessons")),
                      s)).
  { intros s Hs. split; [assumption|]. unfold get_lessons.
    rewrite Hs. split; [reflexivity|]. intros e. reflexivity. }
  induction events as [|e rest IH]; intros srv final rs Hrun Hc.
  - simpl in Hrun. inversion Hrun; subst.
    destruct Hc as [Hc|[]]. now apply Hget.
  - destruct Hc as [Hc|Hin].
    + apply Hget.
      now apply (run_stays_connected router srv final (e :: rest) rs).
    + rewrite run_cons in Hrun. inversion Hrun; subst.
      apply (IH _ _ _ (surjective_pairing
                         (run router (snd (handle router srv e)) rest))).
      destruct Hin as [->|Hin]; [left|now right].
      reflexivity.
Qed.

Lemma handles_stay_set_witness :
  connected online = true /\
  get_lessons (Driver.Resolves tt) online
  = (mkReply 200 (LessonList (Lessons online)), online) /\
  forall e,
    get_lessons (Driver.Rejects e) online
    = (mkReply 500 (Json (Message "Failed to load lessons")), online).
Proof.
  apply (handles_stay_set None
           [GetLessons (Driver.Resolves tt); Connect true; Connect false;
            GetLessons lost]
           offline online
           [Some (mkReply 500 (Json (Message "Failed to load lessons")));
            None; None;
            Some (mkReply 500 (Json (Message "Failed to load lessons")))]).
  - reflexivity.
  - right. right. left. reflexivity.
Defined.

(** X14.  GET /api/lessons shows what PUT /api/lessons wrote: after an
    update answered 200, the list that [find] then resolves with has the
    spaces of one entry set to the number the request's spaces read as,
    and is otherwise the list before.  For a subject and a city given as
    text the entry is the one the request named; otherwise the request
    holds a query document and the entry is the one the database found
    for it. *)
Theorem get_lessons_after_update
  (db : Driver.Answer Driver.Match) (srv srv' : Server) (req : Req.Spaces)
  (r : Response) :
  put_lessons db srv req = (r, srv') ->
  status r = 200 ->
  exists n lessons,
    Js.Number (Req.spaces req) = Return n /\
    get_lessons (Driver.Resolves tt) srv'
    = (mkReply 200 (LessonList lessons), srv') /\
    one_spaces_set n (Lessons srv) lessons /\
    ((exists s c,
         Req.subject req = Some (JStr s) /\
         Req.city req = Some (JStr c) /\
         spaces_set_to s c n (Lessons srv) lessons)
     \/ queries req = true).
Proof.
  intros Hrun Hstatus.
  destruct (put_lessons_sets _ _ _ _ _ Hrun Hstatus)
    as (n & T & Hone & Hhow & _ & Hc & _).
  destruct (put_lessons_success _ _ _ _ _ Hrun Hstatus)
    as (_ & _ & _ & H & _).
  exists n, (Lessons srv'). repeat split; auto.
  unfold get_lessons. now rewrite Hc, H.
Qed.

Lemma get_lessons_after_update_witness :
  exists n lessons,
    Js.Number (Req.spaces (spaces_request "Math" "Paris" (JNum 3%float)))
    = Return n /\
    get_lessons (Driver.Resolves tt) paris_booked
    = (mkReply 200 (LessonList lessons), paris_booked) /\
    one_spaces_set n (Lessons online) lessons /\
    ((exists s c,
         Req.subject (spaces_request "Math" "Paris" (JNum 3%float))
         = Some (JStr s) /\
         Req.city (spaces_request "Math" "Paris" (JNum 3%float))
         = Some (JStr c) /\
         spaces_set_to s c n (Lessons online) lessons)
     \/ queries (spaces_request "Math" "Paris" (JNum 3%float)) = true).
Proof.
  apply (get_lessons_after_update resolves online paris_booked
           (spaces_request "Math" "Paris" (JNum 3%float))
           (res_json (SpacesUpdated (Some (JStr "Math")) (Some (JStr "Paris"))
                        3%float)));
    reflexivity.
Defined.

(** X15.  A request that is not answered 200 changes nothing, and a GET
    changes nothing whatever it is answered: the state after it is the
    state before, whatever the driver answered. *)
Theorem handle_failure_keeps_state
  (router : option (list Router.Layer)) (srv srv' : Server) (e : Event)
  (r : Reply) :
  handle router srv e = (Some r, srv') ->
  (status_code r <> 200 -> srv' = srv) /\
  match e with
  | PostOrder _ _ _ | PutLessons _ _ => True
  | _ => srv' = srv
  end.
Proof.
  destruct e as [|now| |db|req now db|req db|resolves]; simpl; intros He.
  - inversion He; subst. now split.
  - inversion He; subst. now split.
  - inversion He; subst. now split.
  - destruct (get_lessons db srv) as [r0 s0] eqn:G. inversion He; subst.
    pose proof (get_lessons_effect db srv) as [Hs _]. rewrite G in Hs.
    simpl in Hs. now split.
  - destruct (post_order db srv req now) as [r0 s0] eqn:Hp.
    inversion He; subst. split; [|exact I]. simpl. intros Hcode.
    destruct (post_order_effect _ _ _ _ _ _ Hp) as (_ & _ & [[_ Hs]|[Hs _]]);
      [assumption|contradiction].
  - destruct (put_lessons db srv req) as [r0 s0] eqn:Hp.
    inversion He; subst. split; [|exact I]. simpl. intros Hcode.
    now apply (put_lessons_effect _ _ _ _ _ Hp).
  - discriminate.
Qed.

Lemma handle_failure_keeps_state_witness :
  ((status_code (mkReply 404 (Json (Message "Lesson or city not found")))
    <> 200 -> online = online) /\ True) /\
  ((status_code (mkReply 500 (Json (Message "Failed to save order")))
    <> 200 -> online = online) /\ True).
Proof.
  split.
  - apply (handle_failure_keeps_state None online online
             (PutLessons (spaces_request "Math" "Rome" (JNum 3%float))
                resolves)
             (mkReply 404 (Json (Message "Lesson or city not found")))).
    reflexivity.
  - apply (handle_failure_keeps_state None online online
             (PostOrder jane 0 lost)
             (mkReply 500 (Json (Message "Failed to save order")))).
    reflexivity.
Defined.

(** ** The route lister *)

Lemma upper_upper (c : ascii) : JsCase.upper (JsCase.upper c) = JsCase.upper c.
Proof.
  unfold JsCase.upper.
  destruct ((97 <=? code c) && (code c <=? 122))%N eqn:E.
  - apply andb_true_iff in E as [E1 E2]. apply N.leb_le in E1, E2.
    assert (Hc : code (ascii_of_N (code c - 32)) = (code c - 32)%N)
      by (apply N_ascii_embedding; lia).
    rewrite Hc.
    assert ((97 <=? code c - 32)%N = false) as -> by (apply N.leb_gt; lia).
    reflexivity.
  - now rewrite E.
Qed.

Lemma toUpperCase_twice (s : string) :
  JsCase.toUpperCase (JsCase.toUpperCase s) = JsCase.toUpperCase s.
Proof.
  induction s as [|c r IH]; simpl; [reflexivity|].
  now rewrite upper_upper, IH.
Qed.

Lemma first_method_upper (r : Router.Route) :
  first_method r <> "" /\
  JsCase.toUpperCase (first_method r) = first_method r.
Proof.
  unfold first_method. destruct (Router.methods r) as [|m ms].
  - split; [discriminate|reflexivity].
  - destruct (String.eqb_spec (JsCase.toUpperCase m) "") as [E|E].
    + split; [discriminate|reflexivity].
    + split; [assumption|apply toUpperCase_twice].
Qed.

(** X16.  The route lister answers 200 with one entry for each layer of
    the stack that has a route with a path, in the order of the stack,
    and none for a middleware: every entry has a path, and a method in
    upper case that is not empty ([GET] when the route has none).  For
    the stack of this application, whatever middlewares sit among its
    routes, the entries are GET /, GET /health, GET /__routes,
    GET /api/lessons, POST /api/order and PUT /api/lessons; without a
    router the list is empty. *)
Theorem get_routes_lists_routes :
  get_routes None = mkReply 200 (Routes []) /\
  (forall stack,
      filter routed stack = app_routes ->
      get_routes (Some stack) = mkReply 200 (Routes app_listing)) /\
  (forall stack,
      exists entries,
        get_routes (Some stack) = mkReply 200 (Routes entries) /\
        map path entries
        = map (fun l => match Router.route l with
                        | Some r => Router.path r
                        | None => ""
                        end) (filter routed stack) /\
        Forall (fun entry =>
                  path entry <> "" /\ method entry <> "" /\
                  JsCase.toUpperCase (method entry) = method entry)
               entries).
Proof.
  split; [reflexivity|split].
  - intros stack Hs. unfold get_routes. now rewrite Hs.
  - intros stack. eexists. split; [reflexivity|split].
    + rewrite map_map. apply map_ext_in. intros l Hl.
      unfold describe. now destruct (Router.route l).
    + apply Forall_forall. intros entry Hin.
      apply in_map_iff in Hin as (l & <- & Hl).
      apply filter_In in Hl as [_ Hr]. unfold routed, describe in *.
      destruct (Router.route l) as [r|]; [|discriminate]. simpl.
      split; [|apply first_method_upper].
      apply negb_true_iff in Hr. now apply String.eqb_neq.
Qed.

Lemma get_routes_lists_routes_witness :
  get_routes (Some app_stack) = mkReply 200 (Routes app_listing).
Proof.
  apply get_routes_lists_routes. reflexivity.
Defined.

(** ** When the spaces update succeeds *)

(** X17.  The spaces handler answers 200 exactly when the store is
    connected, the request passes validation (subject and city not
    empty, spaces present and reading as a finite number that is not
    negative), the update resolves and it has matched a lesson: for a
    subject and a city given as text, when some lesson offers them
    together; with a query document in the filter, when the database
    found a lesson and a location for it. *)
Theorem put_lessons_200_iff (db : Driver.Answer Driver.Match) (srv : Server)
  (req : Req.Spaces) :
  status (fst (put_lessons db srv req)) = 200 <->
  connected srv = true /\
  exists n found,
    validated req n /\
    db = Driver.Resolves found /\
    request_matched req found (Lessons srv).
Proof.
  unfold request_matched. split.
  - intros Hstatus.
    destruct (put_lessons db srv req) as [r srv'] eqn:Hrun.
    destruct (put_lessons_success _ _ _ _ _ Hrun Hstatus)
      as (n & found & docs' & H & V & Hdb & _ & _ & Hhow).
    split; [assumption|]. exists n, found. repeat split; auto; try apply V.
    destruct Hhow as [(s & c & Es & Ec & Hk & _)|(Q & i & j & -> & Hset)].
    + assert (queries req = false) as ->
        by (unfold queries; now rewrite Es, Ec).
      exists s, c. repeat split; auto.
      now apply (matched_iff_offered s c n).
    + rewrite Q. destruct (set_entry_sets i j n _ _ Hset) as [_ [loc Hloc]].
      now exists i, j, loc.
  - intros (H & n & found & V & -> & Hm).
    rewrite put_lessons_validated with (n := n) by assumption.
    destruct (queries req) eqn:Q.
    + destruct Hm as (i & j & loc & -> & Hloc).
      destruct (set_entry_found i j n _ _ Hloc) as [docs' Hset].
      unfold queries in Q. rewrite updateSpaces_query by assumption.
      now rewrite Hset.
    + destruct Hm as (s & c & Es & Ec & Hoff).
      now rewrite Es, Ec, (updateSpaces_offered found srv s c n Hoff).
Qed.

Lemma put_lessons_200_iff_witness :
  status (fst (put_lessons resolves online
                 (spaces_request "Math" "Paris" (JStr " 3 ")))) = 200 /\
  status (fst (put_lessons (Driver.Resolves (Driver.Entry 0 0)) online
                 (any_lesson (JNum 3%float)))) = 200.
Proof.
  split.
  - apply (put_lessons_200_iff resolves online
             (spaces_request "Math" "Paris" (JStr " 3 "))).
    split; [reflexivity|].
    exists 3%float, Driver.Nothing. repeat split; try reflexivity.
    exists "Math", "Paris". repeat split.
    exists math, (mkLocation "Paris" 2%float []).
    repeat split; simpl; auto.
  - apply (put_lessons_200_iff (Driver.Resolves (Driver.Entry 0 0)) online
             (any_lesson (JNum 3%float))).
    split; [reflexivity|].
    exists 3%float, (Driver.Entry 0 0). repeat split; try reflexivity.
    now exists 0%nat, 0%nat, (mkLocation "Berlin" 5%float []).
Defined.
